(** * BotGrid: the ShotGrid-to-Slack notification relay of [bot.py]

    A shallow embedding of the webhook, its four reachable handlers, the
    unreachable Asset handler, the recipient resolvers, the Slack fan-out
    and the [Throttler], followed by the properties of the routing and
    delivery core.

    Conventions of the embedding:
    - a Python [str]-or-[None] value is an [option string] ([pystr]);
    - a key of a record returned by ShotGrid is [Missing], [Null]
      (present, value [None]) or [Has v], so that [d.get(k, default)],
      [d[k]] and [k in d] keep their three different behaviours;
    - the two external services are oracles ([TrackingSource],
      [SlackClient]); every call to them is recorded, in program order, in
      the [trace] of the [World], together with the [logging] calls;
    - Python exceptions are the [Raise] results of the monad [M];
    - the failures of the Slack client that are not API errors are kept
      apart, in the module [Network];
    - [time.time()] readings are rationals: only what is insensitive to
      the rounding of the float subtraction is stated of the limiter. *)

From Stdlib Require Import ZArith QArith Lqa Lia.
From stdpp Require Import base option list strings gmap pretty.

Close Scope Q_scope.
Open Scope string_scope.
Open Scope list_scope.
Open Scope Z_scope.

(** ** Python values *)

Definition pystr := option string.

Inductive pyval :=
  | PyNone
  | PyInt (n : Z)
  | PyStr (s : string).

Inductive field (A : Type) :=
  | Missing
  | Null
  | Has (a : A).
Arguments Missing {A}.
Arguments Null {A}.
Arguments Has {A} a.

(** The line feed of ["\n"]. *)
Definition nl : string := String (Ascii.ascii_of_nat 10) EmptyString.

(** [f"{s}"] for a [str] or [None]. *)
Definition fmt (s : pystr) : string := default "None" s.

(** [f"{v}"] for an identifier. *)
Definition fmt_val (v : pyval) : string :=
  match v with
  | PyNone => "None"
  | PyInt n => pretty n
  | PyStr s => s
  end.

(** [d.get(k, default)]: the default only replaces a missing key. *)
Definition dict_get {A} (f : field A) (d : A) : option A :=
  match f with
  | Missing => Some d
  | Null => None
  | Has a => Some a
  end.

(** [d.get(k)]. *)
Definition dict_get_none {A} (f : field A) : option A :=
  match f with
  | Has a => Some a
  | _ => None
  end.

(** Truth value of a [str] or [None]. *)
Definition truthy (s : pystr) : bool :=
  match s with
  | Some s => bool_decide (s ≠ "")
  | None => false
  end.

(** Truth value of a [list] or [None]. *)
Definition truthy_list {A} (l : option (list A)) : bool :=
  match l with
  | Some (_ :: _) => true
  | _ => false
  end.

(** ** Throttler *)

Record Throttler := {
  max_calls : Z;
  period : Q;
  calls : Z;
  last_reset : Q
}.

(** [Throttler.__init__], with the clock reading [now]. *)
Definition Throttler_init (max_calls : Z) (period : Q) (now : Q) : Throttler :=
  {| max_calls := max_calls; period := period; calls := 0; last_reset := now |}.

(** [Throttler.throttle]; the lock makes the body one atomic step. *)
Definition throttle (current_time : Q) (self : Throttler) : bool * Throttler :=
  let self :=
    if Qlt_le_dec (period self) (current_time - last_reset self)%Q
    then {| max_calls := max_calls self; period := period self;
            calls := 0; last_reset := current_time |}
    else self in
  if (calls self <? max_calls self)%Z
  then (true, {| max_calls := max_calls self; period := period self;
                 calls := calls self + 1; last_reset := last_reset self |})
  else (false, self).

(** A sequence of [throttle] calls at the given clock readings. *)
Fixpoint throttle_all (times : list Q) (self : Throttler) : list bool * Throttler :=
  match times with
  | [] => ([], self)
  | t :: times =>
      let '(b, self) := throttle t self in
      let '(bs, self) := throttle_all times self in
      (b :: bs, self)
  end.

(** ** Records of the tracking source *)

Record EntityLink := {
  link_type : string;
  link_id : Z;
  link_name : string
}.

Record Assignee := { assignee_id : Z }.

Record AttachmentLink := { attachment_id : Z }.

Record HumanUser := { user_email : field string }.

Record ShotRec := {
  shot_code : field string;
  shot_project_name : field string;
  shot_sequence_code : field string
}.

Record AssetRec := {
  asset_code : field string;
  asset_project_name : field string
}.

Record VersionRec := {
  version_code : field string;
  version_project_name : field string;
  version_shot_code : field string
}.

Record TaskRec := {
  task_entity : field EntityLink;
  task_step_short_name : field string;
  task_assignees : field (list Assignee)
}.

Record NoteRec := {
  note_content : field string;
  note_links : field (list EntityLink);
  note_created_by_email : field string;
  note_created_by_name : field string;
  note_attachments : field (list AttachmentLink)
}.

(** [this_file] holds the ["url"] of the file. *)
Record AttachmentRec := { this_file : field pystr }.

Record ReplyRec := {
  reply_content : field string;
  reply_note_content : field string;
  reply_note_links : field (list EntityLink);
  reply_created_by_email : field string
}.

(** [shotgrid_connection]: [find_one] per entity kind, filtered on [id],
    and [find] of the tasks whose [entity] is a given entity. *)
Record TrackingSource := {
  find_one_HumanUser : pyval → option HumanUser;
  find_one_Shot : pyval → option ShotRec;
  find_one_Asset : pyval → option AssetRec;
  find_one_Version : pyval → option VersionRec;
  find_one_Task : pyval → option TaskRec;
  find_one_Note : pyval → option NoteRec;
  find_one_Attachment : pyval → option AttachmentRec;
  find_one_Reply : pyval → option ReplyRec;
  find_Task : string → pyval → list TaskRec
}.

(** [client]: each call answers ([inl]) or raises [SlackApiError] with an
    error string ([inr]). [users_lookupByEmail] answers the user's id,
    [chat_postMessage] the timestamp of the message. The failures that
    are not a [SlackApiError] are the matter of [Network] below. *)
Record SlackClient := {
  users_lookupByEmail : pystr → string + string;
  chat_postMessage : string → string → string + string
}.

(** ** The webhook's JSON envelope *)

Record Meta := {
  entity_type : pystr;
  entity_id : pyval;
  attribute_name : pystr;
  old_value : pystr;
  new_value : pystr;
  added : field (list Assignee);
  removed : field (list Assignee)
}.

Record EventData := {
  meta : Meta;
  operation : pystr;
  event_type : pystr
}.

(** [request.json]: falsy, or an object whose ["data"] is read, or not
    readable at all: for a body that is not declared as JSON, or does
    not parse, reading [request.json] raises an HTTP exception of the
    given class (Flask then answers 415 or 400 by itself). *)
Inductive Request :=
  | NoJson
  | Json (data : EventData)
  | Unreadable (class_name : string) (msg : string).

Definition Response : Type := string * Z.

(** ** Effects *)

Inductive Level := INFO | WARNING | ERROR.

Inductive Query :=
  | FindOne (kind : string) (id : pyval)
  | Find (kind : string) (entity_kind : string) (id : pyval).

Inductive Event :=
  | EvQuery (q : Query)
  | EvLookup (email : pystr)
  | EvPost (channel : string) (text : string)
  | EvLog (level : Level) (msg : string).

(** The process state: the global [throttler] and what the process has
    done so far. *)
Record World := {
  throttler : Throttler;
  trace : list Event
}.

Definition emit (w : World) (evs : list Event) : World :=
  {| throttler := throttler w; trace := trace w ++ evs |}.

Inductive exn :=
  | SlackApiError (error : string)
  | KeyError (key : string)
  | AttributeError (msg : string)
  | TypeError (msg : string)
  | OtherError (class_name : string) (msg : string).

Inductive result (A : Type) :=
  | Ok (a : A)
  | Raise (e : exn).
Arguments Ok {A} a.
Arguments Raise {A} e.

Definition M (A : Type) : Type := World → result A * World.

Definition ret {A} (a : A) : M A := λ w, (Ok a, w).

Definition raise {A} (e : exn) : M A := λ w, (Raise e, w).

Definition bind {A B} (m : M A) (k : A → M B) : M B :=
  λ w, match m w with
       | (Ok a, w) => k a w
       | (Raise e, w) => (Raise e, w)
       end.

Notation "'let*' x ':=' m 'in' k" := (bind m (λ x, k))
  (at level 10, x pattern, m at level 200, k at level 200).
Notation "m ';;' k" := (bind m (λ _, k))
  (at level 100, k at level 200, right associativity).

(** [try: m  except E as e: h e], for the exceptions [E] selected by
    [catches]. *)
Definition try_except {A} (m : M A) (catches : exn → bool) (h : exn → M A) : M A :=
  λ w, match m w with
       | (Ok a, w) => (Ok a, w)
       | (Raise e, w) => if catches e then h e w else (Raise e, w)
       end.

Definition is_SlackApiError (e : exn) : bool :=
  match e with SlackApiError _ => true | _ => false end.

(** [for x in xs: s = body x s], the loop threading the variables [s] it
    assigns. *)
Fixpoint for_fold {A S} (xs : list A) (s : S) (body : A → S → M S) : M S :=
  match xs with
  | [] => ret s
  | x :: xs => let* s := body x s in for_fold xs s body
  end.

Definition for_each {A} (xs : list A) (body : A → M unit) : M unit :=
  for_fold xs tt (λ x _, body x).

Definition tell (ev : Event) : M unit := λ w, (Ok tt, emit w [ev]).

Definition logging (level : Level) (msg : string) : M unit := tell (EvLog level msg).

(** [str(e)] *)
Definition exn_str (e : exn) : string :=
  match e with
  | SlackApiError error => error
  | KeyError key => "'" +:+ key +:+ "'"
  | AttributeError msg => msg
  | TypeError msg => msg
  | OtherError _ msg => msg
  end.

(** ** The status tables

    The module binds the global name [STATUS_DESCRIPTIONS] twice, above
    [handle_shot_event] and above [handle_asset_event]. *)

(** The first binding (the table written above [handle_shot_event]). *)
Definition SHOT_STATUS_DESCRIPTIONS : gmap string string :=
  list_to_map [
    ("wtg", "Waiting to Start");
    ("rdy", "Ready to Start");
    ("ip", "In Progress");
    ("qc", "Quality Control");
    ("hld", "On Hold");
    ("omt", "Omit");
    ("pla", "Plate");
    ("extrev", "Pending External Review");
    ("prop", "Proposed Final");
    ("rfd", "Ready for Delivery");
    ("fin", "Final");
    ("rev", "Pending Review");
    ("rc", "Requires Changes")
  ].

(** The second binding (the table written above [handle_asset_event]). *)
Definition ASSET_STATUS_DESCRIPTIONS : gmap string string :=
  list_to_map [
    ("wtg", "Waiting to Start");
    ("rdy", "Ready to Start");
    ("ip", "In Progress");
    ("hld", "On Hold");
    ("omt", "Omit");
    ("ia", "Internally Approved");
    ("rev", "Pending Review");
    ("nupt", "New update");
    ("rc", "Requires Changes");
    ("lib", "Library");
    ("prop", "Proposed Final");
    ("qc", "Quality Control");
    ("fin", "Final")
  ].

(** The module's namespace once the file has been executed from top to
    bottom: each assignment rebinds its name. The server only starts on
    the last line, so every request sees this namespace. *)
Definition module_globals : gmap string (gmap string string) :=
  <["STATUS_DESCRIPTIONS" := ASSET_STATUS_DESCRIPTIONS]>
    (<["STATUS_DESCRIPTIONS" := SHOT_STATUS_DESCRIPTIONS]> ∅).

(** What the name [STATUS_DESCRIPTIONS] denotes inside a handler. *)
Definition STATUS_DESCRIPTIONS : gmap string string :=
  default ∅ (module_globals !! "STATUS_DESCRIPTIONS").

(** [table.get(value, value)] *)
Definition status_get (table : gmap string string) (value : pystr) : pystr :=
  match value with
  | None => None
  | Some code => Some (default code (table !! code))
  end.

(** ** The program *)

Section Program.

Variable shotgrid_connection : TrackingSource.
Variable client : SlackClient.

(** The calls to the two services, each recorded in the trace. *)
Definition sg_find_one {R} (kind : string) (table : TrackingSource → pyval → option R)
    (id : pyval) : M (option R) :=
  tell (EvQuery (FindOne kind id));;
  ret (table shotgrid_connection id).

Definition sg_find_Task (entity_kind : string) (id : pyval) : M (list TaskRec) :=
  tell (EvQuery (Find "Task" entity_kind id));;
  ret (find_Task shotgrid_connection entity_kind id).

Definition client_users_lookupByEmail (email : pystr) : M string :=
  tell (EvLookup email);;
  match users_lookupByEmail client email with
  | inl id => ret id
  | inr error => raise (SlackApiError error)
  end.

Definition client_chat_postMessage (channel text : string) : M string :=
  tell (EvPost channel text);;
  match chat_postMessage client channel text with
  | inl ts => ret ts
  | inr error => raise (SlackApiError error)
  end.

Definition send_slack_message (slack_user_id text : string) : M unit :=
  try_except
    (let* ts := client_chat_postMessage slack_user_id text in
     logging INFO ("Message sent successfully at " +:+ ts +:+ " to " +:+ slack_user_id))
    is_SlackApiError
    (λ e, logging ERROR ("Error sending message: " +:+ exn_str e)).

Definition get_shotgrid_user_email (user_id : Z) : M pystr :=
  let* user := sg_find_one "HumanUser" find_one_HumanUser (PyInt user_id) in
  match user with
  | Some user =>
      match user_email user with
      | Missing => ret None
      | Null => ret None
      | Has email => ret (Some email)
      end
  | None => ret None
  end.

Definition find_slack_user_by_email (email : pystr) : M pystr :=
  try_except
    (let* slack_user_id := client_users_lookupByEmail email in
     ret (Some slack_user_id))
    is_SlackApiError
    (λ e, logging ERROR ("Error finding Slack user by email: " +:+ exn_str e);;
          ret None).

(** The dict [assigned_users], from pipeline step to the list of emails,
    in insertion order. *)
Definition step_dict : Type := list (pystr * list pystr).

(** [if k not in d: d[k] = []] followed by [d[k].append(v)]. *)
Fixpoint dict_append (d : step_dict) (k : pystr) (v : pystr) : step_dict :=
  match d with
  | [] => [(k, [v])]
  | (k', vs) :: d =>
      if decide (k' = k) then (k', vs ++ [v]) :: d
      else (k', vs) :: dict_append d k v
  end.

(** The loop over [tasks] that [get_assigned_users_from_tasks] and
    [get_assigned_users_from_asset_tasks] share word for word. *)
Definition collect_assigned_users (tasks : list TaskRec) : M step_dict :=
  for_fold tasks [] (λ task assigned_users,
    let task_assignees := dict_get (task_assignees task) [] in
    let pipeline_step := dict_get (task_step_short_name task) "Unknown Step" in
    match task_assignees with
    | Some ((_ :: _) as task_assignees) =>
        for_fold task_assignees assigned_users (λ assignee assigned_users,
          let* user_data :=
            sg_find_one "HumanUser" find_one_HumanUser (PyInt (assignee_id assignee)) in
          match user_data with
          | Some user_data =>
              match user_email user_data with
              | Missing => raise (KeyError "email")
              | Null => ret (dict_append assigned_users pipeline_step None)
              | Has user_email =>
                  ret (dict_append assigned_users pipeline_step (Some user_email))
              end
          | None => ret assigned_users
          end)
    | _ => ret assigned_users
    end).

Definition get_assigned_users_from_tasks (shot_id : pyval)
    : M (option step_dict * pystr * pystr * pystr) :=
  let* shot_details := sg_find_one "Shot" find_one_Shot shot_id in
  match shot_details with
  | None =>
      logging ERROR ("Could not retrieve shot details for Shot ID: " +:+ fmt_val shot_id);;
      ret (None, None, None, None)
  | Some shot_details =>
      let shot_name := dict_get (shot_code shot_details) "Unknown Shot" in
      let sequence_name := dict_get (shot_sequence_code shot_details) "Unknown Sequence" in
      let project_name := dict_get (shot_project_name shot_details) "Unknown Project" in
      let* tasks := sg_find_Task "Shot" shot_id in
      let* assigned_users := collect_assigned_users tasks in
      ret (Some assigned_users, shot_name, sequence_name, project_name)
  end.

Definition get_assigned_users_from_asset_tasks (asset_id : pyval)
    : M (option step_dict * pystr * pystr) :=
  let* asset_details := sg_find_one "Asset" find_one_Asset asset_id in
  match asset_details with
  | None =>
      logging ERROR ("Could not retrieve asset details for Asset ID: " +:+ fmt_val asset_id);;
      ret (None, None, None)
  | Some asset_details =>
      let asset_name := dict_get (asset_code asset_details) "Unknown Asset" in
      let project_name := dict_get (asset_project_name asset_details) "Unknown Project" in
      let* tasks := sg_find_Task "Asset" asset_id in
      let* assigned_users := collect_assigned_users tasks in
      ret (Some assigned_users, asset_name, project_name)
  end.

(** Truth value of the dict-or-[None] a resolver returns. *)
Definition truthy_dict (d : option step_dict) : bool := truthy_list d.

Definition get_assigned_users_from_version_tasks (version_id : pyval)
    : M (option step_dict * pystr * pystr) :=
  let* version_details := sg_find_one "Version" find_one_Version version_id in
  match version_details with
  | None =>
      logging ERROR ("Could not retrieve version details for Version ID: "
                     +:+ fmt_val version_id);;
      ret (None, None, None)
  | Some version_details =>
      let version_name := dict_get (version_code version_details) "Unknown Version" in
      let project_name := dict_get (version_project_name version_details) "Unknown Project" in
      let shot_id := dict_get_none (version_shot_code version_details) in
      if negb (truthy shot_id) then
        logging WARNING ("No shot linked to Version ID: " +:+ fmt_val version_id);;
        ret (Some [], version_name, project_name)
      else
        let* (assigned_users_by_step, shot_name, sequence_name, project_name) :=
          get_assigned_users_from_tasks (PyStr (fmt shot_id)) in
        if negb (truthy_dict assigned_users_by_step) then
          logging WARNING ("No assigned users found for Shot ID: " +:+ fmt shot_id);;
          ret (Some [], version_name, project_name)
        else ret (assigned_users_by_step, version_name, project_name)
  end.

Definition get_attachments_ids_from_note_id (node_id : pyval) : M (list Z) :=
  let* note := sg_find_one "Note" find_one_Note node_id in
  let no_attachments :=
    logging WARNING ("No attachments found for Note ID: " +:+ fmt_val node_id);;
    ret [] in
  match note with
  | None => no_attachments
  | Some note =>
      match note_attachments note with
      | Missing => no_attachments
      | Null => raise (TypeError "'NoneType' object is not iterable")
      | Has attachments => ret (attachment_id <$> attachments)
      end
  end.

Definition get_file_url_from_attachment_id (attachment_id : Z) : M pystr :=
  let* attachment :=
    sg_find_one "Attachment" find_one_Attachment (PyInt attachment_id) in
  let not_found :=
    logging WARNING ("Attachment ID " +:+ pretty attachment_id +:+ " not found.");;
    ret (Some "") in
  match attachment with
  | None => not_found
  | Some attachment =>
      match this_file attachment with
      | Missing => not_found
      | Null => raise (TypeError "'NoneType' object is not subscriptable")
      | Has url => ret url
      end
  end.

(** The Context prefix and the body, as one message. *)
Definition personalized (project_name sequence_name shot_name step : pystr)
    (message_content : string) : string :=
  "In " +:+ fmt project_name +:+ "|" +:+ fmt sequence_name +:+ "|" +:+ fmt shot_name
  +:+ "|" +:+ fmt step +:+ nl +:+ message_content.

Definition send_message_to_assigned_users (assigned_users_by_step : step_dict)
    (shot_name sequence_name project_name : pystr) (message_content : string) : M unit :=
  for_each assigned_users_by_step (λ '(step, users),
    for_each users (λ email,
      let* slack_user_id := find_slack_user_by_email email in
      if truthy slack_user_id then
        try_except
          (let personalized_message :=
             personalized project_name sequence_name shot_name step message_content in
           send_slack_message (fmt slack_user_id) personalized_message;;
           logging INFO ("Message sent to " +:+ fmt email +:+ " (Slack ID: "
                         +:+ fmt slack_user_id +:+ ") for step " +:+ fmt step))
          is_SlackApiError
          (λ e, logging ERROR ("Error sending message to " +:+ fmt email +:+ ": "
                               +:+ exn_str e))
      else
        logging WARNING ("Could not find Slack user for email: " +:+ fmt email))).

Definition handle_shot_event (event_data : EventData) : M Response :=
  let entity_id := entity_id (meta event_data) in
  let old_value := old_value (meta event_data) in
  let new_value := new_value (meta event_data) in
  let old_description := status_get STATUS_DESCRIPTIONS old_value in
  let new_description := status_get STATUS_DESCRIPTIONS new_value in
  let message_content :=
    "A shot status has been changed from '" +:+ fmt old_description +:+ "' to '"
    +:+ fmt new_description +:+ "'." in
  let* (assigned_users_by_step, shot_name, sequence_name, project_name) :=
    get_assigned_users_from_tasks entity_id in
  match assigned_users_by_step with
  | Some ((_ :: _) as assigned_users_by_step) =>
      for_each assigned_users_by_step (λ '(step, users),
        let personalized_message := message_content in
        send_message_to_assigned_users [(step, users)] shot_name sequence_name project_name
          personalized_message);;
      ret ("success", 200)
  | _ =>
      logging WARNING ("No assigned users found for Shot ID: " +:+ fmt_val entity_id);;
      ret ("No assigned users found", 404)
  end.

(** The loop of [handle_note_event] over the attachments, left by [break]
    at the first truthy URL; [annotated_frame_url] starts as [""]. *)
Fixpoint first_file_url (attachment_ids : list Z) : M string :=
  match attachment_ids with
  | [] => ret ""
  | attachment_id :: attachment_ids =>
      let* file_url := get_file_url_from_attachment_id attachment_id in
      if truthy file_url then ret (fmt file_url)
      else first_file_url attachment_ids
  end.

(** [time.sleep(3)] only delays the handler and is left out. *)
Definition handle_note_event (event_data : EventData) : M Response :=
  let note_id := entity_id (meta event_data) in
  logging INFO ("New note created with ID: " +:+ fmt_val note_id);;
  let* note_details := sg_find_one "Note" find_one_Note note_id in
  match note_details with
  | None =>
      logging ERROR ("Could not retrieve details for Note ID: " +:+ fmt_val note_id);;
      ret ("Note details not found", 404)
  | Some note_details =>
      let note_content := dict_get (note_content note_details) "No content" in
      let note_links := dict_get (note_links note_details) [] in
      let created_by_name := dict_get (note_created_by_name note_details) "unknown user" in
      match note_links with
      | Some (linked_entity :: _) =>
          let linked_entity_type := link_type linked_entity in
          let linked_entity_id := PyInt (link_id linked_entity) in
          let message_content :=
            fmt created_by_name +:+ " added a note:" +:+ nl +:+ fmt note_content in
          let* attachment_ids := get_attachments_ids_from_note_id note_id in
          let* annotated_frame_url := first_file_url attachment_ids in
          let message_content :=
            if bool_decide (annotated_frame_url ≠ "")
            then message_content +:+ nl +:+ "Annotated Frame: " +:+ annotated_frame_url
            else message_content in
          if bool_decide (linked_entity_type = "Shot") then
            let* (assigned_users_by_step, shot_name, sequence_name, project_name) :=
              get_assigned_users_from_tasks linked_entity_id in
            match assigned_users_by_step with
            | Some ((_ :: _) as assigned_users_by_step) =>
                for_each assigned_users_by_step (λ '(step, users),
                  send_message_to_assigned_users [(step, users)] shot_name sequence_name
                    project_name message_content);;
                ret ("success", 200)
            | _ =>
                logging WARNING ("No assigned users found for linked Shot ID: "
                                 +:+ fmt_val linked_entity_id);;
                ret ("No assigned users found for linked Shot", 404)
            end
          else if bool_decide (linked_entity_type = "Asset") then
            let* (assigned_users_by_step, asset_name, project_name) :=
              get_assigned_users_from_asset_tasks linked_entity_id in
            match assigned_users_by_step with
            | Some ((_ :: _) as assigned_users_by_step) =>
                for_each assigned_users_by_step (λ '(step, users),
                  send_message_to_assigned_users [(step, users)] asset_name (Some "N/A")
                    project_name message_content);;
                ret ("success", 200)
            | _ =>
                logging WARNING ("No assigned users found for linked Asset ID: "
                                 +:+ fmt_val linked_entity_id);;
                ret ("No assigned users found for linked Asset", 404)
            end
          else if bool_decide (linked_entity_type = "Version")
                  || bool_decide (linked_entity_type = "Note, Shotgun_Note_Change")
                  || bool_decide (linked_entity_type = "Playlist") then
            let* (assigned_users_by_step, version_name, project_name) :=
              get_assigned_users_from_version_tasks linked_entity_id in
            match assigned_users_by_step with
            | Some ((_ :: _) as assigned_users_by_step) =>
                for_each assigned_users_by_step (λ '(step, users),
                  send_message_to_assigned_users [(step, users)] version_name (Some "N/A")
                    project_name message_content);;
                ret ("success", 200)
            | _ =>
                logging WARNING ("No assigned users found for linked Version ID: "
                                 +:+ fmt_val linked_entity_id);;
                ret ("No assigned users found for linked Version", 404)
            end
          else
            logging WARNING ("Unsupported linked entity type: " +:+ linked_entity_type
                             +:+ " for Note ID: " +:+ fmt_val note_id);;
            ret ("Unsupported linked entity type", 400)
      | _ =>
          logging WARNING ("No linked entities found for Note ID: " +:+ fmt_val note_id);;
          ret ("No linked entities found", 404)
      end
  end.

(** [for x in l], where [l] may be [None]. *)
Definition for_each_iter {A} (l : option (list A)) (body : A → M unit) : M unit :=
  match l with
  | Some l => for_each l body
  | None => raise (TypeError "'NoneType' object is not iterable")
  end.

(** The body shared by the two loops of [handle_task_assignment_event],
    which differ in the sentence [what] only. *)
Definition notify_assignee (project_name sequence_name : pystr) (shot_name : string)
    (step_name : pystr) (what : string) (assignee : Assignee) : M unit :=
  let* user_email := get_shotgrid_user_email (assignee_id assignee) in
  if truthy user_email then
    let* slack_user_id := find_slack_user_by_email user_email in
    if truthy slack_user_id then
      let message_content :=
        personalized project_name sequence_name (Some shot_name) step_name what in
      send_slack_message (fmt slack_user_id) message_content
    else logging WARNING ("Slack user not found for email: " +:+ fmt user_email)
  else ret tt.

Definition handle_task_assignment_event (event_data : EventData) : M Response :=
  let entity_id := entity_id (meta event_data) in
  let attribute_name := attribute_name (meta event_data) in
  if bool_decide (attribute_name ≠ Some "task_assignees") then
    logging INFO ("Change in Task ID " +:+ fmt_val entity_id
                  +:+ " is not related to task assignments.");;
    ret ("Not a task assignment event", 200)
  else
    let added_assignees := dict_get (added (meta event_data)) [] in
    let removed_assignees := dict_get (removed (meta event_data)) [] in
    let* task_details := sg_find_one "Task" find_one_Task entity_id in
    match task_details with
    | None =>
        logging ERROR ("Could not retrieve details for Task ID: " +:+ fmt_val entity_id);;
        ret ("Task details not found", 404)
    | Some task_details =>
        let linked_shot := dict_get_none (task_entity task_details) in
        let step_name := dict_get (task_step_short_name task_details) "Unknown Step" in
        let not_linked :=
          logging INFO ("Task " +:+ fmt_val entity_id +:+ " is not linked to a Shot.");;
          ret ("Not linked to a Shot", 200) in
        match linked_shot with
        | Some linked_shot =>
            if bool_decide (link_type linked_shot = "Shot") then
              let shot_id := link_id linked_shot in
              let shot_name := link_name linked_shot in
              let* shot_details := sg_find_one "Shot" find_one_Shot (PyInt shot_id) in
              match shot_details with
              | None => raise (AttributeError "'NoneType' object has no attribute 'get'")
              | Some shot_details =>
                  let project_name :=
                    dict_get (shot_project_name shot_details) "Unknown Project" in
                  let sequence_name :=
                    dict_get (shot_sequence_code shot_details) "Unknown Sequence" in
                  for_each_iter added_assignees
                    (notify_assignee project_name sequence_name shot_name step_name
                       "You have been assigned to a task.");;
                  for_each_iter removed_assignees
                    (notify_assignee project_name sequence_name shot_name step_name
                       "You have been removed from a task.");;
                  ret ("success", 200)
              end
            else not_linked
        | None => not_linked
        end
    end.

(** Never called by [webhook]. *)
Definition handle_asset_event (event_data : EventData) : M Response :=
  let entity_id := entity_id (meta event_data) in
  let old_value := old_value (meta event_data) in
  let new_value := new_value (meta event_data) in
  let old_description := status_get STATUS_DESCRIPTIONS old_value in
  let new_description := status_get STATUS_DESCRIPTIONS new_value in
  let message_content :=
    "An asset's status has been changed from '" +:+ fmt old_description +:+ "' to '"
    +:+ fmt new_description +:+ "'." in
  let* (assigned_users_by_step, asset_name, project_name) :=
    get_assigned_users_from_asset_tasks entity_id in
  match assigned_users_by_step with
  | Some ((_ :: _) as assigned_users_by_step) =>
      for_each assigned_users_by_step (λ '(step, users),
        let personalized_message := message_content in
        send_message_to_assigned_users [(step, users)] asset_name (Some "N/A") project_name
          personalized_message);;
      logging INFO ("Notification sent for Asset ID: " +:+ fmt_val entity_id);;
      ret ("success", 200)
  | _ =>
      logging WARNING ("No assigned users found for Asset ID: " +:+ fmt_val entity_id);;
      ret ("No assigned users found", 404)
  end.

Definition handle_reply_event (event_data : EventData) : M Response :=
  let reply_id := entity_id (meta event_data) in
  logging INFO ("New reply created with ID: " +:+ fmt_val reply_id);;
  let* reply_details := sg_find_one "Reply" find_one_Reply reply_id in
  match reply_details with
  | None =>
      logging ERROR ("Could not retrieve details for Reply ID: " +:+ fmt_val reply_id);;
      ret ("Reply details not found", 404)
  | Some reply_details =>
      let reply_content := dict_get (reply_content reply_details) "No content" in
      let note_content :=
        dict_get (reply_note_content reply_details) "No associated note content" in
      let note_links := dict_get (reply_note_links reply_details) [] in
      let created_by_email := dict_get (reply_created_by_email reply_details) "unknown" in
      let* slack_user_id :=
        if truthy created_by_email then find_slack_user_by_email created_by_email
        else ret None in
      let author_copy :=
        if truthy slack_user_id then
          let message_content :=
            "A new Reply has been created by you:" +:+ nl +:+ fmt reply_content +:+ nl
            +:+ "Related Note: " +:+ fmt note_content in
          send_slack_message (fmt slack_user_id) message_content;;
          ret ("success", 200)
        else
          logging WARNING ("No linked entities or Slack user found for Reply ID: "
                           +:+ fmt_val reply_id);;
          ret ("No users found for notification", 404) in
      match note_links with
      | Some (linked_entity :: _) =>
          if bool_decide (link_type linked_entity = "Shot") then
            let linked_shot_id := PyInt (link_id linked_entity) in
            let* (assigned_users_by_step, shot_name, sequence_name, project_name) :=
              get_assigned_users_from_tasks linked_shot_id in
            match assigned_users_by_step with
            | Some ((_ :: _) as assigned_users_by_step) =>
                let message_content :=
                  "A new Reply has been created:" +:+ nl +:+ fmt reply_content +:+ nl
                  +:+ "Related Note: " +:+ fmt note_content in
                send_message_to_assigned_users assigned_users_by_step shot_name
                  sequence_name project_name message_content;;
                ret ("success", 200)
            | _ =>
                logging WARNING ("No assigned users found for linked Shot ID: "
                                 +:+ fmt_val linked_shot_id);;
                ret ("No assigned users found for linked entity", 404)
            end
          else author_copy
      | _ => author_copy
      end
  end.

(** The [if] chain of [webhook] inside its [try]. *)
Definition dispatch (event_data : EventData) : M Response :=
  let entity_type := entity_type (meta event_data) in
  let operation := operation event_data in
  let event_type := event_type event_data in
  if bool_decide (entity_type = Some "Shot") then handle_shot_event event_data
  else if bool_decide (entity_type = Some "Note")
          && bool_decide (event_type = Some "Shotgun_Note_New")
          && bool_decide (operation = Some "create") then handle_note_event event_data
  else if bool_decide (entity_type = Some "Reply")
          && bool_decide (event_type = Some "Shotgun_Reply_New")
          && bool_decide (operation = Some "create") then handle_reply_event event_data
  else if bool_decide (entity_type = Some "Task")
          && bool_decide (event_type = Some "Shotgun_Task_Change")
          && bool_decide (operation = Some "update")
  then handle_task_assignment_event event_data
  else
    logging WARNING ("Unsupported entity type or event: " +:+ fmt entity_type +:+ ", "
                     +:+ fmt event_type);;
    ret ("Entity type or event not supported", 400).

(** The route only accepts POST, so the final [abort(400)] is dead; the
    two [print] calls write to standard output and are left out.
    [request.json] is read in the [if] above the [try]: what it raises
    leaves [webhook]. *)
Definition webhook (request : Request) : M Response :=
  match request with
  | Json event_data =>
      try_except (dispatch event_data) (λ _, true)
        (λ e, logging ERROR ("Error processing the request: " +:+ exn_str e);;
              ret ("Error processing data", 500))
  | NoJson =>
      logging ERROR "No JSON received or invalid data.";;
      ret ("Invalid data format", 400)
  | Unreadable class_name msg => raise (OtherError class_name msg)
  end.

End Program.

(** ** Reading a trace *)

Definition posts_of (tr : list Event) : list (string * string) :=
  omap (λ ev, match ev with EvPost channel text => Some (channel, text) | _ => None end) tr.

Definition lookups_of (tr : list Event) : list pystr :=
  omap (λ ev, match ev with EvLookup email => Some email | _ => None end) tr.

Definition queries_of (tr : list Event) : list Query :=
  omap (λ ev, match ev with EvQuery q => Some q | _ => None end) tr.

(** Events that reach neither Slack call. *)
Definition quiet (ev : Event) : Prop :=
  match ev with
  | EvQuery _ | EvLog _ _ => True
  | EvLookup _ | EvPost _ _ => False
  end.

(** [m] behaves like a writer: its result and the events it appends are
    the same in every world, the events all satisfy [P], and the
    [throttler] is left as it was. *)
Definition emits {A} (P : Event → Prop) (m : M A) : Prop :=
  ∃ r evs, Forall P evs ∧ ∀ w, m w = (r, emit w evs).

(** ** What the fan-out does, as lists *)

(** The (step, email) pairs of a step dict, in iteration order. *)
Definition pairs (d : step_dict) : list (pystr * pystr) :=
  d ≫= λ '(step, users), (λ email, (step, email)) <$> users.

Section Denotation.

Variable client : SlackClient.

(** What [find_slack_user_by_email] returns. *)
Definition chat_id_of (email : pystr) : pystr :=
  match users_lookupByEmail client email with
  | inl id => Some id
  | inr _ => None
  end.

Definition lookup_events (email : pystr) : list Event :=
  EvLookup email ::
  match users_lookupByEmail client email with
  | inl _ => []
  | inr error => [EvLog ERROR ("Error finding Slack user by email: " +:+ error)]
  end.

Definition send_events (slack_user_id text : string) : list Event :=
  [EvPost slack_user_id text;
   match chat_postMessage client slack_user_id text with
   | inl ts =>
       EvLog INFO ("Message sent successfully at " +:+ ts +:+ " to " +:+ slack_user_id)
   | inr error => EvLog ERROR ("Error sending message: " +:+ error)
   end].

Definition deliver_events (project_name sequence_name shot_name : pystr)
    (message_content : string) (pair : pystr * pystr) : list Event :=
  let '(step, email) := pair in
  lookup_events email ++
  if truthy (chat_id_of email) then
    send_events (fmt (chat_id_of email))
      (personalized project_name sequence_name shot_name step message_content)
    ++ [EvLog INFO ("Message sent to " +:+ fmt email +:+ " (Slack ID: "
                    +:+ fmt (chat_id_of email) +:+ ") for step " +:+ fmt step)]
  else [EvLog WARNING ("Could not find Slack user for email: " +:+ fmt email)].

Definition fanout_events (project_name sequence_name shot_name : pystr)
    (message_content : string) (d : step_dict) : list Event :=
  pairs d ≫= deliver_events project_name sequence_name shot_name message_content.

(** One post per pair whose email has a chat identity. *)
Definition resolved_posts (project_name sequence_name shot_name : pystr)
    (message_content : string) (d : step_dict) : list (string * string) :=
  omap (λ '(step, email),
          if truthy (chat_id_of email)
          then Some (fmt (chat_id_of email),
                     personalized project_name sequence_name shot_name step message_content)
          else None)
       (pairs d).

End Denotation.

(** ** The Slack client with its other failures

    A call of the Slack client can also fail with an exception that is
    not a [SlackApiError] (a refused connection, a time-out). None of
    the three [except SlackApiError] clauses of the fan-out catches it.
    The module embeds the fan-out and its two helpers again, word for
    word, over a client that has this third outcome. *)

Module Network.

Inductive answer :=
  | Answer (value : string)
  | ApiError (error : string)
  | Fault (class_name : string) (msg : string).

Record SlackClient := {
  users_lookupByEmail : pystr → answer;
  chat_postMessage : string → string → answer
}.

(** The return or the exception of a call. *)
Definition outcome (a : answer) : M string :=
  match a with
  | Answer value => ret value
  | ApiError error => raise (SlackApiError error)
  | Fault class_name msg => raise (OtherError class_name msg)
  end.

Section Program.

Variable client : SlackClient.

Definition client_users_lookupByEmail (email : pystr) : M string :=
  tell (EvLookup email);;
  outcome (users_lookupByEmail client email).

Definition client_chat_postMessage (channel text : string) : M string :=
  tell (EvPost channel text);;
  outcome (chat_postMessage client channel text).

Definition send_slack_message (slack_user_id text : string) : M unit :=
  try_except
    (let* ts := client_chat_postMessage slack_user_id text in
     logging INFO ("Message sent successfully at " +:+ ts +:+ " to " +:+ slack_user_id))
    is_SlackApiError
    (λ e, logging ERROR ("Error sending message: " +:+ exn_str e)).

Definition find_slack_user_by_email (email : pystr) : M pystr :=
  try_except
    (let* slack_user_id := client_users_lookupByEmail email in
     ret (Some slack_user_id))
    is_SlackApiError
    (λ e, logging ERROR ("Error finding Slack user by email: " +:+ exn_str e);;
          ret None).

Definition send_message_to_assigned_users (assigned_users_by_step : step_dict)
    (shot_name sequence_name project_name : pystr) (message_content : string) : M unit :=
  for_each assigned_users_by_step (λ '(step, users),
    for_each users (λ email,
      let* slack_user_id := find_slack_user_by_email email in
      if truthy slack_user_id then
        try_except
          (let personalized_message :=
             personalized project_name sequence_name shot_name step message_content in
           send_slack_message (fmt slack_user_id) personalized_message;;
           logging INFO ("Message sent to " +:+ fmt email +:+ " (Slack ID: "
                         +:+ fmt slack_user_id +:+ ") for step " +:+ fmt step))
          is_SlackApiError
          (λ e, logging ERROR ("Error sending message to " +:+ fmt email +:+ ": "
                               +:+ exn_str e))
      else
        logging WARNING ("Could not find Slack user for email: " +:+ fmt email))).

(** What [find_slack_user_by_email] returns when it returns. *)
Definition chat_id_of (email : pystr) : pystr :=
  match users_lookupByEmail client email with
  | Answer id => Some id
  | _ => None
  end.

(** One post per pair whose email has a chat identity. *)
Definition resolved_posts (project_name sequence_name shot_name : pystr)
    (message_content : string) (d : step_dict) : list (string * string) :=
  omap (λ '(step, email),
          if truthy (chat_id_of email)
          then Some (fmt (chat_id_of email),
                     personalized project_name sequence_name shot_name step message_content)
          else None)
       (pairs d).

(** The calls the fan-out makes for this pair fail, if they do, with a
    [SlackApiError]. *)
Definition api_errors_only (project_name sequence_name shot_name : pystr)
    (message_content : string) (pair : pystr * pystr) : Prop :=
  let '(step, email) := pair in
  match users_lookupByEmail client email with
  | Fault _ _ => False
  | ApiError _ => True
  | Answer id =>
      if bool_decide (id ≠ "") then
        match chat_postMessage client id
                (personalized project_name sequence_name shot_name step message_content) with
        | Fault _ _ => False
        | _ => True
        end
      else True
  end.

End Program.

End Network.

(** The client of the main embedding that a client with faults looks
    like as long as no fault occurs, and the other way round. *)
Definition plain_client (client : Network.SlackClient) : SlackClient :=
  let plain a :=
    match a with
    | Network.Answer value => inl value
    | Network.ApiError error => inr error
    | Network.Fault _ msg => inr msg
    end in
  {| users_lookupByEmail := λ email, plain (Network.users_lookupByEmail client email);
     chat_postMessage := λ channel text,
       plain (Network.chat_postMessage client channel text) |}.

Definition network_client (client : SlackClient) : Network.SlackClient :=
  let lift (a : string + string) :=
    match a with
    | inl value => Network.Answer value
    | inr error => Network.ApiError error
    end in
  {| Network.users_lookupByEmail := λ email, lift (users_lookupByEmail client email);
     Network.chat_postMessage := λ channel text,
       lift (chat_postMessage client channel text) |}.

(** ** The [Throttler], counted *)

Definition admitted (answers : list bool) : nat := length (filter (λ b, b = true) answers).



(** ** The rows of [webhook]'s [if] chain *)

Definition routed (event_data : EventData) : Prop :=
  let entity_type := entity_type (meta event_data) in
  entity_type = Some "Shot"
  ∨ (entity_type = Some "Note" ∧ event_type event_data = Some "Shotgun_Note_New"
     ∧ operation event_data = Some "create")
  ∨ (entity_type = Some "Reply" ∧ event_type event_data = Some "Shotgun_Reply_New"
     ∧ operation event_data = Some "create")
  ∨ (entity_type = Some "Task" ∧ event_type event_data = Some "Shotgun_Task_Change"
     ∧ operation event_data = Some "update").

(** ** A small production, used for the examples

    Four users; shot 10 with an [anim] task and a [comp] task; shot 20
    with six tasks, all assigned to user 1; tasks 5, 6 and 8 linked to a
    shot, to an asset and to nothing; version 30 without a shot; notes 50
    and 51 on version 30 and on a version 31 that does not exist; reply 40
    to a note without links and reply 41 to a note on shot 10. In Slack,
    [b@x] is unknown and posting to [U3] is refused. *)

Definition demo_user (id : pyval) : option HumanUser :=
  match id with
  | PyInt 1 => Some {| user_email := Has "a@x" |}
  | PyInt 2 => Some {| user_email := Has "b@x" |}
  | PyInt 3 => Some {| user_email := Has "c@x" |}
  | PyInt 7 => Some {| user_email := Has "g@x" |}
  | _ => None
  end.

Definition demo_shot (id : pyval) : option ShotRec :=
  match id with
  | PyInt 10 =>
      Some {| shot_code := Has "SH020"; shot_project_name := Has "Atlas";
              shot_sequence_code := Has "SQ010" |}
  | PyInt 20 =>
      Some {| shot_code := Has "SH030"; shot_project_name := Has "Atlas";
              shot_sequence_code := Has "SQ010" |}
  | _ => None
  end.

Definition demo_task_of (step : string) (assignees : list Z) : TaskRec :=
  {| task_entity := Missing; task_step_short_name := Has step;
     task_assignees := Has (Build_Assignee <$> assignees) |}.

Definition demo_tasks (entity_kind : string) (id : pyval) : list TaskRec :=
  match id with
  | PyInt 10 => [demo_task_of "anim" [1]; demo_task_of "comp" [1; 2; 3]]
  | PyInt 20 =>
      (λ step, demo_task_of step [1]) <$> ["anim"; "comp"; "light"; "fx"; "roto"; "paint"]
  | _ => []
  end.

Definition demo_task (id : pyval) : option TaskRec :=
  match id with
  | PyInt 5 =>
      Some {| task_entity := Has {| link_type := "Shot"; link_id := 10; link_name := "SH020" |};
              task_step_short_name := Has "anim"; task_assignees := Missing |}
  | PyInt 6 =>
      Some {| task_entity := Has {| link_type := "Asset"; link_id := 99; link_name := "chair" |};
              task_step_short_name := Has "model"; task_assignees := Missing |}
  | PyInt 8 =>
      Some {| task_entity := Null; task_step_short_name := Has "anim";
              task_assignees := Missing |}
  | _ => None
  end.

Definition demo_version (id : pyval) : option VersionRec :=
  match id with
  | PyInt 30 =>
      Some {| version_code := Has "v001"; version_project_name := Has "Atlas";
              version_shot_code := Null |}
  | _ => None
  end.

Definition demo_reply (id : pyval) : option ReplyRec :=
  match id with
  | PyInt 40 =>
      Some {| reply_content := Has "Looks good"; reply_note_content := Has "Check the rig";
              reply_note_links := Has []; reply_created_by_email := Has "r@x" |}
  | PyInt 41 =>
      Some {| reply_content := Has "Looks good"; reply_note_content := Has "Check the rig";
              reply_note_links :=
                Has [{| link_type := "Shot"; link_id := 10; link_name := "SH020" |}];
              reply_created_by_email := Has "r@x" |}
  | _ => None
  end.

Definition demo_note (id : pyval) : option NoteRec :=
  let note_on version_id :=
    {| note_content := Has "Fix the rig"; note_created_by_email := Has "n@x";
       note_created_by_name := Has "Nora"; note_attachments := Missing;
       note_links :=
         Has [{| link_type := "Version"; link_id := version_id; link_name := "v" |}] |} in
  match id with
  | PyInt 50 => Some (note_on 30)
  | PyInt 51 => Some (note_on 31)
  | _ => None
  end.

Definition demo_sg : TrackingSource :=
  {| find_one_HumanUser := demo_user;
     find_one_Shot := demo_shot;
     find_one_Asset := λ _, None;
     find_one_Version := demo_version;
     find_one_Task := demo_task;
     find_one_Note := demo_note;
     find_one_Attachment := λ _, None;
     find_one_Reply := demo_reply;
     find_Task := demo_tasks |}.

Definition demo_slack : SlackClient :=
  {| users_lookupByEmail := λ email,
       match email with
       | Some "a@x" => inl "U1"
       | Some "c@x" => inl "U3"
       | Some "g@x" => inl "U7"
       | Some "r@x" => inl "U9"
       | _ => inr "users_not_found"
       end;
     chat_postMessage := λ channel text,
       if bool_decide (channel = "U3") then inr "channel_not_found" else inl "1700000000.0001" |}.

(** [demo_slack] on a day when the connection drops while [b@x] is
    looked up. *)
Definition demo_faulty_slack : Network.SlackClient :=
  {| Network.users_lookupByEmail := λ email,
       if bool_decide (email = Some "b@x")
       then Network.Fault "URLError" "<urlopen error [Errno 111] Connection refused>"
       else Network.users_lookupByEmail (network_client demo_slack) email;
     Network.chat_postMessage := Network.chat_postMessage (network_client demo_slack) |}.

(** The process right after start-up: [throttler = Throttler(max_calls=5,
    period=10)], created at clock reading 0. *)
Definition demo_world : World :=
  {| throttler := Throttler_init 5 (10 # 1) (0 # 1); trace := [] |}.

Definition demo_event (entity_type : string) (entity_id : Z) (event_type operation : string)
    (attribute_name : pystr) (old_value new_value : pystr)
    (added removed : field (list Assignee)) : EventData :=
  {| meta := {| entity_type := Some entity_type; entity_id := PyInt entity_id;
                attribute_name := attribute_name; old_value := old_value;
                new_value := new_value; added := added; removed := removed |};
     operation := Some operation; event_type := Some event_type |}.

Definition demo_shot_event (shot_id : Z) (old_value new_value : string) : EventData :=
  demo_event "Shot" shot_id "Shotgun_Shot_Change" "update" (Some "sg_status_list")
    (Some old_value) (Some new_value) Missing Missing.

Definition demo_task_event (task_id : Z) : EventData :=
  demo_event "Task" task_id "Shotgun_Task_Change" "update" (Some "task_assignees")
    None None (Has [{| assignee_id := 7 |}]) (Has []).

Definition demo_note_event (note_id : Z) : EventData :=
  demo_event "Note" note_id "Shotgun_Note_New" "create" None None None Missing Missing.

Definition demo_reply_event (reply_id : Z) : EventData :=
  demo_event "Reply" reply_id "Shotgun_Reply_New" "create" None None None Missing Missing.

Definition demo_asset_event : EventData :=
  demo_event "Asset" 99 "Shotgun_Asset_Change" "update" (Some "sg_status_list")
    (Some "ip") (Some "fin") Missing Missing.

(** ** What the other paths do, as lists *)

(** [m], when it returns normally, returns a value that satisfies [Q]. *)
Definition returns {A} (Q : A → Prop) (m : M A) : Prop :=
  ∀ w, match (m w).1 with
       | Ok a => Q a
       | Raise _ => True
       end.

(** The status codes [webhook] and its handlers answer with. *)
Definition valid_status (response : Response) : Prop :=
  response.2 ∈ [200; 400; 404; 500].

Section MoreDenotation.

Variable sg : TrackingSource.
Variable slack : SlackClient.

(** The (step, email) entries one task contributes to the step dict: one
    per assignee whose user record is found. *)
Definition task_assignments (task : TaskRec) : list (pystr * pystr) :=
  let step := dict_get (task_step_short_name task) "Unknown Step" in
  match dict_get (task_assignees task) [] with
  | Some assignees =>
      omap (λ assignee,
              match find_one_HumanUser sg (PyInt (assignee_id assignee)) with
              | Some user => Some (step, dict_get_none (user_email user))
              | None => None
              end) assignees
  | None => []
  end.

(** What [get_shotgrid_user_email] returns. *)
Definition assignee_email (assignee : Assignee) : pystr :=
  match find_one_HumanUser sg (PyInt (assignee_id assignee)) with
  | Some {| user_email := Has email |} => Some email
  | _ => None
  end.

Definition notify_events (project_name sequence_name : pystr) (shot_name : string)
    (step_name : pystr) (what : string) (assignee : Assignee) : list Event :=
  EvQuery (FindOne "HumanUser" (PyInt (assignee_id assignee))) ::
  let email := assignee_email assignee in
  if truthy email then
    lookup_events slack email ++
    if truthy (chat_id_of slack email) then
      send_events slack (fmt (chat_id_of slack email))
        (personalized project_name sequence_name (Some shot_name) step_name what)
    else [EvLog WARNING ("Slack user not found for email: " +:+ fmt email)]
  else [].

(** The message an added or removed assignee is posted, if any. *)
Definition notify_post (project_name sequence_name : pystr) (shot_name : string)
    (step_name : pystr) (what : string) (assignee : Assignee) : option (string * string) :=
  let email := assignee_email assignee in
  if truthy email && truthy (chat_id_of slack email) then
    Some (fmt (chat_id_of slack email),
          personalized project_name sequence_name (Some shot_name) step_name what)
  else None.

(** The attachment gives no usable URL, and asking for it does not
    raise: it is absent, has no [this_file] key, or a falsy URL. *)
Definition no_file_url (attachment_id : Z) : Prop :=
  match find_one_Attachment sg (PyInt attachment_id) with
  | None => True
  | Some attachment =>
      match this_file attachment with
      | Missing => True
      | Null => False
      | Has url => truthy url = false
      end
  end.

End MoreDenotation.

(** The body of the message about a note, with the annotated frame when
    there is one. *)
Definition note_message (note : NoteRec) (annotated_frame_url : string) : string :=
  let message_content :=
    fmt (dict_get (note_created_by_name note) "unknown user") +:+ " added a note:" +:+ nl
    +:+ fmt (dict_get (note_content note) "No content") in
  if bool_decide (annotated_frame_url ≠ "")
  then message_content +:+ nl +:+ "Annotated Frame: " +:+ annotated_frame_url
  else message_content.

(** ** A second production, with the irregular records

    User 4 has no [email] key; shot 11 has a task assigned to user 4;
    task 9 is linked to a shot 12 that does not exist; version 32 is
    linked to the shot of code ["SH020"], which no shot has as its id;
    asset 70 has a [model] task; note 60 is on asset 70 and has three
    attachments, of which the first is absent and the other two have a
    file; note 61 is on a playlist-like entity of kind ["Sequence"]. *)

Definition studio_user (id : pyval) : option HumanUser :=
  match id with
  | PyInt 1 => Some {| user_email := Has "a@x" |}
  | PyInt 4 => Some {| user_email := Missing |}
  | _ => None
  end.

Definition studio_shot (id : pyval) : option ShotRec :=
  match id with
  | PyInt 10 | PyInt 11 =>
      Some {| shot_code := Has "SH020"; shot_project_name := Has "Atlas";
              shot_sequence_code := Has "SQ010" |}
  | _ => None
  end.

Definition studio_tasks (entity_kind : string) (id : pyval) : list TaskRec :=
  match entity_kind, id with
  | "Shot", PyInt 10 => [demo_task_of "anim" [1]]
  | "Shot", PyInt 11 => [demo_task_of "anim" [1]; demo_task_of "comp" [4; 1]]
  | "Asset", PyInt 70 => [demo_task_of "model" [1]]
  | _, _ => []
  end.

Definition studio_task (id : pyval) : option TaskRec :=
  match id with
  | PyInt 5 =>
      Some {| task_entity := Has {| link_type := "Shot"; link_id := 10; link_name := "SH020" |};
              task_step_short_name := Has "anim"; task_assignees := Missing |}
  | PyInt 9 =>
      Some {| task_entity := Has {| link_type := "Shot"; link_id := 12; link_name := "SH040" |};
              task_step_short_name := Has "anim"; task_assignees := Missing |}
  | _ => None
  end.

Definition studio_version (id : pyval) : option VersionRec :=
  match id with
  | PyInt 32 =>
      Some {| version_code := Has "v002"; version_project_name := Has "Atlas";
              version_shot_code := Has "SH020" |}
  | _ => None
  end.

Definition studio_asset (id : pyval) : option AssetRec :=
  match id with
  | PyInt 70 => Some {| asset_code := Has "chair"; asset_project_name := Has "Atlas" |}
  | _ => None
  end.

Definition studio_note (id : pyval) : option NoteRec :=
  let note_on kind entity_id attachments :=
    {| note_content := Has "Fix the rig"; note_created_by_email := Has "n@x";
       note_created_by_name := Has "Nora";
       note_attachments := Has (Build_AttachmentLink <$> attachments);
       note_links := Has [{| link_type := kind; link_id := entity_id; link_name := "n" |}] |} in
  match id with
  | PyInt 60 => Some (note_on "Asset" 70 [1; 2; 3])
  | PyInt 61 => Some (note_on "Sequence" 80 [])
  | _ => None
  end.

Definition studio_attachment (id : pyval) : option AttachmentRec :=
  match id with
  | PyInt 2 => Some {| this_file := Has (Some "https://files/2.png") |}
  | PyInt 3 => Some {| this_file := Has (Some "https://files/3.png") |}
  | _ => None
  end.

Definition studio_sg : TrackingSource :=
  {| find_one_HumanUser := studio_user;
     find_one_Shot := studio_shot;
     find_one_Asset := studio_asset;
     find_one_Version := studio_version;
     find_one_Task := studio_task;
     find_one_Note := studio_note;
     find_one_Attachment := studio_attachment;
     find_one_Reply := λ _, None;
     find_Task := studio_tasks |}.

Definition studio_task_event (task_id : Z) (added removed : list Z) : EventData :=
  demo_event "Task" task_id "Shotgun_Task_Change" "update" (Some "task_assignees")
    None None (Has (Build_Assignee <$> added)) (Has (Build_Assignee <$> removed)).

(** * Properties *)

(** ** The monad *)

Lemma emit_nil w : emit w [] = w.
Proof. destruct w; unfold emit; simpl. by rewrite app_nil_r. Qed.

Lemma emit_emit w evs1 evs2 : emit (emit w evs1) evs2 = emit w (evs1 ++ evs2).
Proof. unfold emit; simpl. by rewrite app_assoc. Qed.

Lemma posts_of_app tr1 tr2 : posts_of (tr1 ++ tr2) = posts_of tr1 ++ posts_of tr2.
Proof. apply omap_app. Qed.

Lemma lookups_of_app tr1 tr2 : lookups_of (tr1 ++ tr2) = lookups_of tr1 ++ lookups_of tr2.
Proof. apply omap_app. Qed.

Lemma queries_of_app tr1 tr2 : queries_of (tr1 ++ tr2) = queries_of tr1 ++ queries_of tr2.
Proof. apply omap_app. Qed.

Lemma quiet_posts evs : Forall quiet evs → posts_of evs = [].
Proof.
  induction 1 as [|ev evs Hev _ IH]; [done|].
  destruct ev; simpl in *; done.
Qed.

Lemma quiet_lookups evs : Forall quiet evs → lookups_of evs = [].
Proof.
  induction 1 as [|ev evs Hev _ IH]; [done|].
  destruct ev; simpl in *; done.
Qed.

Section Emits.

Context {P : Event → Prop}.

Lemma emits_ret {A} (a : A) : emits P (ret a).
Proof. exists (Ok a), []. split; [constructor|]. intros w. by rewrite emit_nil. Qed.

Lemma emits_raise {A} e : emits P (raise (A:=A) e).
Proof. exists (Raise e), []. split; [constructor|]. intros w. by rewrite emit_nil. Qed.

Lemma emits_tell ev : P ev → emits P (tell ev).
Proof. intros Hev. exists (Ok tt), [ev]. split; [by repeat constructor|done]. Qed.

Lemma emits_logging level msg : P (EvLog level msg) → emits P (logging level msg).
Proof. apply emits_tell. Qed.

Lemma emits_bind {A B} (m : M A) (k : A → M B) :
  emits P m → (∀ a, emits P (k a)) → emits P (bind m k).
Proof.
  intros (r & evs & Hevs & Hm) Hk. destruct r as [a|e].
  - destruct (Hk a) as (r' & evs' & Hevs' & Hka).
    exists r', (evs ++ evs'). split; [by apply Forall_app|].
    intros w. unfold bind. by rewrite Hm, Hka, emit_emit.
  - exists (Raise e), evs. split; [done|].
    intros w. unfold bind. by rewrite Hm.
Qed.

Lemma emits_try_except {A} (m : M A) catches h :
  emits P m → (∀ e, emits P (h e)) → emits P (try_except m catches h).
Proof.
  intros (r & evs & Hevs & Hm) Hh. destruct r as [a|e].
  - exists (Ok a), evs. split; [done|]. intros w. unfold try_except. by rewrite Hm.
  - destruct (catches e) eqn:Hc.
    + destruct (Hh e) as (r' & evs' & Hevs' & Hhe).
      exists r', (evs ++ evs'). split; [by apply Forall_app|].
      intros w. unfold try_except. by rewrite Hm, Hc, Hhe, emit_emit.
    + exists (Raise e), evs. split; [done|].
      intros w. unfold try_except. by rewrite Hm, Hc.
Qed.

Lemma emits_for_fold {A S} (xs : list A) (s : S) body :
  (∀ x s, emits P (body x s)) → emits P (for_fold xs s body).
Proof.
  intros Hbody. revert s.
  induction xs as [|x xs IH]; intros s; simpl.
  - apply emits_ret.
  - apply emits_bind; [apply Hbody|apply IH].
Qed.

Lemma emits_for_each {A} (xs : list A) body :
  (∀ x, emits P (body x)) → emits P (for_each xs body).
Proof. intros Hbody. apply emits_for_fold. intros x _. apply Hbody. Qed.

End Emits.

Lemma emits_run {A} P (m : M A) w r w' :
  emits P m → m w = (r, w') → ∃ evs, Forall P evs ∧ w' = emit w evs ∧ ∀ w0, m w0 = (r, emit w0 evs).
Proof.
  intros (r0 & evs & Hevs & Hm) Hrun. rewrite Hm in Hrun.
  injection Hrun as <- <-. eauto.
Qed.

(** ** Every function of the program behaves like a writer *)

Create HintDb emits discriminated.

#[local] Hint Resolve emits_ret emits_raise emits_tell emits_logging : emits.

Ltac emits_step :=
  first
    [ progress intros
    | progress cbv zeta
    | solve [eauto with emits]
    | apply emits_bind
    | apply emits_try_except
    | apply emits_for_fold
    | apply emits_for_each
    | match goal with
      | |- emits _ (match ?x with _ => _ end) => destruct x
      end ].

Ltac emits_auto := cbv zeta; repeat emits_step.

Section QuietFunctions.

Context {P : Event → Prop}.
Hypothesis P_query : ∀ q, P (EvQuery q).
Hypothesis P_log : ∀ level msg, P (EvLog level msg).
Variable sg : TrackingSource.

#[local] Hint Resolve P_query P_log : emits.

Lemma emits_sg_find_one {R} kind (table : TrackingSource → pyval → option R) id :
  emits P (sg_find_one sg kind table id).
Proof. unfold sg_find_one. emits_auto. Qed.

Lemma emits_sg_find_Task entity_kind id : emits P (sg_find_Task sg entity_kind id).
Proof. unfold sg_find_Task. emits_auto. Qed.

#[local] Hint Resolve emits_sg_find_one emits_sg_find_Task : emits.

Lemma emits_get_shotgrid_user_email user_id : emits P (get_shotgrid_user_email sg user_id).
Proof. unfold get_shotgrid_user_email. emits_auto. Qed.

Lemma emits_collect_assigned_users tasks : emits P (collect_assigned_users sg tasks).
Proof. unfold collect_assigned_users. emits_auto. Qed.

#[local] Hint Resolve emits_collect_assigned_users : emits.

Lemma emits_get_assigned_users_from_tasks shot_id :
  emits P (get_assigned_users_from_tasks sg shot_id).
Proof. unfold get_assigned_users_from_tasks. emits_auto. Qed.

Lemma emits_get_assigned_users_from_asset_tasks asset_id :
  emits P (get_assigned_users_from_asset_tasks sg asset_id).
Proof. unfold get_assigned_users_from_asset_tasks. emits_auto. Qed.

#[local] Hint Resolve emits_get_assigned_users_from_tasks : emits.

Lemma emits_get_assigned_users_from_version_tasks version_id :
  emits P (get_assigned_users_from_version_tasks sg version_id).
Proof. unfold get_assigned_users_from_version_tasks. emits_auto. Qed.

Lemma emits_get_attachments_ids_from_note_id node_id :
  emits P (get_attachments_ids_from_note_id sg node_id).
Proof. unfold get_attachments_ids_from_note_id. emits_auto. Qed.

Lemma emits_get_file_url_from_attachment_id attachment_id :
  emits P (get_file_url_from_attachment_id sg attachment_id).
Proof. unfold get_file_url_from_attachment_id. emits_auto. Qed.

#[local] Hint Resolve emits_get_file_url_from_attachment_id : emits.

Lemma emits_first_file_url attachment_ids : emits P (first_file_url sg attachment_ids).
Proof. induction attachment_ids as [|id ids IH]; simpl; emits_auto. Qed.

End QuietFunctions.

Section AllFunctions.

Variable sg : TrackingSource.
Variable slack : SlackClient.

#[local] Abbreviation any := (λ _ : Event, True).

#[local] Hint Extern 1 (True) => exact I : emits.
#[local] Hint Extern 2 (emits _ (sg_find_one _ _ _ _)) =>
  apply emits_sg_find_one; intros; exact I : emits.
#[local] Hint Extern 2 (emits _ (get_shotgrid_user_email _ _)) =>
  apply emits_get_shotgrid_user_email; intros; exact I : emits.
#[local] Hint Extern 2 (emits _ (get_assigned_users_from_tasks _ _)) =>
  apply emits_get_assigned_users_from_tasks; intros; exact I : emits.
#[local] Hint Extern 2 (emits _ (get_assigned_users_from_asset_tasks _ _)) =>
  apply emits_get_assigned_users_from_asset_tasks; intros; exact I : emits.
#[local] Hint Extern 2 (emits _ (get_assigned_users_from_version_tasks _ _)) =>
  apply emits_get_assigned_users_from_version_tasks; intros; exact I : emits.
#[local] Hint Extern 2 (emits _ (get_attachments_ids_from_note_id _ _)) =>
  apply emits_get_attachments_ids_from_note_id; intros; exact I : emits.
#[local] Hint Extern 2 (emits _ (first_file_url _ _)) =>
  apply emits_first_file_url; intros; exact I : emits.

Lemma emits_client_users_lookupByEmail email :
  emits any (client_users_lookupByEmail slack email).
Proof. unfold client_users_lookupByEmail. emits_auto. Qed.

Lemma emits_client_chat_postMessage channel text :
  emits any (client_chat_postMessage slack channel text).
Proof. unfold client_chat_postMessage. emits_auto. Qed.

#[local] Hint Resolve emits_client_users_lookupByEmail emits_client_chat_postMessage : emits.

Lemma emits_send_slack_message slack_user_id text :
  emits any (send_slack_message slack slack_user_id text).
Proof. unfold send_slack_message. emits_auto. Qed.

Lemma emits_find_slack_user_by_email email :
  emits any (find_slack_user_by_email slack email).
Proof. unfold find_slack_user_by_email. emits_auto. Qed.

#[local] Hint Resolve emits_send_slack_message emits_find_slack_user_by_email : emits.

Lemma emits_send_message_to_assigned_users d shot_name sequence_name project_name msg :
  emits any (send_message_to_assigned_users slack d shot_name sequence_name project_name msg).
Proof. unfold send_message_to_assigned_users. emits_auto. Qed.

#[local] Hint Resolve emits_send_message_to_assigned_users : emits.

Lemma emits_handle_shot_event event_data : emits any (handle_shot_event sg slack event_data).
Proof. unfold handle_shot_event. emits_auto. Qed.

Lemma emits_handle_asset_event event_data : emits any (handle_asset_event sg slack event_data).
Proof. unfold handle_asset_event. emits_auto. Qed.

Lemma emits_handle_note_event event_data : emits any (handle_note_event sg slack event_data).
Proof. unfold handle_note_event. emits_auto. Qed.

Lemma emits_notify_assignee project_name sequence_name shot_name step_name what assignee :
  emits any (notify_assignee sg slack project_name sequence_name shot_name step_name what
               assignee).
Proof. unfold notify_assignee. emits_auto. Qed.

#[local] Hint Resolve emits_notify_assignee : emits.

Lemma emits_handle_task_assignment_event event_data :
  emits any (handle_task_assignment_event sg slack event_data).
Proof. unfold handle_task_assignment_event, for_each_iter. emits_auto. Qed.

Lemma emits_handle_reply_event event_data : emits any (handle_reply_event sg slack event_data).
Proof. unfold handle_reply_event. emits_auto. Qed.

#[local] Hint Resolve emits_handle_shot_event emits_handle_note_event
  emits_handle_task_assignment_event emits_handle_reply_event : emits.

Lemma emits_dispatch event_data : emits any (dispatch sg slack event_data).
Proof. unfold dispatch. emits_auto. Qed.

Lemma emits_webhook request : emits any (webhook sg slack request).
Proof. pose proof emits_dispatch. unfold webhook. emits_auto. Qed.

End AllFunctions.

(** ** The fan-out, run *)

Lemma for_each_run {A} (xs : list A) (body : A → M unit) (f : A → list Event) :
  (∀ x w, body x w = (Ok tt, emit w (f x))) →
  ∀ w, for_each xs body w = (Ok tt, emit w (xs ≫= f)).
Proof.
  intros Hbody. unfold for_each.
  induction xs as [|x xs IH]; intros w; simpl.
  - unfold ret. by rewrite emit_nil.
  - unfold bind at 1. by rewrite Hbody, IH, emit_emit.
Qed.

Section FanOut.

Variable slack : SlackClient.

Lemma find_slack_user_by_email_run email w :
  find_slack_user_by_email slack email w
  = (Ok (chat_id_of slack email), emit w (lookup_events slack email)).
Proof.
  unfold find_slack_user_by_email, try_except, client_users_lookupByEmail, bind, tell,
    chat_id_of, lookup_events.
  destruct (users_lookupByEmail slack email) as [id|error]; simpl.
  - unfold ret. done.
  - unfold logging, tell, ret. by rewrite emit_emit.
Qed.

Lemma send_slack_message_run slack_user_id text w :
  send_slack_message slack slack_user_id text w
  = (Ok tt, emit w (send_events slack slack_user_id text)).
Proof.
  unfold send_slack_message, try_except, client_chat_postMessage, bind, tell, send_events.
  destruct (chat_postMessage slack slack_user_id text) as [ts|error]; simpl;
    unfold logging, tell; by rewrite emit_emit.
Qed.

Lemma deliver_run shot_name sequence_name project_name msg step email w :
  (let* slack_user_id := find_slack_user_by_email slack email in
   if truthy slack_user_id then
     try_except
       (send_slack_message slack (fmt slack_user_id)
          (personalized project_name sequence_name shot_name step msg);;
        logging INFO ("Message sent to " +:+ fmt email +:+ " (Slack ID: "
                      +:+ fmt slack_user_id +:+ ") for step " +:+ fmt step))
       is_SlackApiError
       (λ e, logging ERROR ("Error sending message to " +:+ fmt email +:+ ": "
                            +:+ exn_str e))
   else logging WARNING ("Could not find Slack user for email: " +:+ fmt email)) w
  = (Ok tt, emit w (deliver_events slack project_name sequence_name shot_name msg
                      (step, email))).
Proof.
  unfold bind at 1. rewrite find_slack_user_by_email_run.
  unfold deliver_events.
  destruct (truthy (chat_id_of slack email)).
  - unfold try_except, bind. rewrite send_slack_message_run.
    unfold logging, tell. by rewrite !emit_emit.
  - unfold logging, tell. by rewrite emit_emit.
Qed.

Lemma pairs_bind {B} (g : pystr * pystr → list B) (d : step_dict) :
  pairs d ≫= g = d ≫= λ '(step, users), users ≫= λ email, g (step, email).
Proof.
  unfold pairs.
  induction d as [|[step users] d IH]; [done|].
  rewrite !bind_cons, bind_app, IH. f_equal.
  induction users as [|email users IHu]; [done|].
  rewrite fmap_cons, !bind_cons. by rewrite IHu.
Qed.

Lemma send_message_to_assigned_users_run d shot_name sequence_name project_name msg w :
  send_message_to_assigned_users slack d shot_name sequence_name project_name msg w
  = (Ok tt, emit w (fanout_events slack project_name sequence_name shot_name msg d)).
Proof.
  unfold send_message_to_assigned_users, fanout_events.
  rewrite pairs_bind.
  apply for_each_run. intros [step users] w'.
  apply for_each_run. intros email w''.
  apply deliver_run.
Qed.

(** The handlers of status changes and notes call the fan-out once per
    step, on the one-entry dict [{step: users}]: the same events. *)
Lemma per_step_fanout_run d shot_name sequence_name project_name msg w :
  for_each d (λ '(step, users),
    send_message_to_assigned_users slack [(step, users)] shot_name sequence_name
      project_name msg) w
  = (Ok tt, emit w (fanout_events slack project_name sequence_name shot_name msg d)).
Proof.
  unfold fanout_events. rewrite pairs_bind.
  apply for_each_run. intros [step users] w'.
  rewrite send_message_to_assigned_users_run.
  unfold fanout_events. rewrite pairs_bind, bind_singleton. done.
Qed.

Lemma posts_of_bind_deliver project_name sequence_name shot_name msg l :
  posts_of (l ≫= deliver_events slack project_name sequence_name shot_name msg)
  = omap (λ '(step, email),
            if truthy (chat_id_of slack email)
            then Some (fmt (chat_id_of slack email),
                       personalized project_name sequence_name shot_name step msg)
            else None) l.
Proof.
  induction l as [|[step email] l IH]; [done|].
  rewrite bind_cons, posts_of_app, IH. simpl.
  unfold lookup_events, chat_id_of.
  destruct (users_lookupByEmail slack email) as [id|error]; simpl; [|done].
  destruct (bool_decide (id ≠ "")); simpl; [|done].
  by destruct (chat_postMessage slack _ _).
Qed.

Lemma posts_of_fanout project_name sequence_name shot_name msg d :
  posts_of (fanout_events slack project_name sequence_name shot_name msg d)
  = resolved_posts slack project_name sequence_name shot_name msg d.
Proof. apply posts_of_bind_deliver. Qed.

Lemma lookups_of_fanout project_name sequence_name shot_name msg d :
  lookups_of (fanout_events slack project_name sequence_name shot_name msg d)
  = snd <$> pairs d.
Proof.
  unfold fanout_events.
  induction (pairs d) as [|[step email] l IH]; [done|].
  rewrite bind_cons, lookups_of_app, IH, fmap_cons. simpl.
  unfold lookup_events, chat_id_of.
  destruct (users_lookupByEmail slack email) as [id|error]; simpl.
  - destruct (bool_decide (id ≠ "")); simpl; [|done].
    by destruct (chat_postMessage slack _ _).
  - done.
Qed.

End FanOut.

(** ** Running the primitives *)

Lemma bind_run {A B} (m : M A) (k : A → M B) w a w1 :
  m w = (Ok a, w1) → bind m k w = k a w1.
Proof. intros Hm. unfold bind. by rewrite Hm. Qed.

Lemma logging_run level msg w : logging level msg w = (Ok tt, emit w [EvLog level msg]).
Proof. done. Qed.

Lemma sg_find_one_run {R} sg kind (table : TrackingSource → pyval → option R) id w :
  sg_find_one sg kind table id w = (Ok (table sg id), emit w [EvQuery (FindOne kind id)]).
Proof. done. Qed.

Lemma trace_emit w evs : trace (emit w evs) = trace w ++ evs.
Proof. done. Qed.

Lemma throttler_emit w evs : throttler (emit w evs) = throttler w.
Proof. done. Qed.

(** A resolver only queries and logs. *)
Lemma get_assigned_users_from_tasks_quiet sg shot_id w :
  ∃ evs, Forall quiet evs
         ∧ ∀ w0, get_assigned_users_from_tasks sg shot_id w0
                 = ((get_assigned_users_from_tasks sg shot_id w).1, emit w0 evs).
Proof.
  destruct (emits_get_assigned_users_from_tasks (P:=quiet)
              (λ _, I) (λ _ _, I) sg shot_id) as (r & evs & Hevs & Hrun).
  exists evs. split; [done|]. intros w0. by rewrite !Hrun.
Qed.

(** ** Dispatch *)

(** C8: an envelope that matches none of the four rows of [webhook] — in
    particular every envelope of entity type ["Asset"] — is answered with
    status 400; the only thing the process does is log a warning: the
    tracking source is not queried, Slack is neither looked up nor posted
    to. *)
Theorem unrouted_envelope_rejected sg slack event_data w :
  entity_type (meta event_data) = Some "Asset" ∨ ¬ routed event_data →
  (webhook sg slack (Json event_data) w).1 = Ok ("Entity type or event not supported", 400)
  ∧ trace (webhook sg slack (Json event_data) w).2
    = trace w ++ [EvLog WARNING ("Unsupported entity type or event: "
                                 +:+ fmt (entity_type (meta event_data)) +:+ ", "
                                 +:+ fmt (event_type event_data))]
  ∧ queries_of (trace (webhook sg slack (Json event_data) w).2) = queries_of (trace w)
  ∧ lookups_of (trace (webhook sg slack (Json event_data) w).2) = lookups_of (trace w)
  ∧ posts_of (trace (webhook sg slack (Json event_data) w).2) = posts_of (trace w).
Proof.
  intros Hno.
  assert (¬ routed event_data) as Hnr.
  { destruct Hno as [Hasset|Hnr]; [|done].
    unfold routed. rewrite Hasset.
    intros [?|[[? _]|[[? _]|[? _]]]]; discriminate. }
  clear Hno. unfold routed in Hnr.
  assert (dispatch sg slack event_data w
          = (Ok ("Entity type or event not supported", 400),
             emit w [EvLog WARNING
                       ("Unsupported entity type or event: "
                        +:+ fmt (entity_type (meta event_data)) +:+ ", "
                        +:+ fmt (event_type event_data))])) as Hrun.
  { unfold dispatch. cbv zeta in *.
    repeat case_bool_decide; simpl; try (exfalso; tauto); done. }
  unfold webhook, try_except. rewrite Hrun. simpl.
  rewrite queries_of_app, lookups_of_app, posts_of_app. simpl.
  rewrite !app_nil_r. done.
Qed.

Lemma unrouted_envelope_rejected_witness :
  (webhook demo_sg demo_slack (Json demo_asset_event) demo_world).1
  = Ok ("Entity type or event not supported", 400)
  ∧ posts_of (trace (webhook demo_sg demo_slack (Json demo_asset_event) demo_world).2) = [].
Proof.
  pose proof (unrouted_envelope_rejected demo_sg demo_slack demo_asset_event demo_world
                (or_introl eq_refl)) as (Hr & _ & _ & _ & Hp).
  split; [exact Hr|exact Hp].
Defined.

(** ** Task assignment *)

Lemma get_shotgrid_user_email_run sg user_id w :
  get_shotgrid_user_email sg user_id w
  = (Ok (match find_one_HumanUser sg (PyInt user_id) with
         | Some {| user_email := Has email |} => Some email
         | _ => None
         end),
     emit w [EvQuery (FindOne "HumanUser" (PyInt user_id))]).
Proof.
  unfold get_shotgrid_user_email.
  erewrite bind_run by apply sg_find_one_run.
  destruct (find_one_HumanUser sg (PyInt user_id)) as [[[| |email]]|]; done.
Qed.

Lemma notify_assignee_resolved sg slack project_name sequence_name shot_name step_name what
    assignee email chat_id w :
  find_one_HumanUser sg (PyInt (assignee_id assignee)) = Some {| user_email := Has email |} →
  email ≠ "" →
  users_lookupByEmail slack (Some email) = inl chat_id →
  chat_id ≠ "" →
  notify_assignee sg slack project_name sequence_name shot_name step_name what assignee w
  = (Ok tt,
     emit w ([EvQuery (FindOne "HumanUser" (PyInt (assignee_id assignee)));
              EvLookup (Some email)]
             ++ send_events slack chat_id
                  (personalized project_name sequence_name (Some shot_name) step_name what))).
Proof.
  intros Huser Hemail Hlookup Hchat. unfold notify_assignee.
  erewrite bind_run by apply get_shotgrid_user_email_run.
  rewrite Huser. simpl. rewrite bool_decide_true by done.
  erewrite bind_run by apply find_slack_user_by_email_run.
  unfold chat_id_of, lookup_events. rewrite Hlookup. simpl.
  rewrite bool_decide_true by done.
  rewrite send_slack_message_run. by rewrite !emit_emit.
Qed.

(** ** Task assignment *)

(** C9: a Task-assignment event with [added = [{id: 7}]] and
    [removed = []], whose task is linked to shot ["SH020"] of sequence
    ["SQ010"] in project ["Atlas"], at step ["anim"], for a user 7 with an
    email and a chat identity, posts exactly one message, to that
    identity, with body
    ["In Atlas|SQ010|SH020|anim\nYou have been assigned to a task."], and
    answers ["success", 200]. *)
Theorem task_assignment_end_to_end sg slack event_data w task link shot email chat_id :
  entity_type (meta event_data) = Some "Task" →
  event_type event_data = Some "Shotgun_Task_Change" →
  operation event_data = Some "update" →
  attribute_name (meta event_data) = Some "task_assignees" →
  added (meta event_data) = Has [{| assignee_id := 7 |}] →
  removed (meta event_data) = Has [] →
  find_one_Task sg (entity_id (meta event_data)) = Some task →
  task_entity task = Has link →
  link_type link = "Shot" →
  link_name link = "SH020" →
  task_step_short_name task = Has "anim" →
  find_one_Shot sg (PyInt (link_id link)) = Some shot →
  shot_project_name shot = Has "Atlas" →
  shot_sequence_code shot = Has "SQ010" →
  find_one_HumanUser sg (PyInt 7) = Some {| user_email := Has email |} →
  email ≠ "" →
  users_lookupByEmail slack (Some email) = inl chat_id →
  chat_id ≠ "" →
  (webhook sg slack (Json event_data) w).1 = Ok ("success", 200)
  ∧ posts_of (trace (webhook sg slack (Json event_data) w).2)
    = posts_of (trace w)
      ++ [(chat_id, "In Atlas|SQ010|SH020|anim" +:+ nl +:+ "You have been assigned to a task.")].
Proof.
  intros Het Hev Hop Hattr Hadded Hremoved Htask Hentity Htype Hname Hstep Hshot Hproj Hseq
    Huser Hemail Hlookup Hchat.
  assert (∃ evs, posts_of evs = [(chat_id, "In Atlas|SQ010|SH020|anim" +:+ nl
                                            +:+ "You have been assigned to a task.")]
                 ∧ handle_task_assignment_event sg slack event_data w
                   = (Ok ("success", 200), emit w evs)) as (evs & Hposts & Hrun).
  { unfold handle_task_assignment_event. cbv zeta.
    rewrite Hattr, Hadded, Hremoved. simpl.
    erewrite bind_run by apply sg_find_one_run.
    rewrite Htask, Hentity. simpl. rewrite Htype. simpl.
    erewrite bind_run by apply sg_find_one_run.
    rewrite Hshot, Hproj, Hseq, Hstep, Hname. simpl.
    unfold for_each; simpl.
    erewrite bind_run; cycle 1.
    { erewrite bind_run by (by eapply notify_assignee_resolved). done. }
    unfold bind, ret. rewrite !emit_emit.
    eexists. split; [|done].
    unfold send_events. simpl. by destruct (chat_postMessage slack _ _). }
  unfold webhook, try_except, dispatch. cbv zeta.
  rewrite Het, Hev, Hop. simpl.
  rewrite Hrun. simpl. by rewrite posts_of_app, Hposts.
Qed.

Lemma task_assignment_end_to_end_witness :
  (webhook demo_sg demo_slack (Json (demo_task_event 5)) demo_world).1 = Ok ("success", 200)
  ∧ posts_of (trace (webhook demo_sg demo_slack (Json (demo_task_event 5)) demo_world).2)
    = [("U7", "In Atlas|SQ010|SH020|anim" +:+ nl +:+ "You have been assigned to a task.")].
Proof.
  eapply (task_assignment_end_to_end demo_sg demo_slack (demo_task_event 5) demo_world
            _ _ _ "g@x" "U7");
    reflexivity || discriminate.
Defined.

(** C10: a Task update event on [task_assignees] whose task exists but
    whose [entity] is missing, null or not a Shot is answered
    ["Not linked to a Shot", 200]; the task is queried, one line is
    logged, and nothing is looked up in or posted to Slack. *)
Theorem task_not_linked_to_shot sg slack event_data w task :
  entity_type (meta event_data) = Some "Task" →
  event_type event_data = Some "Shotgun_Task_Change" →
  operation event_data = Some "update" →
  attribute_name (meta event_data) = Some "task_assignees" →
  find_one_Task sg (entity_id (meta event_data)) = Some task →
  (task_entity task = Missing ∨ task_entity task = Null
   ∨ ∃ link, task_entity task = Has link ∧ link_type link ≠ "Shot") →
  (webhook sg slack (Json event_data) w).1 = Ok ("Not linked to a Shot", 200)
  ∧ trace (webhook sg slack (Json event_data) w).2
    = trace w ++ [EvQuery (FindOne "Task" (entity_id (meta event_data)));
                  EvLog INFO ("Task " +:+ fmt_val (entity_id (meta event_data))
                              +:+ " is not linked to a Shot.")]
  ∧ lookups_of (trace (webhook sg slack (Json event_data) w).2) = lookups_of (trace w)
  ∧ posts_of (trace (webhook sg slack (Json event_data) w).2) = posts_of (trace w).
Proof.
  intros Het Hev Hop Hattr Htask Hentity.
  assert (handle_task_assignment_event sg slack event_data w
          = (Ok ("Not linked to a Shot", 200),
             emit w [EvQuery (FindOne "Task" (entity_id (meta event_data)));
                     EvLog INFO ("Task " +:+ fmt_val (entity_id (meta event_data))
                                 +:+ " is not linked to a Shot.")])) as Hrun.
  { unfold handle_task_assignment_event. cbv zeta.
    rewrite Hattr. simpl.
    erewrite bind_run by apply sg_find_one_run.
    rewrite Htask.
    destruct Hentity as [->| [->| (link & -> & Hlink)]]; simpl;
      [| |rewrite bool_decide_false by done];
      (erewrite bind_run by apply logging_run);
      unfold ret; by rewrite emit_emit. }
  unfold webhook, try_except, dispatch. cbv zeta.
  rewrite Het, Hev, Hop. simpl.
  rewrite Hrun. simpl.
  by rewrite lookups_of_app, posts_of_app, !app_nil_r.
Qed.

Lemma task_not_linked_to_shot_witness :
  (webhook demo_sg demo_slack (Json (demo_task_event 6)) demo_world).1
  = Ok ("Not linked to a Shot", 200)
  ∧ posts_of (trace (webhook demo_sg demo_slack (Json (demo_task_event 6)) demo_world).2) = [].
Proof.
  pose proof (task_not_linked_to_shot demo_sg demo_slack (demo_task_event 6) demo_world
                {| task_entity :=
                     Has {| link_type := "Asset"; link_id := 99; link_name := "chair" |};
                   task_step_short_name := Has "model"; task_assignees := Missing |}
                eq_refl eq_refl eq_refl eq_refl eq_refl) as H.
  destruct H as (Hr & _ & _ & Hp).
  - right; right. eexists. split; [reflexivity|discriminate].
  - split; [exact Hr|exact Hp].
Defined.

(** ** Versions *)

(** C6: for a version that exists and has no linked shot (the field is
    missing, null or empty), the resolver returns the empty step dict
    together with the version's and the project's names; this differs
    from the [(None, None, None)] it returns for a version that does not
    exist. Only the version is queried, and a warning is logged. *)
Theorem unlinked_version_has_no_recipients sg version_id version w :
  find_one_Version sg version_id = Some version →
  truthy (dict_get_none (version_shot_code version)) = false →
  (get_assigned_users_from_version_tasks sg version_id w).1
  = Ok (Some [], dict_get (version_code version) "Unknown Version",
        dict_get (version_project_name version) "Unknown Project")
  ∧ (get_assigned_users_from_version_tasks sg version_id w).1 ≠ Ok (None, None, None)
  ∧ trace (get_assigned_users_from_version_tasks sg version_id w).2
    = trace w ++ [EvQuery (FindOne "Version" version_id);
                  EvLog WARNING ("No shot linked to Version ID: " +:+ fmt_val version_id)]
  ∧ ∀ absent_id, find_one_Version sg absent_id = None →
      (get_assigned_users_from_version_tasks sg absent_id w).1 = Ok (None, None, None).
Proof.
  intros Hversion Hshot.
  assert (get_assigned_users_from_version_tasks sg version_id w
          = (Ok (Some [], dict_get (version_code version) "Unknown Version",
                 dict_get (version_project_name version) "Unknown Project"),
             emit w [EvQuery (FindOne "Version" version_id);
                     EvLog WARNING ("No shot linked to Version ID: "
                                    +:+ fmt_val version_id)])) as Hrun.
  { unfold get_assigned_users_from_version_tasks. cbv zeta.
    erewrite bind_run by apply sg_find_one_run.
    rewrite Hversion, Hshot. cbn [negb].
    erewrite bind_run by apply logging_run.
    unfold ret. by rewrite emit_emit. }
  rewrite Hrun. split_and!; try done.
  intros absent_id Habsent.
  unfold get_assigned_users_from_version_tasks. cbv zeta.
  erewrite bind_run by apply sg_find_one_run.
  rewrite Habsent. done.
Qed.

Lemma unlinked_version_has_no_recipients_witness :
  (get_assigned_users_from_version_tasks demo_sg (PyInt 30) demo_world).1
  = Ok (Some [], Some "v001", Some "Atlas").
Proof.
  apply (unlinked_version_has_no_recipients demo_sg (PyInt 30)
           {| version_code := Has "v001"; version_project_name := Has "Atlas";
              version_shot_code := Null |} demo_world eq_refl eq_refl).
Defined.

(** At the webhook, a note on the unlinked version 30 and a note on the
    absent version 31 are answered alike; the log tells them apart. *)
Example note_on_unlinked_version :
  webhook demo_sg demo_slack (Json (demo_note_event 50)) demo_world
  = (Ok ("No assigned users found for linked Version", 404),
     emit demo_world
       [EvLog INFO "New note created with ID: 50";
        EvQuery (FindOne "Note" (PyInt 50));
        EvQuery (FindOne "Note" (PyInt 50));
        EvLog WARNING "No attachments found for Note ID: 50";
        EvQuery (FindOne "Version" (PyInt 30));
        EvLog WARNING "No shot linked to Version ID: 30";
        EvLog WARNING "No assigned users found for linked Version ID: 30"])
  ∧ webhook demo_sg demo_slack (Json (demo_note_event 51)) demo_world
    = (Ok ("No assigned users found for linked Version", 404),
       emit demo_world
         [EvLog INFO "New note created with ID: 51";
          EvQuery (FindOne "Note" (PyInt 51));
          EvQuery (FindOne "Note" (PyInt 51));
          EvLog WARNING "No attachments found for Note ID: 51";
          EvQuery (FindOne "Version" (PyInt 31));
          EvLog ERROR "Could not retrieve version details for Version ID: 31";
          EvLog WARNING "No assigned users found for linked Version ID: 31"]).
Proof. split; by vm_compute. Qed.

(** ** The status tables at run time *)

Lemma STATUS_DESCRIPTIONS_is_second_binding : STATUS_DESCRIPTIONS = ASSET_STATUS_DESCRIPTIONS.
Proof. unfold STATUS_DESCRIPTIONS, module_globals. by rewrite lookup_insert_eq. Qed.

(** C2: inside [handle_shot_event] the name [STATUS_DESCRIPTIONS] denotes
    the second table, the one written for assets. A Shot event for shot
    10 going from ["pla"] to ["ia"] is therefore announced as
    ['pla'] to ['Internally Approved'], where the table written for
    shots has ["Plate"] for ["pla"] and nothing for ["ia"]. *)
Theorem shot_event_reads_asset_table :
  STATUS_DESCRIPTIONS = ASSET_STATUS_DESCRIPTIONS
  ∧ status_get SHOT_STATUS_DESCRIPTIONS (Some "pla") = Some "Plate"
  ∧ status_get SHOT_STATUS_DESCRIPTIONS (Some "ia") = Some "ia"
  ∧ status_get STATUS_DESCRIPTIONS (Some "pla") = Some "pla"
  ∧ status_get STATUS_DESCRIPTIONS (Some "ia") = Some "Internally Approved"
  ∧ posts_of (trace (webhook demo_sg demo_slack (Json (demo_shot_event 10 "pla" "ia"))
                       demo_world).2)
    = [("U1", "In Atlas|SQ010|SH020|anim" +:+ nl
              +:+ "A shot status has been changed from 'pla' to 'Internally Approved'.");
       ("U1", "In Atlas|SQ010|SH020|comp" +:+ nl
              +:+ "A shot status has been changed from 'pla' to 'Internally Approved'.");
       ("U3", "In Atlas|SQ010|SH020|comp" +:+ nl
              +:+ "A shot status has been changed from 'pla' to 'Internally Approved'.")].
Proof.
  split; [apply STATUS_DESCRIPTIONS_is_second_binding|].
  repeat split; by vm_compute.
Qed.

(** ** The rate limiter and the sends *)

(** An admitted call leaves a positive counter behind. *)
Lemma throttle_admitted_positive now self self' :
  0 ≤ calls self → throttle now self = (true, self') → 0 < calls self'.
Proof.
  unfold throttle. intros Hcalls.
  destruct (Qlt_le_dec _ _); simpl;
    destruct (_ <? _)%Z eqn:Hlt; intros [= <-]; simpl; lia.
Qed.

(** C3 fails on the code: the sends are not gated. The Shot event for
    shot 20 posts six messages in one request, one more than
    [max_calls], and the limiter still has the counter 0 it was created
    with: no [throttle] call was admitted, none was made. *)
Lemma sends_without_admission :
  length (posts_of (trace (webhook demo_sg demo_slack (Json (demo_shot_event 20 "ip" "fin"))
                             demo_world).2)) = 6%nat
  ∧ throttler (webhook demo_sg demo_slack (Json (demo_shot_event 20 "ip" "fin"))
                 demo_world).2 = throttler demo_world
  ∧ calls (throttler (webhook demo_sg demo_slack (Json (demo_shot_event 20 "ip" "fin"))
                        demo_world).2) = 0
  ∧ max_calls (throttler demo_world) = 5.
Proof. repeat split; by vm_compute. Qed.

(** The same on every input: no request reads or changes the limiter.
    Whatever state the [throttler] is in, [webhook] gives the same
    answer and appends the same events (the same sends among them), and
    it leaves the [throttler] as it found it. *)
Theorem webhook_never_consults_throttler sg slack request w limiter :
  throttler (webhook sg slack request w).2 = throttler w
  ∧ (webhook sg slack request {| throttler := limiter; trace := trace w |}).1
    = (webhook sg slack request w).1
  ∧ trace (webhook sg slack request {| throttler := limiter; trace := trace w |}).2
    = trace (webhook sg slack request w).2.
Proof.
  destruct (emits_webhook sg slack request) as (r & evs & _ & Hrun).
  by rewrite !Hrun.
Qed.

(** ** The [Throttler] *)

Lemma throttle_no_reset now self :
  (now - last_reset self <= period self)%Q →
  throttle now self
  = if (calls self <? max_calls self)%Z
    then (true, {| max_calls := max_calls self; period := period self;
                   calls := calls self + 1; last_reset := last_reset self |})
    else (false, self).
Proof.
  intros Hin. unfold throttle.
  destruct (Qlt_le_dec _ _) as [Hout|_]; [|done].
  exfalso. by apply (Qlt_not_le _ _ Hout).
Qed.

Lemma admitted_replicate n m :
  admitted (replicate n true ++ replicate m false) = n.
Proof.
  unfold admitted. induction n as [|n IH]; cbn [replicate app].
  - induction m as [|m IHm]; [done|]. cbn [replicate].
    rewrite filter_cons_False by done. apply IHm.
  - rewrite filter_cons_True by done. cbn [length]. by rewrite IH.
Qed.


(** While the window stays open, the calls are admitted until the
    counter reaches [max_calls] and rejected from then on. *)
Lemma throttle_all_no_reset times self :
  (∀ t, t ∈ times → (t - last_reset self <= period self)%Q) →
  (throttle_all times self).1
  = replicate (length times `min` Z.to_nat (max_calls self - calls self)) true
    ++ replicate (length times - Z.to_nat (max_calls self - calls self)) false.
Proof.
  revert self. induction times as [|t times IH]; intros self Hin; [done|].
  simpl. rewrite throttle_no_reset by (apply Hin; apply list_elem_of_here).
  destruct (calls self <? max_calls self)%Z eqn:Hlt.
  - apply Z.ltb_lt in Hlt.
    match goal with
    | |- context [throttle_all times ?s] =>
        specialize (IH s); destruct (throttle_all times s) as [bs s'] eqn:Hrest
    end.
    simpl in IH |- *. rewrite IH by (intros t' Ht'; apply Hin; by apply list_elem_of_further).
    replace (Z.to_nat (max_calls self - calls self))
      with (S (Z.to_nat (max_calls self - (calls self + 1)))) by lia.
    done.
  - apply Z.ltb_ge in Hlt.
    specialize (IH self). destruct (throttle_all times self) as [bs s'] eqn:Hrest.
    simpl in IH |- *. rewrite IH by (intros t' Ht'; apply Hin; by apply list_elem_of_further).
    replace (Z.to_nat (max_calls self - calls self)) with 0%nat by lia.
    by rewrite Nat.min_0_r, Nat.sub_0_r.
Qed.




(** ** Delivery *)

(** With a client whose calls answer or raise [SlackApiError], the
    fan-out never raises; it looks up every (step, email) pair of the
    dict, in order, whatever happened to the pairs before; it posts
    exactly once for each pair whose email has a chat identity, also
    when an earlier post was refused; a pair without chat identity
    leaves a warning in the log, a refused post an error. *)
Lemma fanout_survives_failures slack d shot_name sequence_name project_name msg w :
  (send_message_to_assigned_users slack d shot_name sequence_name project_name msg w).1
  = Ok tt
  ∧ lookups_of (trace (send_message_to_assigned_users slack d shot_name sequence_name
                         project_name msg w).2)
    = lookups_of (trace w) ++ (snd <$> pairs d)
  ∧ posts_of (trace (send_message_to_assigned_users slack d shot_name sequence_name
                       project_name msg w).2)
    = posts_of (trace w) ++ resolved_posts slack project_name sequence_name shot_name msg d
  ∧ (∀ step email,
       (step, email) ∈ pairs d →
       truthy (chat_id_of slack email) = false →
       EvLog WARNING ("Could not find Slack user for email: " +:+ fmt email)
       ∈ trace (send_message_to_assigned_users slack d shot_name sequence_name
                  project_name msg w).2)
  ∧ (∀ step email error,
       (step, email) ∈ pairs d →
       truthy (chat_id_of slack email) = true →
       chat_postMessage slack (fmt (chat_id_of slack email))
         (personalized project_name sequence_name shot_name step msg) = inr error →
       EvLog ERROR ("Error sending message: " +:+ error)
       ∈ trace (send_message_to_assigned_users slack d shot_name sequence_name
                  project_name msg w).2).
Proof.
  rewrite send_message_to_assigned_users_run. simpl.
  rewrite lookups_of_app, posts_of_app, lookups_of_fanout, posts_of_fanout.
  split_and!; try done.
  - intros step email Hin Hfalse.
    apply elem_of_app; right. unfold fanout_events.
    apply list_elem_of_bind. exists (step, email). split; [|done].
    unfold deliver_events. rewrite Hfalse.
    apply elem_of_app; right. apply list_elem_of_here.
  - intros step email error Hin Htrue Hpost.
    apply elem_of_app; right. unfold fanout_events.
    apply list_elem_of_bind. exists (step, email). split; [|done].
    unfold deliver_events. rewrite Htrue.
    apply elem_of_app; right. apply elem_of_app; left.
    unfold send_events. rewrite Hpost.
    apply list_elem_of_further, list_elem_of_here.
Qed.

Example fanout_survives_failures_example :
  EvLog WARNING "Could not find Slack user for email: b@x"
  ∈ trace (send_message_to_assigned_users demo_slack
             [(Some "anim", [Some "a@x"]); (Some "comp", [Some "a@x"; Some "b@x"; Some "c@x"])]
             (Some "SH020") (Some "SQ010") (Some "Atlas") "Hello" demo_world).2
  ∧ EvLog ERROR "Error sending message: channel_not_found"
    ∈ trace (send_message_to_assigned_users demo_slack
               [(Some "anim", [Some "a@x"]);
                (Some "comp", [Some "a@x"; Some "b@x"; Some "c@x"])]
               (Some "SH020") (Some "SQ010") (Some "Atlas") "Hello" demo_world).2.
Proof.
  pose proof (fanout_survives_failures demo_slack
                [(Some "anim", [Some "a@x"]);
                 (Some "comp", [Some "a@x"; Some "b@x"; Some "c@x"])]
                (Some "SH020") (Some "SQ010") (Some "Atlas") "Hello" demo_world)
    as (_ & _ & _ & Hmiss & Hrefused).
  split.
  - apply (Hmiss (Some "comp") (Some "b@x")); [|reflexivity].
    apply (bool_decide_unpack _). by vm_compute.
  - apply (Hrefused (Some "comp") (Some "c@x") "channel_not_found");
      [|reflexivity|reflexivity].
    apply (bool_decide_unpack _). by vm_compute.
Defined.

(** *** With the failures that are not Slack API errors *)

Lemma for_each_run_Forall {A} (xs : list A) (body : A → M unit) (f : A → list Event) :
  Forall (λ x, ∀ w, body x w = (Ok tt, emit w (f x))) xs →
  ∀ w, for_each xs body w = (Ok tt, emit w (xs ≫= f)).
Proof.
  unfold for_each. induction 1 as [|x xs Hx _ IH]; intros w; simpl.
  - unfold ret. by rewrite emit_nil.
  - unfold bind at 1. by rewrite Hx, IH, emit_emit.
Qed.

Lemma network_chat_id_of client email :
  chat_id_of (plain_client client) email = Network.chat_id_of client email.
Proof.
  unfold chat_id_of, Network.chat_id_of. simpl.
  by destruct (Network.users_lookupByEmail client email).
Qed.

Lemma network_resolved_posts client project_name sequence_name shot_name msg d :
  resolved_posts (plain_client client) project_name sequence_name shot_name msg d
  = Network.resolved_posts client project_name sequence_name shot_name msg d.
Proof.
  unfold resolved_posts, Network.resolved_posts.
  induction (pairs d) as [|[step email] l IH]; [done|].
  change (omap ?f ((step, email) :: l))
    with (match f (step, email) with Some y => y :: omap f l | None => omap f l end).
  cbv beta iota. by rewrite IH, network_chat_id_of.
Qed.

(** On a pair whose calls fail with API errors only, the body of the
    loop does what it does with the plain client. *)
Lemma network_deliver_run client shot_name sequence_name project_name msg step email w :
  Network.api_errors_only client project_name sequence_name shot_name msg (step, email) →
  (let* slack_user_id := Network.find_slack_user_by_email client email in
   if truthy slack_user_id then
     try_except
       (Network.send_slack_message client (fmt slack_user_id)
          (personalized project_name sequence_name shot_name step msg);;
        logging INFO ("Message sent to " +:+ fmt email +:+ " (Slack ID: "
                      +:+ fmt slack_user_id +:+ ") for step " +:+ fmt step))
       is_SlackApiError
       (λ e, logging ERROR ("Error sending message to " +:+ fmt email +:+ ": "
                            +:+ exn_str e))
   else logging WARNING ("Could not find Slack user for email: " +:+ fmt email)) w
  = (Ok tt, emit w (deliver_events (plain_client client) project_name sequence_name
                      shot_name msg (step, email))).
Proof.
  unfold Network.api_errors_only, deliver_events, lookup_events, chat_id_of,
    Network.find_slack_user_by_email, Network.client_users_lookupByEmail,
    Network.send_slack_message, Network.client_chat_postMessage, send_events.
  unfold try_except, bind, tell, logging, tell, ret, raise, Network.outcome, emit.
  cbn [plain_client users_lookupByEmail chat_postMessage].
  intros Hpair.
  destruct (Network.users_lookupByEmail client email) as [id|error|class_name fault];
    simpl in *; [|by rewrite <- !app_assoc|done].
  destruct (bool_decide (id ≠ "")); simpl; [|by rewrite <- !app_assoc].
  destruct (Network.chat_postMessage client id _) as [ts|error|class_name fault];
    simpl; [by rewrite <- !app_assoc..|done].
Qed.

Lemma network_fanout_run client d shot_name sequence_name project_name msg w :
  Forall (Network.api_errors_only client project_name sequence_name shot_name msg)
    (pairs d) →
  Network.send_message_to_assigned_users client d shot_name sequence_name project_name
    msg w
  = send_message_to_assigned_users (plain_client client) d shot_name sequence_name
      project_name msg w.
Proof.
  intros Hpairs.
  rewrite send_message_to_assigned_users_run.
  unfold Network.send_message_to_assigned_users, fanout_events.
  rewrite pairs_bind.
  apply for_each_run_Forall.
  induction d as [|[step users] d IH]; [constructor|].
  change (pairs ((step, users) :: d))
    with (((λ email, (step, email)) <$> users) ++ pairs d) in Hpairs.
  apply Forall_app in Hpairs as [Husers Hd].
  constructor; [|by apply IH].
  intros w'. apply for_each_run_Forall.
  rewrite Forall_fmap in Husers.
  eapply Forall_impl; [exact Husers|].
  intros email Hemail w''. by apply network_deliver_run.
Qed.

(** Counterexample to C7: the connection drops while [b@x], the third
    of four pairs, is looked up. The fan-out raises the [URLError]; the
    fourth pair, [c@x], is neither looked up nor posted to. *)
Lemma fanout_aborted_by_network_fault :
  (Network.send_message_to_assigned_users demo_faulty_slack
     [(Some "anim", [Some "a@x"]); (Some "comp", [Some "a@x"; Some "b@x"; Some "c@x"])]
     (Some "SH020") (Some "SQ010") (Some "Atlas") "Hello" demo_world).1
  = Raise (OtherError "URLError" "<urlopen error [Errno 111] Connection refused>")
  ∧ lookups_of (trace (Network.send_message_to_assigned_users demo_faulty_slack
                         [(Some "anim", [Some "a@x"]);
                          (Some "comp", [Some "a@x"; Some "b@x"; Some "c@x"])]
                         (Some "SH020") (Some "SQ010") (Some "Atlas") "Hello"
                         demo_world).2)
    = [Some "a@x"; Some "a@x"; Some "b@x"]
  ∧ posts_of (trace (Network.send_message_to_assigned_users demo_faulty_slack
                       [(Some "anim", [Some "a@x"]);
                        (Some "comp", [Some "a@x"; Some "b@x"; Some "c@x"])]
                       (Some "SH020") (Some "SQ010") (Some "Atlas") "Hello"
                       demo_world).2)
    = [("U1", "In Atlas|SQ010|SH020|anim" +:+ nl +:+ "Hello");
       ("U1", "In Atlas|SQ010|SH020|comp" +:+ nl +:+ "Hello")]
  ∧ Network.chat_id_of demo_faulty_slack (Some "c@x") = Some "U3".
Proof. repeat split; by vm_compute. Qed.

(** C7, amended: as long as the calls made for the pairs of the dict
    fail, when they fail, with a Slack API error, the fan-out never
    raises; every (step, email) pair is looked up, in order, whatever
    happened to the pairs before; a pair whose lookup fails or gives no
    identity leaves a warning in the log and is skipped; each pair with
    a chat identity is posted to exactly once, without retry, also after
    a refused post, and a refused post leaves an error in the log. *)
Theorem fanout_survives_api_errors client d shot_name sequence_name project_name msg w :
  Forall (Network.api_errors_only client project_name sequence_name shot_name msg)
    (pairs d) →
  (Network.send_message_to_assigned_users client d shot_name sequence_name project_name
     msg w).1 = Ok tt
  ∧ lookups_of (trace (Network.send_message_to_assigned_users client d shot_name
                         sequence_name project_name msg w).2)
    = lookups_of (trace w) ++ (snd <$> pairs d)
  ∧ posts_of (trace (Network.send_message_to_assigned_users client d shot_name
                       sequence_name project_name msg w).2)
    = posts_of (trace w)
      ++ Network.resolved_posts client project_name sequence_name shot_name msg d
  ∧ (∀ step email,
       (step, email) ∈ pairs d →
       truthy (Network.chat_id_of client email) = false →
       EvLog WARNING ("Could not find Slack user for email: " +:+ fmt email)
       ∈ trace (Network.send_message_to_assigned_users client d shot_name sequence_name
                  project_name msg w).2)
  ∧ (∀ step email error,
       (step, email) ∈ pairs d →
       truthy (Network.chat_id_of client email) = true →
       Network.chat_postMessage client (fmt (Network.chat_id_of client email))
         (personalized project_name sequence_name shot_name step msg)
       = Network.ApiError error →
       EvLog ERROR ("Error sending message: " +:+ error)
       ∈ trace (Network.send_message_to_assigned_users client d shot_name sequence_name
                  project_name msg w).2).
Proof.
  intros Hpairs. rewrite network_fanout_run by done.
  destruct (fanout_survives_failures (plain_client client) d shot_name sequence_name
              project_name msg w) as (Hr & Hl & Hp & Hmiss & Hrefused).
  split_and!.
  - done.
  - done.
  - by rewrite Hp, network_resolved_posts.
  - intros step email Hin Hnone. apply (Hmiss step email Hin).
    by rewrite network_chat_id_of.
  - intros step email error Hin Hsome Hpost.
    apply (Hrefused step email error Hin).
    + by rewrite network_chat_id_of.
    + rewrite network_chat_id_of. simpl. by rewrite Hpost.
Qed.

Lemma fanout_survives_api_errors_witness :
  (Network.send_message_to_assigned_users (network_client demo_slack)
     [(Some "anim", [Some "a@x"]); (Some "comp", [Some "a@x"; Some "b@x"; Some "c@x"])]
     (Some "SH020") (Some "SQ010") (Some "Atlas") "Hello" demo_world).1 = Ok tt
  ∧ lookups_of (trace (Network.send_message_to_assigned_users (network_client demo_slack)
                         [(Some "anim", [Some "a@x"]);
                          (Some "comp", [Some "a@x"; Some "b@x"; Some "c@x"])]
                         (Some "SH020") (Some "SQ010") (Some "Atlas") "Hello"
                         demo_world).2)
    = [Some "a@x"; Some "a@x"; Some "b@x"; Some "c@x"].
Proof.
  pose proof (fanout_survives_api_errors (network_client demo_slack)
                [(Some "anim", [Some "a@x"]);
                 (Some "comp", [Some "a@x"; Some "b@x"; Some "c@x"])]
                (Some "SH020") (Some "SQ010") (Some "Atlas") "Hello" demo_world) as H.
  destruct H as (Hr & Hl & _).
  - repeat constructor.
  - split; [exact Hr|exact Hl].
Defined.

(** ** Shot status changes *)




(** ** Replies *)

Lemma webhook_ok sg slack event_data w response w' :
  dispatch sg slack event_data w = (Ok response, w') →
  webhook sg slack (Json event_data) w = (Ok response, w').
Proof. intros Hrun. unfold webhook, try_except. by rewrite Hrun. Qed.

Lemma dispatch_reply sg slack event_data :
  entity_type (meta event_data) = Some "Reply" →
  event_type event_data = Some "Shotgun_Reply_New" →
  operation event_data = Some "create" →
  dispatch sg slack event_data = handle_reply_event sg slack event_data.
Proof. intros Het Hev Hop. unfold dispatch. cbv zeta. by rewrite Het, Hev, Hop. Qed.

Lemma posts_of_lookup_events slack email : posts_of (lookup_events slack email) = [].
Proof. unfold lookup_events. by destruct (users_lookupByEmail slack email). Qed.

Lemma posts_of_send_events slack slack_user_id text :
  posts_of (send_events slack slack_user_id text) = [(slack_user_id, text)].
Proof. unfold send_events. simpl. by destruct (chat_postMessage slack _ _). Qed.

(** The conditional expression that computes [slack_user_id] in
    [handle_reply_event]. *)
Lemma reply_author_lookup_run slack created_by_email w :
  (if truthy created_by_email then find_slack_user_by_email slack created_by_email
   else ret None) w
  = (Ok (if truthy created_by_email then chat_id_of slack created_by_email else None),
     emit w (if truthy created_by_email then lookup_events slack created_by_email else [])).
Proof.
  destruct (truthy created_by_email).
  - apply find_slack_user_by_email_run.
  - unfold ret. by rewrite emit_nil.
Qed.

Lemma posts_of_reply_author_lookup slack created_by_email :
  posts_of (if truthy created_by_email then lookup_events slack created_by_email else []) = [].
Proof. destruct (truthy created_by_email); [apply posts_of_lookup_events|done]. Qed.

(** Counterexample to C5: reply 40 answers a note without links and its
    author has a chat identity. The author is sent the body that starts
    with ["A new Reply has been created by you:"], which is not the body
    ["A new Reply has been created:..."] of the linked case. *)
Lemma reply_author_copy_has_its_own_body :
  posts_of (trace (webhook demo_sg demo_slack (Json (demo_reply_event 40)) demo_world).2)
  = [("U9", "A new Reply has been created by you:" +:+ nl +:+ "Looks good" +:+ nl
            +:+ "Related Note: Check the rig")]
  ∧ posts_of (trace (webhook demo_sg demo_slack (Json (demo_reply_event 40)) demo_world).2)
    ≠ [("U9", "A new Reply has been created:" +:+ nl +:+ "Looks good" +:+ nl
              +:+ "Related Note: Check the rig")].
Proof. split; by vm_compute. Qed.

(** A reply handler run that ends normally is what [webhook] answers. *)
Lemma reply_webhook_run sg slack event_data w response evs :
  entity_type (meta event_data) = Some "Reply" →
  event_type event_data = Some "Shotgun_Reply_New" →
  operation event_data = Some "create" →
  handle_reply_event sg slack event_data w = (Ok response, emit w evs) →
  (webhook sg slack (Json event_data) w).1 = Ok response
  ∧ posts_of (trace (webhook sg slack (Json event_data) w).2)
    = posts_of (trace w) ++ posts_of evs.
Proof.
  intros Het Hev Hop Hrun.
  erewrite webhook_ok by (rewrite dispatch_reply by done; apply Hrun).
  simpl. by rewrite posts_of_app.
Qed.

(** The branch [handle_reply_event] ends in when it does not return from
    the Shot case: the note has no link, or its first link is not a
    Shot. *)
Lemma reply_author_branch sg slack event_data w reply :
  entity_type (meta event_data) = Some "Reply" →
  event_type event_data = Some "Shotgun_Reply_New" →
  operation event_data = Some "create" →
  find_one_Reply sg (entity_id (meta event_data)) = Some reply →
  truthy_list (dict_get (reply_note_links reply) []) = false
  ∨ (∃ link rest, dict_get (reply_note_links reply) [] = Some (link :: rest)
                  ∧ link_type link ≠ "Shot") →
  let contents :=
    fmt (dict_get (reply_content reply) "No content") +:+ nl +:+ "Related Note: "
    +:+ fmt (dict_get (reply_note_content reply) "No associated note content") in
  let author := dict_get (reply_created_by_email reply) "unknown" in
  let author_id := if truthy author then chat_id_of slack author else None in
  let run := webhook sg slack (Json event_data) w in
  if truthy author_id then
    run.1 = Ok ("success", 200)
    ∧ posts_of (trace run.2)
      = posts_of (trace w)
        ++ [(fmt author_id, "A new Reply has been created by you:" +:+ nl +:+ contents)]
  else
    run.1 = Ok ("No users found for notification", 404)
    ∧ posts_of (trace run.2) = posts_of (trace w).
Proof.
  intros Het Hev Hop Hreply Hunlinked contents author author_id run.
  assert (handle_reply_event sg slack event_data w
          = (let* _ := logging INFO ("New reply created with ID: "
                                     +:+ fmt_val (entity_id (meta event_data))) in
             let* _ := sg_find_one sg "Reply" find_one_Reply (entity_id (meta event_data)) in
             let* slack_user_id :=
               if truthy author then find_slack_user_by_email slack author else ret None in
             if truthy slack_user_id then
               send_slack_message slack (fmt slack_user_id)
                 ("A new Reply has been created by you:" +:+ nl +:+ contents);;
               ret ("success", 200)
             else
               logging WARNING ("No linked entities or Slack user found for Reply ID: "
                                +:+ fmt_val (entity_id (meta event_data)));;
               ret ("No users found for notification", 404)) w) as Hcopy.
  { unfold handle_reply_event. cbv zeta.
    erewrite !(bind_run (logging INFO _)) by apply logging_run.
    erewrite !(bind_run (sg_find_one _ _ _ _)) by apply sg_find_one_run.
    rewrite Hreply. fold author.
    erewrite !(bind_run (if truthy author then _ else _))
      by apply reply_author_lookup_run.
    destruct Hunlinked as [Hnone|(link & rest & Hlinks & Htype)].
    - destruct (dict_get (reply_note_links reply) []) as [[|link rest]|]; done.
    - rewrite Hlinks. by rewrite bool_decide_false by done. }
  erewrite bind_run in Hcopy by apply logging_run.
  erewrite bind_run in Hcopy by apply sg_find_one_run.
  erewrite bind_run in Hcopy by apply reply_author_lookup_run.
  fold author_id in Hcopy. subst run.
  destruct (truthy author_id).
  - erewrite bind_run in Hcopy by apply send_slack_message_run.
    unfold ret in Hcopy. rewrite !emit_emit in Hcopy.
    destruct (reply_webhook_run _ _ _ _ _ _ Het Hev Hop Hcopy) as [Hr Hp].
    split; [exact Hr|rewrite Hp].
    rewrite !posts_of_app, posts_of_reply_author_lookup, posts_of_send_events. done.
  - erewrite bind_run in Hcopy by apply logging_run.
    unfold ret in Hcopy. rewrite !emit_emit in Hcopy.
    destruct (reply_webhook_run _ _ _ _ _ _ Het Hev Hop Hcopy) as [Hr Hp].
    split; [exact Hr|rewrite Hp].
    rewrite !posts_of_app, posts_of_reply_author_lookup. simpl. by rewrite app_nil_r.
Qed.

(** C5, amended: for a Reply-created event whose reply exists,
    - if the first link of the reply's note is a Shot: when that shot
      resolves to a non-empty step dict, every entry with a chat identity
      is posted the Context prefix followed by
      ["A new Reply has been created:\n<reply>\nRelated Note: <note>"] and
      the answer is 200; when it resolves to nothing, nothing is posted
      and the answer is 404, whoever the author is;
    - if the note has no link: an author with a chat identity is posted
      ["A new Reply has been created by you:\n<reply>\nRelated Note: <note>"]
      and the answer is 200; otherwise nothing is posted and the answer
      is 404. *)
Theorem reply_event_routing sg slack event_data w reply :
  entity_type (meta event_data) = Some "Reply" →
  event_type event_data = Some "Shotgun_Reply_New" →
  operation event_data = Some "create" →
  find_one_Reply sg (entity_id (meta event_data)) = Some reply →
  let contents :=
    fmt (dict_get (reply_content reply) "No content") +:+ nl +:+ "Related Note: "
    +:+ fmt (dict_get (reply_note_content reply) "No associated note content") in
  let author := dict_get (reply_created_by_email reply) "unknown" in
  let author_id := if truthy author then chat_id_of slack author else None in
  let run := webhook sg slack (Json event_data) w in
  (∀ link rest d shot_name sequence_name project_name,
     dict_get (reply_note_links reply) [] = Some (link :: rest) →
     link_type link = "Shot" →
     (get_assigned_users_from_tasks sg (PyInt (link_id link)) w).1
     = Ok (d, shot_name, sequence_name, project_name) →
     if truthy_dict d then
       run.1 = Ok ("success", 200)
       ∧ posts_of (trace run.2)
         = posts_of (trace w)
           ++ resolved_posts slack project_name sequence_name shot_name
                ("A new Reply has been created:" +:+ nl +:+ contents) (default [] d)
     else
       run.1 = Ok ("No assigned users found for linked entity", 404)
       ∧ posts_of (trace run.2) = posts_of (trace w))
  ∧ (truthy_list (dict_get (reply_note_links reply) []) = false →
     if truthy author_id then
       run.1 = Ok ("success", 200)
       ∧ posts_of (trace run.2)
         = posts_of (trace w)
           ++ [(fmt author_id, "A new Reply has been created by you:" +:+ nl +:+ contents)]
     else
       run.1 = Ok ("No users found for notification", 404)
       ∧ posts_of (trace run.2) = posts_of (trace w)).
Proof.
  intros Het Hev Hop Hreply contents author author_id run.
  split.
  - intros link rest d shot_name sequence_name project_name Hlinks Htype Hresolve.
    destruct (get_assigned_users_from_tasks_quiet sg (PyInt (link_id link)) w)
      as (evs & Hquiet & Hrun).
    rewrite Hresolve in Hrun.
    assert (∃ response evs',
              handle_reply_event sg slack event_data w = (Ok response, emit w evs')
              ∧ if truthy_dict d
                then response = ("success", 200)
                     ∧ posts_of evs'
                       = resolved_posts slack project_name sequence_name shot_name
                           ("A new Reply has been created:" +:+ nl +:+ contents)
                           (default [] d)
                else response = ("No assigned users found for linked entity", 404)
                     ∧ posts_of evs' = [])
      as (response & evs' & Hhandler & Hcases).
    { unfold handle_reply_event. cbv zeta.
      erewrite bind_run by apply logging_run.
      erewrite bind_run by apply sg_find_one_run.
      rewrite Hreply.
      erewrite bind_run by apply reply_author_lookup_run.
      rewrite Hlinks, Htype, bool_decide_true by done.
      erewrite bind_run by apply Hrun. cbv beta iota.
      destruct d as [[|entry d]|].
      - erewrite bind_run by apply logging_run.
        unfold ret. rewrite !emit_emit. eexists _, _. split; [reflexivity|].
        simpl. split; [done|].
        by rewrite !posts_of_app, posts_of_reply_author_lookup, (quiet_posts evs Hquiet).
      - erewrite bind_run by apply send_message_to_assigned_users_run.
        unfold ret. rewrite !emit_emit. eexists _, _. split; [reflexivity|].
        simpl. split; [done|].
        by rewrite !posts_of_app, posts_of_reply_author_lookup, (quiet_posts evs Hquiet),
          posts_of_fanout.
      - erewrite bind_run by apply logging_run.
        unfold ret. rewrite !emit_emit. eexists _, _. split; [reflexivity|].
        simpl. split; [done|].
        by rewrite !posts_of_app, posts_of_reply_author_lookup, (quiet_posts evs Hquiet). }
    destruct (reply_webhook_run _ _ _ _ _ _ Het Hev Hop Hhandler) as [Hr Hp].
    subst run. rewrite Hr, Hp.
    destruct (truthy_dict d); destruct Hcases as [-> ->]; by rewrite ?app_nil_r.
  - intros Hnone. apply (reply_author_branch sg slack event_data w reply); auto.
Qed.

(** What the code does for a first link that is not a Shot (an Asset or
    a Version, say): it takes the author's branch as well. *)
Lemma reply_first_link_not_a_shot sg slack event_data w reply link rest :
  entity_type (meta event_data) = Some "Reply" →
  event_type event_data = Some "Shotgun_Reply_New" →
  operation event_data = Some "create" →
  find_one_Reply sg (entity_id (meta event_data)) = Some reply →
  dict_get (reply_note_links reply) [] = Some (link :: rest) →
  link_type link ≠ "Shot" →
  let author := dict_get (reply_created_by_email reply) "unknown" in
  truthy (if truthy author then chat_id_of slack author else None) = false →
  (webhook sg slack (Json event_data) w).1 = Ok ("No users found for notification", 404)
  ∧ posts_of (trace (webhook sg slack (Json event_data) w).2) = posts_of (trace w).
Proof.
  intros Het Hev Hop Hreply Hlinks Htype author Hauthor.
  pose proof (reply_author_branch sg slack event_data w reply Het Hev Hop Hreply
                (or_intror (ex_intro _ link (ex_intro _ rest (conj Hlinks Htype))))) as H.
  cbv zeta in H. fold author in H. by rewrite Hauthor in H.
Qed.

Lemma reply_event_routing_witness :
  (webhook demo_sg demo_slack (Json (demo_reply_event 41)) demo_world).1 = Ok ("success", 200)
  ∧ posts_of (trace (webhook demo_sg demo_slack (Json (demo_reply_event 40)) demo_world).2)
    = [("U9", "A new Reply has been created by you:" +:+ nl +:+ "Looks good" +:+ nl
              +:+ "Related Note: Check the rig")].
Proof.
  split.
  - pose proof (reply_event_routing demo_sg demo_slack (demo_reply_event 41) demo_world
                  _ eq_refl eq_refl eq_refl eq_refl) as [Hshot _].
    specialize (Hshot {| link_type := "Shot"; link_id := 10; link_name := "SH020" |} []
                  (Some [(Some "anim", [Some "a@x"]);
                         (Some "comp", [Some "a@x"; Some "b@x"; Some "c@x"])])
                  (Some "SH020") (Some "SQ010") (Some "Atlas") eq_refl eq_refl eq_refl).
    exact (proj1 Hshot).
  - pose proof (reply_event_routing demo_sg demo_slack (demo_reply_event 40) demo_world
                  _ eq_refl eq_refl eq_refl eq_refl) as [_ Hcopy].
    specialize (Hcopy eq_refl).
    exact (proj2 Hcopy).
Defined.

(** * Further properties of the code *)

(** ** The [Throttler], whatever the clock does *)

Lemma throttle_keeps_bounds now self :
  0 ≤ calls self ≤ max_calls self →
  0 ≤ calls (throttle now self).2 ≤ max_calls self
  ∧ max_calls (throttle now self).2 = max_calls self
  ∧ period (throttle now self).2 = period self.
Proof.
  intros Hbounds. unfold throttle.
  destruct (Qlt_le_dec _ _); simpl;
    destruct (_ <? _)%Z eqn:Hlt; simpl;
    try apply Z.ltb_lt in Hlt; simpl in *; split_and!; (done || lia).
Qed.

(** X1: the counter of the limiter never leaves [0 .. max_calls]:
    started inside these bounds, it is still inside after any sequence
    of calls, at any clock readings, and [max_calls] and [period] are
    never changed. *)
Theorem throttle_all_keeps_bounds times self :
  0 ≤ calls self ≤ max_calls self →
  0 ≤ calls (throttle_all times self).2 ≤ max_calls self
  ∧ max_calls (throttle_all times self).2 = max_calls self
  ∧ period (throttle_all times self).2 = period self.
Proof.
  revert self. induction times as [|t times IH]; intros self Hbounds; [by simpl|].
  simpl.
  pose proof (throttle_keeps_bounds t self Hbounds) as (Hc & Hm & Hp).
  destruct (throttle t self) as [b self1]. simpl in Hc, Hm, Hp.
  specialize (IH self1). rewrite Hm, Hp in IH.
  destruct (throttle_all times self1) as [bs self2]. simpl in *.
  apply IH. lia.
Qed.

Lemma throttle_all_keeps_bounds_witness :
  0 ≤ calls (throttle_all [(3 # 1)%Q; (4 # 1)%Q; (30 # 1)%Q]
               (Throttler_init 2 (10 # 1) (0 # 1))).2 ≤ 2.
Proof.
  apply (throttle_all_keeps_bounds [(3 # 1)%Q; (4 # 1)%Q; (30 # 1)%Q]
           (Throttler_init 2 (10 # 1) (0 # 1))).
  simpl. lia.
Defined.

Lemma throttle_all_no_reset_state times self :
  (∀ t, t ∈ times → (t - last_reset self <= period self)%Q) →
  calls self ≤ max_calls self →
  (throttle_all times self).2
  = {| max_calls := max_calls self; period := period self;
       calls := calls self
                + Z.of_nat (length times `min` Z.to_nat (max_calls self - calls self));
       last_reset := last_reset self |}.
Proof.
  revert self. induction times as [|t times IH]; intros self Hin Hle.
  - destruct self; simpl. by rewrite Z.add_0_r.
  - cbn [throttle_all]. rewrite throttle_no_reset by (apply Hin; apply list_elem_of_here).
    destruct (calls self <? max_calls self)%Z eqn:Hlt.
    + apply Z.ltb_lt in Hlt.
      match goal with
      | |- context [throttle_all times ?s] =>
          specialize (IH s); destruct (throttle_all times s) as [bs s'] eqn:Hrest
      end.
      cbn [fst snd max_calls period calls last_reset] in IH |- *.
      rewrite IH by (first [intros t' Ht'; apply Hin; by apply list_elem_of_further | lia]).
      cbn [length].
      replace (Z.to_nat (max_calls self - calls self))
        with (S (Z.to_nat (max_calls self - (calls self + 1)))) by lia.
      rewrite <- Nat.succ_min_distr. f_equal. lia.
    + apply Z.ltb_ge in Hlt.
      specialize (IH self). destruct (throttle_all times self) as [bs s'] eqn:Hrest.
      cbn [fst snd] in IH |- *.
      rewrite IH by (first [intros t' Ht'; apply Hin; by apply list_elem_of_further | lia]).
      replace (Z.to_nat (max_calls self - calls self)) with 0%nat by lia.
      by rewrite !Nat.min_0_r.
Qed.

(** X2: a window that is partly used admits only what is left of it.
    For calls made while the window is open (none later than [period]
    after [last_reset]), from any counter not above [max_calls], the
    first [max_calls - calls] calls are admitted and the others
    rejected; the counter advances by the number of admitted calls and
    [last_reset] does not move. *)
Theorem throttle_all_open_window times self :
  (∀ t, t ∈ times → (t - last_reset self <= period self)%Q) →
  calls self ≤ max_calls self →
  (throttle_all times self).1
  = replicate (length times `min` Z.to_nat (max_calls self - calls self)) true
    ++ replicate (length times - Z.to_nat (max_calls self - calls self)) false
  ∧ admitted (throttle_all times self).1
    = (length times `min` Z.to_nat (max_calls self - calls self))%nat
  ∧ calls (throttle_all times self).2
    = calls self + Z.of_nat (admitted (throttle_all times self).1)
  ∧ last_reset (throttle_all times self).2 = last_reset self.
Proof.
  intros Hin Hle.
  rewrite throttle_all_no_reset, throttle_all_no_reset_state by done.
  by rewrite admitted_replicate.
Qed.

Lemma throttle_all_open_window_witness :
  (throttle_all [(4 # 1)%Q; (5 # 1)%Q; (6 # 1)%Q]
     {| max_calls := 5; period := 10 # 1; calls := 3; last_reset := 0 # 1 |}).1
  = [true; true; false].
Proof.
  apply (throttle_all_open_window [(4 # 1)%Q; (5 # 1)%Q; (6 # 1)%Q]
           {| max_calls := 5; period := 10 # 1; calls := 3; last_reset := 0 # 1 |}).
  - intros t Ht. apply elem_of_cons in Ht as [->|Ht]; [by vm_compute|].
    apply elem_of_cons in Ht as [->|Ht]; [by vm_compute|].
    apply elem_of_cons in Ht as [->|Ht]; [by vm_compute|].
    by apply elem_of_nil in Ht.
  - simpl. lia.
Defined.

(** X3: a full limiter stays shut while its window is open: every call
    made no later than [period] after [last_reset] is rejected, and the
    limiter is left exactly as it was. *)
Theorem throttle_all_full_window times self :
  max_calls self ≤ calls self →
  (∀ t, t ∈ times → (t - last_reset self <= period self)%Q) →
  throttle_all times self = (replicate (length times) false, self).
Proof.
  intros Hfull. induction times as [|t times IH]; intros Hin; [done|].
  cbn [throttle_all]. rewrite throttle_no_reset by (apply Hin; apply list_elem_of_here).
  destruct (_ <? _)%Z eqn:Hlt; [apply Z.ltb_lt in Hlt; lia|].
  rewrite IH by (intros t' Ht'; apply Hin; by apply list_elem_of_further).
  done.
Qed.

Lemma throttle_all_full_window_witness :
  throttle_all [(4 # 1)%Q; (5 # 1)%Q]
    {| max_calls := 5; period := 10 # 1; calls := 5; last_reset := 0 # 1 |}
  = ([false; false],
     {| max_calls := 5; period := 10 # 1; calls := 5; last_reset := 0 # 1 |}).
Proof.
  apply (throttle_all_full_window [(4 # 1)%Q; (5 # 1)%Q]
           {| max_calls := 5; period := 10 # 1; calls := 5; last_reset := 0 # 1 |}).
  - simpl. lia.
  - intros t Ht. apply elem_of_cons in Ht as [->|Ht]; [by vm_compute|].
    apply elem_of_cons in Ht as [->|Ht]; [by vm_compute|].
    by apply elem_of_nil in Ht.
Defined.

(** ** The answers of [webhook] *)

Section Returns.

Context {A : Type} {Q : A → Prop}.

Lemma returns_ret (a : A) : Q a → returns Q (ret a).
Proof. intros Ha w. exact Ha. Qed.

Lemma returns_raise e : returns Q (raise e).
Proof. intros w. exact I. Qed.

Lemma returns_bind {B} (m : M B) (k : B → M A) :
  (∀ b, returns Q (k b)) → returns Q (bind m k).
Proof.
  intros Hk w. unfold bind.
  destruct (m w) as [[b|e] w1]; [apply Hk|exact I].
Qed.

End Returns.

Ltac returns_step :=
  first
    [ progress intros
    | progress cbv zeta
    | apply returns_raise
    | apply returns_ret; unfold valid_status; simpl; set_solver
    | apply returns_bind
    | match goal with
      | |- returns _ (match ?x with _ => _ end) => destruct x
      end ].

Ltac returns_auto := repeat returns_step.





Lemma returns_handle_asset_event sg slack event_data :
  returns valid_status (handle_asset_event sg slack event_data).
Proof. unfold handle_asset_event. returns_auto. Qed.




(** An exception inside a handler is answered
    ["Error processing data", 500] and leaves one more error line in the
    log, after whatever the handler had done before it raised. *)
Lemma webhook_reports_exception sg slack event_data w e w1 :
  dispatch sg slack event_data w = (Raise e, w1) →
  webhook sg slack (Json event_data) w
  = (Ok ("Error processing data", 500),
     emit w1 [EvLog ERROR ("Error processing the request: " +:+ exn_str e)]).
Proof. intros Hrun. unfold webhook, try_except. by rewrite Hrun. Qed.

(** ** The resolvers *)

Lemma quiet_frame {A} (m : M A) w :
  emits quiet m →
  lookups_of (trace (m w).2) = lookups_of (trace w)
  ∧ posts_of (trace (m w).2) = posts_of (trace w)
  ∧ throttler (m w).2 = throttler w.
Proof.
  intros (r & evs & Hquiet & Hrun). rewrite Hrun. simpl.
  by rewrite lookups_of_app, posts_of_app, (quiet_lookups evs), (quiet_posts evs),
    !app_nil_r.
Qed.

(** X5: resolving recipients never reaches Slack: the resolvers for
    shots, assets and versions, and the lookup of a user's email, only
    query the tracking source and log; they make no Slack lookup and
    post nothing, whether they return or raise. *)
Theorem resolvers_never_reach_slack sg id user_id w :
  (lookups_of (trace (get_assigned_users_from_tasks sg id w).2) = lookups_of (trace w)
   ∧ posts_of (trace (get_assigned_users_from_tasks sg id w).2) = posts_of (trace w))
  ∧ (lookups_of (trace (get_assigned_users_from_asset_tasks sg id w).2) = lookups_of (trace w)
     ∧ posts_of (trace (get_assigned_users_from_asset_tasks sg id w).2) = posts_of (trace w))
  ∧ (lookups_of (trace (get_assigned_users_from_version_tasks sg id w).2)
     = lookups_of (trace w)
     ∧ posts_of (trace (get_assigned_users_from_version_tasks sg id w).2)
       = posts_of (trace w))
  ∧ (lookups_of (trace (get_shotgrid_user_email sg user_id w).2) = lookups_of (trace w)
     ∧ posts_of (trace (get_shotgrid_user_email sg user_id w).2) = posts_of (trace w)).
Proof.
  split_and!.
  all: match goal with
       | |- context [trace (?m ?w0).2] =>
           assert (emits quiet m) as Hm
             by (first [ apply emits_get_assigned_users_from_tasks
                       | apply emits_get_assigned_users_from_asset_tasks
                       | apply emits_get_assigned_users_from_version_tasks
                       | apply emits_get_shotgrid_user_email ];
                 intros; exact I);
           apply (quiet_frame m w0) in Hm; tauto
       end.
Qed.

(** ** The step dict *)

Lemma pairs_cons step users (d : step_dict) :
  pairs ((step, users) :: d) = ((λ email, (step, email)) <$> users) ++ pairs d.
Proof. done. Qed.

Lemma dict_append_spec (d : step_dict) step email :
  NoDup d.*1 →
  Forall (λ entry, entry.2 ≠ []) d →
  pairs (dict_append d step email) ≡ₚ pairs d ++ [(step, email)]
  ∧ NoDup (dict_append d step email).*1
  ∧ Forall (λ entry, entry.2 ≠ []) (dict_append d step email)
  ∧ (dict_append d step email).*1
    = if decide (step ∈ d.*1) then d.*1 else d.*1 ++ [step].
Proof.
  induction d as [|[step' users] d IH]; intros Hnodup Hne.
  - cbn [dict_append]. split_and!.
    + done.
    + apply NoDup_singleton.
    + by repeat constructor.
    + by rewrite decide_False by apply not_elem_of_nil.
  - rewrite fmap_cons in Hnodup. apply NoDup_cons in Hnodup as [Hnotin Hnodup].
    apply Forall_cons in Hne as [Husers Hne]. cbn [fst snd] in Hnotin, Husers.
    destruct (IH Hnodup Hne) as (IHp & IHn & IHe & IHk).
    cbn [dict_append]. destruct (decide (step' = step)) as [->|Hneq].
    + rewrite !fmap_cons. cbn [fst]. split_and!.
      * rewrite !pairs_cons, fmap_app. cbn [fmap list_fmap].
        rewrite <- !app_assoc. f_equiv. apply Permutation_app_comm.
      * by apply NoDup_cons.
      * apply Forall_cons. split; [|done]. cbn [snd]. by destruct users.
      * by rewrite decide_True by apply list_elem_of_here.
    + rewrite !fmap_cons. cbn [fst]. split_and!.
      * rewrite !pairs_cons, IHp. by rewrite app_assoc.
      * apply NoDup_cons. split; [|done].
        rewrite IHk. destruct (decide (step ∈ d.*1)); [done|].
        rewrite elem_of_app, list_elem_of_singleton. tauto.
      * by apply Forall_cons.
      * rewrite IHk. destruct (decide (step ∈ d.*1)) as [Hin|Hnin].
        -- by rewrite decide_True by (by apply list_elem_of_further).
        -- rewrite decide_False; [done|].
           rewrite elem_of_cons. intros [->|?]; done.
Qed.

(** X6: [dict_append] is the insertion of one (step, email) entry: the
    entries of the new dict are those of the old one plus the new entry,
    a dict whose steps are distinct keeps distinct steps — a new step
    goes last, a known one keeps its place — and no step is left with
    an empty list. *)
Theorem dict_append_entry (d : step_dict) step email :
  NoDup d.*1 →
  Forall (λ entry, entry.2 ≠ []) d →
  pairs (dict_append d step email) ≡ₚ pairs d ++ [(step, email)]
  ∧ NoDup (dict_append d step email).*1
  ∧ Forall (λ entry, entry.2 ≠ []) (dict_append d step email)
  ∧ (dict_append d step email).*1
    = if decide (step ∈ d.*1) then d.*1 else d.*1 ++ [step].
Proof. apply dict_append_spec. Qed.

Lemma dict_append_entry_witness :
  pairs (dict_append [(Some "anim", [Some "a@x"])] (Some "comp") (Some "b@x"))
  ≡ₚ pairs [(Some "anim", [Some "a@x"])] ++ [(Some "comp", Some "b@x")].
Proof.
  apply (dict_append_entry [(Some "anim", [Some "a@x"])] (Some "comp") (Some "b@x")).
  - apply NoDup_singleton.
  - repeat constructor. discriminate.
Defined.

Lemma for_fold_invariant {A S} (I : list A → S → Prop) (body : A → S → M S) xs :
  (∀ pre x s w s1, I pre s → (body x s w).1 = Ok s1 → I (pre ++ [x]) s1) →
  ∀ pre s w s', I pre s → (for_fold xs s body w).1 = Ok s' → I (pre ++ xs) s'.
Proof.
  intros Hbody. induction xs as [|x xs IH]; intros pre s w s' Hpre Hrun.
  - simpl in Hrun. injection Hrun as <-. by rewrite app_nil_r.
  - simpl in Hrun. unfold bind in Hrun.
    destruct (body x s w) as [[s1|e] w1] eqn:Hx; [|done].
    replace (pre ++ x :: xs) with ((pre ++ [x]) ++ xs) by (by rewrite <- app_assoc).
    apply (IH _ s1 w1); [|done].
    apply (Hbody pre x s w); [done|]. by rewrite Hx.
Qed.

(** The invariant the two loops of the resolvers keep. *)
Lemma collect_assigned_users_entries sg tasks w d :
  (collect_assigned_users sg tasks w).1 = Ok d →
  pairs d ≡ₚ tasks ≫= task_assignments sg
  ∧ NoDup d.*1
  ∧ Forall (λ entry, entry.2 ≠ []) d.
Proof.
  unfold collect_assigned_users. intros Hrun.
  apply (for_fold_invariant
           (λ pre s, pairs s ≡ₚ pre ≫= task_assignments sg
                     ∧ NoDup s.*1 ∧ Forall (λ entry, entry.2 ≠ []) s)
           _ tasks) with (pre := []) in Hrun; [done| |by split_and!; constructor].
  clear. intros pre task s w s1 (Hp & Hn & He) Hrun.
  rewrite bind_app, bind_singleton. cbv zeta in Hrun.
  unfold task_assignments at 2. cbv zeta.
  destruct (dict_get (task_assignees task) []) as [[|assignee assignees]|].
  - injection Hrun as <-. simpl. by rewrite app_nil_r.
  - set (step := dict_get (task_step_short_name task) "Unknown Step") in *.
    set (f := λ a : Assignee,
           match find_one_HumanUser sg (PyInt (assignee_id a)) with
           | Some user => Some (step, dict_get_none (user_email user))
           | None => None
           end).
    apply (for_fold_invariant
             (λ done s', pairs s' ≡ₚ (pre ≫= task_assignments sg) ++ omap f done
                         ∧ NoDup s'.*1 ∧ Forall (λ entry, entry.2 ≠ []) s')
             _ (assignee :: assignees)) with (pre := []) in Hrun.
    + done.
    + clear. intros done x s w s1 (Hp & Hn & He) Hrun.
      erewrite bind_run in Hrun by apply sg_find_one_run.
      rewrite omap_app. simpl. subst f. simpl.
      destruct (find_one_HumanUser sg (PyInt (assignee_id x))) as [[[| |email]]|];
        simpl in Hrun |- *; try done.
      * injection Hrun as <-.
        destruct (dict_append_spec s step None Hn He) as (Hp' & Hn' & He' & _).
        split_and!; [|done|done]. by rewrite Hp', Hp, app_assoc.
      * injection Hrun as <-.
        destruct (dict_append_spec s step (Some email) Hn He) as (Hp' & Hn' & He' & _).
        split_and!; [|done|done]. by rewrite Hp', Hp, app_assoc.
      * injection Hrun as <-. by rewrite !app_nil_r.
    + simpl. by rewrite app_nil_r.
  - injection Hrun as <-. simpl. by rewrite app_nil_r.
Qed.

(** X7: when the Shot resolver returns a step dict, its entries are
    exactly the assignments of the shot's tasks — one (step, email)
    entry per assignee whose user record exists, the step defaulting to
    ["Unknown Step"] — its steps are distinct and none has an empty
    list of emails. *)
Theorem get_assigned_users_from_tasks_entries sg shot_id w d shot_name sequence_name
    project_name :
  (get_assigned_users_from_tasks sg shot_id w).1
  = Ok (Some d, shot_name, sequence_name, project_name) →
  pairs d ≡ₚ find_Task sg "Shot" shot_id ≫= task_assignments sg
  ∧ NoDup d.*1
  ∧ Forall (λ entry, entry.2 ≠ []) d
  ∧ ∃ shot, find_one_Shot sg shot_id = Some shot
            ∧ shot_name = dict_get (shot_code shot) "Unknown Shot"
            ∧ sequence_name = dict_get (shot_sequence_code shot) "Unknown Sequence"
            ∧ project_name = dict_get (shot_project_name shot) "Unknown Project".
Proof.
  unfold get_assigned_users_from_tasks. intros Hrun.
  erewrite bind_run in Hrun by apply sg_find_one_run.
  destruct (find_one_Shot sg shot_id) as [shot|]; [|done].
  cbv zeta in Hrun. unfold sg_find_Task in Hrun.
  erewrite bind_run in Hrun by reflexivity.
  unfold bind in Hrun.
  match type of Hrun with
  | context [collect_assigned_users sg ?tasks ?w1] =>
      pose proof (collect_assigned_users_entries sg tasks w1) as Hentries;
      destruct (collect_assigned_users sg tasks w1) as [[d'|e] w2]; [|done]
  end.
  injection Hrun as <- <- <- <-.
  destruct (Hentries d' eq_refl) as (Hp & Hn & He).
  split_and!; [done..|]. by exists shot.
Qed.

Lemma get_assigned_users_from_tasks_entries_witness :
  pairs [(Some "anim", [Some "a@x"]); (Some "comp", [Some "a@x"; Some "b@x"; Some "c@x"])]
  ≡ₚ find_Task demo_sg "Shot" (PyInt 10) ≫= task_assignments demo_sg.
Proof.
  apply (get_assigned_users_from_tasks_entries demo_sg (PyInt 10) demo_world _
           (Some "SH020") (Some "SQ010") (Some "Atlas")).
  reflexivity.
Defined.

(** ** Shot events that notify nobody *)

Lemma dispatch_shot sg slack event_data :
  entity_type (meta event_data) = Some "Shot" →
  dispatch sg slack event_data = handle_shot_event sg slack event_data.
Proof. intros Het. unfold dispatch. cbv zeta. by rewrite Het. Qed.

(** X8: a Shot event for a shot the tracking source does not have is
    answered ["No assigned users found", 404]; the shot is queried once,
    its tasks are not, an error and a warning are logged, and Slack is
    not reached. *)
Theorem shot_event_unknown_shot sg slack event_data w :
  entity_type (meta event_data) = Some "Shot" →
  find_one_Shot sg (entity_id (meta event_data)) = None →
  webhook sg slack (Json event_data) w
  = (Ok ("No assigned users found", 404),
     emit w [EvQuery (FindOne "Shot" (entity_id (meta event_data)));
             EvLog ERROR ("Could not retrieve shot details for Shot ID: "
                          +:+ fmt_val (entity_id (meta event_data)));
             EvLog WARNING ("No assigned users found for Shot ID: "
                            +:+ fmt_val (entity_id (meta event_data)))]).
Proof.
  intros Het Hshot. apply webhook_ok. rewrite dispatch_shot by done.
  unfold handle_shot_event. cbv zeta.
  unfold get_assigned_users_from_tasks.
  erewrite bind_run; cycle 1.
  { erewrite bind_run by apply sg_find_one_run. rewrite Hshot.
    erewrite bind_run by apply logging_run. reflexivity. }
  cbv beta iota.
  erewrite bind_run by apply logging_run.
  unfold ret. by rewrite !emit_emit.
Qed.

Lemma shot_event_unknown_shot_witness :
  (webhook demo_sg demo_slack (Json (demo_shot_event 99 "ip" "fin")) demo_world).1
  = Ok ("No assigned users found", 404).
Proof.
  by rewrite (shot_event_unknown_shot demo_sg demo_slack (demo_shot_event 99 "ip" "fin")
                demo_world eq_refl eq_refl).
Defined.

Lemma collect_assigned_users_unassigned sg tasks w :
  Forall (λ task, truthy_list (dict_get (task_assignees task) []) = false) tasks →
  collect_assigned_users sg tasks w = (Ok [], w).
Proof.
  unfold collect_assigned_users. generalize (@nil (pystr * list pystr)).
  induction 1 as [|task tasks Htask _ IH]; [done|].
  cbn [for_fold]. erewrite bind_run; [apply IH|].
  cbv zeta. by destruct (dict_get (task_assignees task) []) as [[|??]|].
Qed.

(** X9: a Shot event for a shot none of whose tasks has an assignee
    (the shot has no task, or [task_assignees] is missing, null or empty
    on each) is answered ["No assigned users found", 404]: the shot and
    its tasks are queried, no user is, and Slack is not reached. *)
Theorem shot_event_unassigned_shot sg slack event_data w shot :
  entity_type (meta event_data) = Some "Shot" →
  find_one_Shot sg (entity_id (meta event_data)) = Some shot →
  Forall (λ task, truthy_list (dict_get (task_assignees task) []) = false)
    (find_Task sg "Shot" (entity_id (meta event_data))) →
  webhook sg slack (Json event_data) w
  = (Ok ("No assigned users found", 404),
     emit w [EvQuery (FindOne "Shot" (entity_id (meta event_data)));
             EvQuery (Find "Task" "Shot" (entity_id (meta event_data)));
             EvLog WARNING ("No assigned users found for Shot ID: "
                            +:+ fmt_val (entity_id (meta event_data)))]).
Proof.
  intros Het Hshot Htasks. apply webhook_ok. rewrite dispatch_shot by done.
  unfold handle_shot_event. cbv zeta.
  unfold get_assigned_users_from_tasks.
  erewrite bind_run; cycle 1.
  { erewrite bind_run by apply sg_find_one_run. rewrite Hshot. cbv zeta.
    unfold sg_find_Task. erewrite bind_run by reflexivity.
    erewrite bind_run by (by apply collect_assigned_users_unassigned).
    reflexivity. }
  cbv beta iota.
  erewrite bind_run by apply logging_run.
  unfold ret. by rewrite !emit_emit.
Qed.

Lemma shot_event_unassigned_shot_witness :
  (webhook studio_sg demo_slack (Json (demo_shot_event 10 "ip" "fin")) demo_world).1
  = Ok ("success", 200)
  ∧ (webhook
       {| find_one_HumanUser := studio_user; find_one_Shot := studio_shot;
          find_one_Asset := studio_asset; find_one_Version := studio_version;
          find_one_Task := studio_task; find_one_Note := studio_note;
          find_one_Attachment := studio_attachment; find_one_Reply := λ _, None;
          find_Task := λ _ _, [demo_task_of "anim" []] |}
       demo_slack (Json (demo_shot_event 10 "ip" "fin")) demo_world).1
    = Ok ("No assigned users found", 404).
Proof.
  split; [reflexivity|].
  erewrite (shot_event_unassigned_shot _ demo_slack (demo_shot_event 10 "ip" "fin")
              demo_world); [reflexivity|reflexivity|reflexivity|].
  by repeat constructor.
Defined.

(** ** A user record without an [email] key *)

Lemma for_fold_raises {A S} (body : A → S → M S) (culprit : A) xs :
  culprit ∈ xs →
  (∀ s w, ∃ e, (body culprit s w).1 = Raise e) →
  ∀ s w, ∃ e, (for_fold xs s body w).1 = Raise e.
Proof.
  intros Hin Hculprit. induction xs as [|x xs IH]; intros s w.
  - by apply elem_of_nil in Hin.
  - cbn [for_fold]. unfold bind.
    destruct (body x s w) as [[s1|e] w1] eqn:Hx; [|by exists e].
    apply elem_of_cons in Hin as [<-|Hin].
    + destruct (Hculprit s w) as [e He]. by rewrite Hx in He.
    + by apply IH.
Qed.

Lemma collect_assigned_users_raises sg tasks task assignees assignee :
  task ∈ tasks →
  task_assignees task = Has assignees →
  assignee ∈ assignees →
  find_one_HumanUser sg (PyInt (assignee_id assignee)) = Some {| user_email := Missing |} →
  ∀ w, ∃ e, (collect_assigned_users sg tasks w).1 = Raise e.
Proof.
  intros Htask Hassignees Hassignee Huser w.
  unfold collect_assigned_users.
  apply (for_fold_raises _ task); [done|]. clear w.
  intros s w. cbv zeta. rewrite Hassignees. simpl.
  destruct assignees as [|a assignees]; [by apply elem_of_nil in Hassignee|].
  apply (for_fold_raises _ assignee); [done|]. clear -Huser.
  intros s w. erewrite bind_run by apply sg_find_one_run.
  rewrite Huser. by eexists.
Qed.

(** X10: one user record without an [email] key among the assignees of
    a shot's tasks makes the whole Shot event fail: the answer is
    ["Error processing data", 500] and nobody is notified, not even the
    assignees that come before that user. *)
Theorem shot_event_user_without_email sg slack event_data w shot task assignees assignee :
  entity_type (meta event_data) = Some "Shot" →
  find_one_Shot sg (entity_id (meta event_data)) = Some shot →
  task ∈ find_Task sg "Shot" (entity_id (meta event_data)) →
  task_assignees task = Has assignees →
  assignee ∈ assignees →
  find_one_HumanUser sg (PyInt (assignee_id assignee)) = Some {| user_email := Missing |} →
  (webhook sg slack (Json event_data) w).1 = Ok ("Error processing data", 500)
  ∧ lookups_of (trace (webhook sg slack (Json event_data) w).2) = lookups_of (trace w)
  ∧ posts_of (trace (webhook sg slack (Json event_data) w).2) = posts_of (trace w).
Proof.
  intros Het Hshot Htask Hassignees Hassignee Huser.
  destruct (get_assigned_users_from_tasks_quiet sg (entity_id (meta event_data)) w)
    as (evs & Hquiet & Hrun).
  assert (∃ e, (get_assigned_users_from_tasks sg (entity_id (meta event_data)) w).1
               = Raise e) as [e He].
  { unfold get_assigned_users_from_tasks.
    erewrite bind_run by apply sg_find_one_run. rewrite Hshot. cbv zeta.
    unfold sg_find_Task. erewrite bind_run by reflexivity.
    unfold bind.
    match goal with
    | |- context [collect_assigned_users sg ?tasks ?w1] =>
        destruct (collect_assigned_users_raises sg tasks task assignees assignee
                    Htask Hassignees Hassignee Huser w1) as [e He];
        destruct (collect_assigned_users sg tasks w1) as [[d|e'] w2]; [done|]
    end.
    by eexists. }
  rewrite He in Hrun.
  erewrite webhook_reports_exception; cycle 1.
  { rewrite dispatch_shot by done. unfold handle_shot_event. cbv zeta.
    unfold bind. by rewrite Hrun. }
  simpl.
  rewrite !lookups_of_app, !posts_of_app, (quiet_lookups evs), (quiet_posts evs) by done.
  simpl. by rewrite !app_nil_r.
Qed.

Lemma shot_event_user_without_email_witness :
  (webhook studio_sg demo_slack (Json (demo_shot_event 11 "ip" "fin")) demo_world).1
  = Ok ("Error processing data", 500)
  ∧ posts_of (trace (webhook studio_sg demo_slack (Json (demo_shot_event 11 "ip" "fin"))
                       demo_world).2) = [].
Proof.
  pose proof (shot_event_user_without_email studio_sg demo_slack
                (demo_shot_event 11 "ip" "fin") demo_world
                {| shot_code := Has "SH020"; shot_project_name := Has "Atlas";
                   shot_sequence_code := Has "SQ010" |}
                (demo_task_of "comp" [4; 1]) (Build_Assignee <$> [4; 1])
                {| assignee_id := 4 |} eq_refl eq_refl) as H.
  destruct H as (Hr & _ & Hp).
  - apply list_elem_of_further, list_elem_of_here.
  - reflexivity.
  - apply list_elem_of_here.
  - reflexivity.
  - split; [exact Hr|exact Hp].
Defined.

(** ** Task events *)

Lemma dispatch_task sg slack event_data :
  entity_type (meta event_data) = Some "Task" →
  event_type event_data = Some "Shotgun_Task_Change" →
  operation event_data = Some "update" →
  dispatch sg slack event_data = handle_task_assignment_event sg slack event_data.
Proof. intros Het Hev Hop. unfold dispatch. cbv zeta. by rewrite Het, Hev, Hop. Qed.

Lemma dispatch_note sg slack event_data :
  entity_type (meta event_data) = Some "Note" →
  event_type event_data = Some "Shotgun_Note_New" →
  operation event_data = Some "create" →
  dispatch sg slack event_data = handle_note_event sg slack event_data.
Proof. intros Het Hev Hop. unfold dispatch. cbv zeta. by rewrite Het, Hev, Hop. Qed.

(** X11: a Task update on any attribute other than [task_assignees]
    (or without attribute name) is a no-op answered
    ["Not a task assignment event", 200]: one line is logged, the
    tracking source is not queried and Slack is not reached. *)
Theorem task_event_other_attribute sg slack event_data w :
  entity_type (meta event_data) = Some "Task" →
  event_type event_data = Some "Shotgun_Task_Change" →
  operation event_data = Some "update" →
  attribute_name (meta event_data) ≠ Some "task_assignees" →
  webhook sg slack (Json event_data) w
  = (Ok ("Not a task assignment event", 200),
     emit w [EvLog INFO ("Change in Task ID " +:+ fmt_val (entity_id (meta event_data))
                         +:+ " is not related to task assignments.")]).
Proof.
  intros Het Hev Hop Hattr. apply webhook_ok. rewrite dispatch_task by done.
  unfold handle_task_assignment_event. cbv zeta.
  rewrite bool_decide_true by done.
  by erewrite bind_run by apply logging_run.
Qed.

Lemma task_event_other_attribute_witness :
  (webhook demo_sg demo_slack
     (Json (demo_event "Task" 5 "Shotgun_Task_Change" "update" (Some "sg_status_list")
              (Some "ip") (Some "fin") Missing Missing)) demo_world).1
  = Ok ("Not a task assignment event", 200).
Proof.
  rewrite (task_event_other_attribute demo_sg demo_slack
             (demo_event "Task" 5 "Shotgun_Task_Change" "update" (Some "sg_status_list")
                (Some "ip") (Some "fin") Missing Missing) demo_world
             eq_refl eq_refl eq_refl); [reflexivity|discriminate].
Defined.

(** X12: an event on a task, note or reply that the tracking source
    does not have is answered 404 with the message of its kind, after a
    single query and an error line in the log; Slack is not reached —
    for a reply, not even to look up the author. *)
Theorem event_on_unknown_record sg slack event_data w :
  (entity_type (meta event_data) = Some "Task" →
   event_type event_data = Some "Shotgun_Task_Change" →
   operation event_data = Some "update" →
   attribute_name (meta event_data) = Some "task_assignees" →
   find_one_Task sg (entity_id (meta event_data)) = None →
   webhook sg slack (Json event_data) w
   = (Ok ("Task details not found", 404),
      emit w [EvQuery (FindOne "Task" (entity_id (meta event_data)));
              EvLog ERROR ("Could not retrieve details for Task ID: "
                           +:+ fmt_val (entity_id (meta event_data)))]))
  ∧ (entity_type (meta event_data) = Some "Note" →
     event_type event_data = Some "Shotgun_Note_New" →
     operation event_data = Some "create" →
     find_one_Note sg (entity_id (meta event_data)) = None →
     webhook sg slack (Json event_data) w
     = (Ok ("Note details not found", 404),
        emit w [EvLog INFO ("New note created with ID: "
                            +:+ fmt_val (entity_id (meta event_data)));
                EvQuery (FindOne "Note" (entity_id (meta event_data)));
                EvLog ERROR ("Could not retrieve details for Note ID: "
                             +:+ fmt_val (entity_id (meta event_data)))]))
  ∧ (entity_type (meta event_data) = Some "Reply" →
     event_type event_data = Some "Shotgun_Reply_New" →
     operation event_data = Some "create" →
     find_one_Reply sg (entity_id (meta event_data)) = None →
     webhook sg slack (Json event_data) w
     = (Ok ("Reply details not found", 404),
        emit w [EvLog INFO ("New reply created with ID: "
                            +:+ fmt_val (entity_id (meta event_data)));
                EvQuery (FindOne "Reply" (entity_id (meta event_data)));
                EvLog ERROR ("Could not retrieve details for Reply ID: "
                             +:+ fmt_val (entity_id (meta event_data)))])).
Proof.
  split_and!.
  - intros Het Hev Hop Hattr Hnone. apply webhook_ok. rewrite dispatch_task by done.
    unfold handle_task_assignment_event. cbv zeta.
    rewrite Hattr, bool_decide_false by (intros H; by apply H).
    erewrite bind_run by apply sg_find_one_run. rewrite Hnone.
    erewrite bind_run by apply logging_run.
    unfold ret. by rewrite !emit_emit.
  - intros Het Hev Hop Hnone. apply webhook_ok. rewrite dispatch_note by done.
    unfold handle_note_event. cbv zeta.
    erewrite bind_run by apply logging_run.
    erewrite bind_run by apply sg_find_one_run. rewrite Hnone.
    erewrite bind_run by apply logging_run.
    unfold ret. by rewrite !emit_emit.
  - intros Het Hev Hop Hnone. apply webhook_ok. rewrite dispatch_reply by done.
    unfold handle_reply_event. cbv zeta.
    erewrite bind_run by apply logging_run.
    erewrite bind_run by apply sg_find_one_run. rewrite Hnone.
    erewrite bind_run by apply logging_run.
    unfold ret. by rewrite !emit_emit.
Qed.

Lemma event_on_unknown_record_witness :
  (webhook demo_sg demo_slack (Json (demo_task_event 77)) demo_world).1
  = Ok ("Task details not found", 404)
  ∧ (webhook demo_sg demo_slack (Json (demo_note_event 77)) demo_world).1
    = Ok ("Note details not found", 404)
  ∧ (webhook demo_sg demo_slack (Json (demo_reply_event 77)) demo_world).1
    = Ok ("Reply details not found", 404).
Proof.
  split_and!.
  - by rewrite (proj1 (event_on_unknown_record demo_sg demo_slack (demo_task_event 77)
                         demo_world) eq_refl eq_refl eq_refl eq_refl eq_refl).
  - by rewrite (proj1 (proj2 (event_on_unknown_record demo_sg demo_slack
                                (demo_note_event 77) demo_world))
                  eq_refl eq_refl eq_refl eq_refl).
  - by rewrite (proj2 (proj2 (event_on_unknown_record demo_sg demo_slack
                                (demo_reply_event 77) demo_world))
                  eq_refl eq_refl eq_refl eq_refl).
Defined.

(** X13: a task-assignment event whose task is linked to a shot that
    the tracking source does not have fails with
    ["Error processing data", 500] — the handler reads the fields of the
    missing shot record — and reaches Slack for nobody. *)
Theorem task_event_unknown_shot sg slack event_data w task link :
  entity_type (meta event_data) = Some "Task" →
  event_type event_data = Some "Shotgun_Task_Change" →
  operation event_data = Some "update" →
  attribute_name (meta event_data) = Some "task_assignees" →
  find_one_Task sg (entity_id (meta event_data)) = Some task →
  task_entity task = Has link →
  link_type link = "Shot" →
  find_one_Shot sg (PyInt (link_id link)) = None →
  webhook sg slack (Json event_data) w
  = (Ok ("Error processing data", 500),
     emit w [EvQuery (FindOne "Task" (entity_id (meta event_data)));
             EvQuery (FindOne "Shot" (PyInt (link_id link)));
             EvLog ERROR ("Error processing the request: "
                          +:+ "'NoneType' object has no attribute 'get'")]).
Proof.
  intros Het Hev Hop Hattr Htask Hentity Htype Hshot.
  erewrite webhook_reports_exception; cycle 1.
  { rewrite dispatch_task by done.
    unfold handle_task_assignment_event. cbv zeta.
    rewrite Hattr, bool_decide_false by (intros H; by apply H).
    erewrite bind_run by apply sg_find_one_run. rewrite Htask, Hentity.
    cbn [dict_get_none]. rewrite bool_decide_true by done.
    erewrite bind_run by apply sg_find_one_run. rewrite Hshot.
    reflexivity. }
  by rewrite !emit_emit.
Qed.

Lemma task_event_unknown_shot_witness :
  (webhook studio_sg demo_slack (Json (demo_task_event 9)) demo_world).1
  = Ok ("Error processing data", 500).
Proof.
  by rewrite (task_event_unknown_shot studio_sg demo_slack (demo_task_event 9) demo_world
                _ _ eq_refl eq_refl eq_refl eq_refl eq_refl eq_refl eq_refl eq_refl).
Defined.

Lemma notify_assignee_run sg slack project_name sequence_name shot_name step_name what
    assignee w :
  notify_assignee sg slack project_name sequence_name shot_name step_name what assignee w
  = (Ok tt, emit w (notify_events sg slack project_name sequence_name shot_name step_name
                      what assignee)).
Proof.
  unfold notify_assignee, notify_events, assignee_email.
  erewrite bind_run by apply get_shotgrid_user_email_run.
  destruct (find_one_HumanUser sg (PyInt (assignee_id assignee))) as [[[| |email]]|];
    cbn [truthy]; try done.
  destruct (bool_decide (email ≠ "")); [|done].
  erewrite bind_run by apply find_slack_user_by_email_run.
  destruct (truthy (chat_id_of slack (Some email))).
  - rewrite send_slack_message_run. by rewrite !emit_emit.
  - rewrite logging_run. by rewrite !emit_emit.
Qed.

Lemma posts_of_notify_one sg slack project_name sequence_name shot_name step_name what
    assignee :
  posts_of (notify_events sg slack project_name sequence_name shot_name step_name what
              assignee)
  = match notify_post sg slack project_name sequence_name shot_name step_name what
            assignee with
    | Some post => [post]
    | None => []
    end.
Proof.
  unfold notify_events, notify_post.
  change (posts_of (EvQuery ?q :: ?l)) with (posts_of l). cbv zeta.
  destruct (truthy (assignee_email sg assignee)); [|done].
  rewrite posts_of_app, posts_of_lookup_events. cbn [andb app].
  destruct (truthy (chat_id_of slack (assignee_email sg assignee))); [|done].
  apply posts_of_send_events.
Qed.

Lemma posts_of_notify_events sg slack project_name sequence_name shot_name step_name what
    assignees :
  posts_of (assignees ≫= notify_events sg slack project_name sequence_name shot_name
                           step_name what)
  = omap (notify_post sg slack project_name sequence_name shot_name step_name what)
      assignees.
Proof.
  induction assignees as [|assignee assignees IH]; [done|].
  rewrite bind_cons, posts_of_app, IH, posts_of_notify_one. simpl.
  by destruct (notify_post _ _ _ _ _ _ _ assignee).
Qed.

(** X14: a task-assignment event on a task of an existing shot answers
    ["success", 200] and posts, in this order, one
    ["You have been assigned to a task."] to every added assignee and
    one ["You have been removed from a task."] to every removed
    assignee, skipping those without a truthy email or without a chat
    identity. Each body carries the Context prefix made of the shot's
    project and sequence, the name in the task's link and the task's
    step. *)
Theorem task_event_notifies_added_and_removed sg slack event_data w task link shot
    added_assignees removed_assignees :
  entity_type (meta event_data) = Some "Task" →
  event_type event_data = Some "Shotgun_Task_Change" →
  operation event_data = Some "update" →
  attribute_name (meta event_data) = Some "task_assignees" →
  dict_get (added (meta event_data)) [] = Some added_assignees →
  dict_get (removed (meta event_data)) [] = Some removed_assignees →
  find_one_Task sg (entity_id (meta event_data)) = Some task →
  task_entity task = Has link →
  link_type link = "Shot" →
  find_one_Shot sg (PyInt (link_id link)) = Some shot →
  let project_name := dict_get (shot_project_name shot) "Unknown Project" in
  let sequence_name := dict_get (shot_sequence_code shot) "Unknown Sequence" in
  let step_name := dict_get (task_step_short_name task) "Unknown Step" in
  (webhook sg slack (Json event_data) w).1 = Ok ("success", 200)
  ∧ posts_of (trace (webhook sg slack (Json event_data) w).2)
    = posts_of (trace w)
      ++ omap (notify_post sg slack project_name sequence_name (link_name link) step_name
                 "You have been assigned to a task.") added_assignees
      ++ omap (notify_post sg slack project_name sequence_name (link_name link) step_name
                 "You have been removed from a task.") removed_assignees.
Proof.
  intros Het Hev Hop Hattr Hadded Hremoved Htask Hentity Htype Hshot
    project_name sequence_name step_name.
  erewrite webhook_ok; cycle 1.
  { rewrite dispatch_task by done.
    unfold handle_task_assignment_event. cbv zeta.
    rewrite Hattr, bool_decide_false by (intros H; by apply H).
    rewrite Hadded, Hremoved.
    erewrite bind_run by apply sg_find_one_run. rewrite Htask, Hentity.
    cbn [dict_get_none]. rewrite bool_decide_true by done.
    erewrite bind_run by apply sg_find_one_run. rewrite Hshot.
    unfold for_each_iter.
    erewrite bind_run by (apply for_each_run; intros; apply notify_assignee_run).
    erewrite bind_run by (apply for_each_run; intros; apply notify_assignee_run).
    unfold ret. rewrite !emit_emit. reflexivity. }
  cbn [fst snd]. split; [done|].
  rewrite trace_emit, !posts_of_app, !posts_of_notify_events.
  done.
Qed.

Lemma task_event_notifies_added_and_removed_witness :
  posts_of (trace (webhook studio_sg demo_slack (Json (studio_task_event 5 [4] [1; 8]))
                     demo_world).2)
  = [("U1", "In Atlas|SQ010|SH020|anim" +:+ nl +:+ "You have been removed from a task.")].
Proof.
  pose proof (task_event_notifies_added_and_removed studio_sg demo_slack
                (studio_task_event 5 [4] [1; 8]) demo_world _ _ _ _ _
                eq_refl eq_refl eq_refl eq_refl eq_refl eq_refl eq_refl eq_refl eq_refl
                eq_refl) as [_ Hposts].
  rewrite Hposts. reflexivity.
Defined.

(** ** How the fan-out composes *)

Lemma pairs_app (d1 d2 : step_dict) : pairs (d1 ++ d2) = pairs d1 ++ pairs d2.
Proof. unfold pairs. apply bind_app. Qed.

(** X15: the fan-out is the same whether it is called once on the whole
    step dict or, as the status and note handlers do, once per step on
    the one-entry dict [{step: users}]; and a call on two dicts laid end
    to end is a call on the first followed by a call on the second. *)
Theorem fanout_composes slack d1 d2 shot_name sequence_name project_name msg w :
  for_each d1 (λ '(step, users),
    send_message_to_assigned_users slack [(step, users)] shot_name sequence_name
      project_name msg) w
  = send_message_to_assigned_users slack d1 shot_name sequence_name project_name msg w
  ∧ send_message_to_assigned_users slack (d1 ++ d2) shot_name sequence_name project_name
      msg w
    = (send_message_to_assigned_users slack d1 shot_name sequence_name project_name msg;;
       send_message_to_assigned_users slack d2 shot_name sequence_name project_name msg) w.
Proof.
  split.
  - by rewrite per_step_fanout_run, send_message_to_assigned_users_run.
  - erewrite (bind_run (send_message_to_assigned_users slack d1 _ _ _ _))
      by apply send_message_to_assigned_users_run.
    rewrite !send_message_to_assigned_users_run, emit_emit.
    unfold fanout_events. by rewrite pairs_app, bind_app.
Qed.

(** ** The two status tables *)

(** X16: the label a Shot event shows for a status code differs from
    the label of the table written for shots on exactly six codes:
    ["pla"], ["extrev"] and ["rfd"], which are shown raw, and ["ia"],
    ["nupt"] and ["lib"], which are shown with their asset label. On
    every other code, known or unknown, the two tables agree. *)
Theorem status_tables_differ_on_six_codes code :
  status_get STATUS_DESCRIPTIONS (Some code) ≠ status_get SHOT_STATUS_DESCRIPTIONS (Some code)
  ↔ code ∈ ["pla"; "extrev"; "rfd"; "ia"; "nupt"; "lib"].
Proof.
  rewrite STATUS_DESCRIPTIONS_is_second_binding.
  assert (∀ keys : list string,
            code ∈ keys
            ∨ Forall (λ key, code ≠ key) keys) as Hcases.
  { intros keys. induction keys as [|key keys IH]; [by right|].
    destruct (decide (code = key)) as [->|Hne]; [left; apply list_elem_of_here|].
    destruct IH as [Hin|Hall]; [left; by apply list_elem_of_further|right; by constructor]. }
  destruct (Hcases ["wtg"; "rdy"; "ip"; "qc"; "hld"; "omt"; "pla"; "extrev"; "prop"; "rfd";
                    "fin"; "rev"; "rc"; "ia"; "nupt"; "lib"]) as [Hin|Hall].
  - repeat (apply elem_of_cons in Hin as [->|Hin];
            [apply (bool_decide_unpack _); by vm_compute|]).
    by apply elem_of_nil in Hin.
  - assert (ASSET_STATUS_DESCRIPTIONS !! code = None
            ∧ SHOT_STATUS_DESCRIPTIONS !! code = None) as [Ha Hs].
    { unfold ASSET_STATUS_DESCRIPTIONS, SHOT_STATUS_DESCRIPTIONS.
      split; apply not_elem_of_list_to_map_1; cbn [fmap list_fmap fst];
        rewrite !not_elem_of_cons; split_and!; try apply not_elem_of_nil;
        intros ->; repeat (apply Forall_cons in Hall as [? Hall]; try done). }
    unfold status_get. rewrite Ha, Hs. split; [done|].
    intros Hin. exfalso.
    repeat (apply elem_of_cons in Hin as [->|Hin];
            [repeat (apply Forall_cons in Hall as [? Hall]; try done)|]).
    by apply elem_of_nil in Hin.
Qed.

(** ** Versions linked to a shot *)

(** X17: for a version with a linked shot, the resolver asks the Shot
    resolver for the shot whose id is the version's shot *code*, and the
    project name it returns is the one of that resolution, not the
    version's: the dict is the shot's when it is non-empty and [{}]
    otherwise, the name is the version's, and when no shot has that
    code as its id the project name is [None]. *)
Theorem version_with_shot_code sg version_id version code w d shot_name sequence_name
    project_name :
  find_one_Version sg version_id = Some version →
  version_shot_code version = Has code →
  code ≠ "" →
  (get_assigned_users_from_tasks sg (PyStr code) w).1
  = Ok (d, shot_name, sequence_name, project_name) →
  (get_assigned_users_from_version_tasks sg version_id w).1
  = Ok (if truthy_dict d then d else Some [],
        dict_get (version_code version) "Unknown Version", project_name)
  ∧ (find_one_Shot sg (PyStr code) = None → d = None ∧ project_name = None)
  ∧ take 2 (drop (length (queries_of (trace w)))
              (queries_of (trace (get_assigned_users_from_version_tasks sg version_id w).2)))
    = [FindOne "Version" version_id; FindOne "Shot" (PyStr code)].
Proof.
  intros Hversion Hcode Hne Hresolve.
  destruct (get_assigned_users_from_tasks_quiet sg (PyStr code) w) as (evs & _ & Hrun).
  rewrite Hresolve in Hrun.
  assert (∃ evs', get_assigned_users_from_tasks sg (PyStr code) w
                  = (Ok (d, shot_name, sequence_name, project_name),
                     emit w (EvQuery (FindOne "Shot" (PyStr code)) :: evs')) ∧
                  (find_one_Shot sg (PyStr code) = None → d = None ∧ project_name = None))
    as (evs' & Hshape & Hnone).
  { revert Hresolve. unfold get_assigned_users_from_tasks.
    erewrite bind_run by apply sg_find_one_run.
    destruct (find_one_Shot sg (PyStr code)) as [shot|].
    - cbv zeta. unfold sg_find_Task. erewrite bind_run by reflexivity.
      unfold bind.
      destruct (emits_collect_assigned_users (P:=λ _, True) (λ _, I) sg
                  (find_Task sg "Shot" (PyStr code))) as (r & evc & _ & Hc).
      rewrite Hc. destruct r as [dc|e]; [|done].
      intros [= <- <- <- <-]. eexists. split; [|done].
      unfold ret. by rewrite !emit_emit.
    - erewrite bind_run by apply logging_run.
      intros [= <- <- <- <-]. eexists. split; [|done].
      unfold ret. by rewrite !emit_emit. }
  assert (∃ evs'',
            get_assigned_users_from_version_tasks sg version_id w
            = (Ok (if truthy_dict d then d else Some [],
                   dict_get (version_code version) "Unknown Version", project_name),
               emit w (EvQuery (FindOne "Version" version_id)
                       :: EvQuery (FindOne "Shot" (PyStr code)) :: evs'')))
    as (evs'' & Hfull).
  { assert (∀ w0, get_assigned_users_from_tasks sg (PyStr code) w0
                  = (Ok (d, shot_name, sequence_name, project_name),
                     emit w0 (EvQuery (FindOne "Shot" (PyStr code)) :: evs'))) as Hany.
    { intros w0. rewrite Hrun. rewrite Hrun in Hshape.
      injection Hshape as Hw.
      assert (evs = EvQuery (FindOne "Shot" (PyStr code)) :: evs') as ->; [|done].
      by apply app_inv_head in Hw. }
    unfold get_assigned_users_from_version_tasks. cbv zeta.
    erewrite bind_run by apply sg_find_one_run.
    rewrite Hversion, Hcode. cbn [dict_get_none truthy fmt default].
    rewrite bool_decide_true by done. cbn [negb].
    erewrite bind_run by apply Hany. cbv beta iota.
    destruct (truthy_dict d); cbn [negb].
    - unfold ret. rewrite !emit_emit. by eexists.
    - erewrite bind_run by apply logging_run.
      unfold ret. rewrite !emit_emit. by eexists. }
  rewrite Hfull. cbn [fst snd]. split_and!; [done|done|].
  rewrite trace_emit, queries_of_app, drop_app_length. done.
Qed.

Lemma version_with_shot_code_witness :
  (get_assigned_users_from_version_tasks studio_sg (PyInt 32) demo_world).1
  = Ok (Some [], Some "v002", None).
Proof.
  apply (version_with_shot_code studio_sg (PyInt 32)
           {| version_code := Has "v002"; version_project_name := Has "Atlas";
              version_shot_code := Has "SH020" |} "SH020" demo_world None None None None
           eq_refl eq_refl).
  - discriminate.
  - reflexivity.
Defined.

(** ** The annotated frame of a note *)

Lemma get_file_url_no_file sg attachment_id w :
  no_file_url sg attachment_id →
  ∃ url evs,
    truthy url = false
    ∧ queries_of evs = [FindOne "Attachment" (PyInt attachment_id)]
    ∧ get_file_url_from_attachment_id sg attachment_id w = (Ok url, emit w evs).
Proof.
  unfold no_file_url, get_file_url_from_attachment_id. intros Hno.
  erewrite bind_run by apply sg_find_one_run. cbv zeta.
  destruct (find_one_Attachment sg (PyInt attachment_id)) as [[[| |url]]|];
    simpl in Hno; try done; cbn [this_file].
  - exists (Some ""), [EvQuery (FindOne "Attachment" (PyInt attachment_id));
                       EvLog WARNING ("Attachment ID " +:+ pretty attachment_id
                                      +:+ " not found.")].
    split_and!; [done..|].
    erewrite bind_run by apply logging_run. unfold ret. by rewrite emit_emit.
  - by exists url, [EvQuery (FindOne "Attachment" (PyInt attachment_id))].
  - exists (Some ""), [EvQuery (FindOne "Attachment" (PyInt attachment_id));
                       EvLog WARNING ("Attachment ID " +:+ pretty attachment_id
                                      +:+ " not found.")].
    split_and!; [done..|].
    erewrite bind_run by apply logging_run. unfold ret. by rewrite emit_emit.
Qed.

Lemma first_file_url_skips sg skipped rest w :
  Forall (no_file_url sg) skipped →
  ∃ evs,
    queries_of evs = (λ id, FindOne "Attachment" (PyInt id)) <$> skipped
    ∧ first_file_url sg (skipped ++ rest) w = first_file_url sg rest (emit w evs).
Proof.
  intros Hskipped. revert w.
  induction Hskipped as [|id skipped Hid _ IH]; intros w.
  - exists []. by rewrite emit_nil.
  - destruct (get_file_url_no_file sg id w Hid) as (url & evs & Hfalsy & Hq & Hrun).
    destruct (IH (emit w evs)) as (evs' & Hq' & Hrest).
    exists (evs ++ evs'). split.
    + by rewrite queries_of_app, Hq, Hq'.
    + cbn [app first_file_url]. erewrite bind_run by apply Hrun.
      by rewrite Hfalsy, Hrest, emit_emit.
Qed.

(** X18: the annotated frame is the URL of the first attachment, in
    listed order, that has a truthy file URL, and the search stops
    there: the attachments after it are not queried. When no attachment
    has one, the result is the empty string and all were queried. *)
Theorem first_file_url_stops_at_first sg skipped attachment_id rest attachment url w :
  Forall (no_file_url sg) skipped →
  (find_one_Attachment sg (PyInt attachment_id) = Some attachment →
   this_file attachment = Has url →
   truthy url = true →
   (first_file_url sg (skipped ++ attachment_id :: rest) w).1 = Ok (fmt url)
   ∧ queries_of (trace (first_file_url sg (skipped ++ attachment_id :: rest) w).2)
     = queries_of (trace w)
       ++ ((λ id, FindOne "Attachment" (PyInt id)) <$> skipped ++ [attachment_id]))
  ∧ (first_file_url sg skipped w).1 = Ok ""
  ∧ queries_of (trace (first_file_url sg skipped w).2)
    = queries_of (trace w) ++ ((λ id, FindOne "Attachment" (PyInt id)) <$> skipped).
Proof.
  intros Hskipped. split.
  - intros Hattachment Hfile Htruthy.
    destruct (first_file_url_skips sg skipped (attachment_id :: rest) w Hskipped)
      as (evs & Hq & ->).
    cbn [first_file_url]. unfold get_file_url_from_attachment_id.
    erewrite bind_run; cycle 1.
    { erewrite bind_run by apply sg_find_one_run. rewrite Hattachment. cbv zeta.
      rewrite Hfile. reflexivity. }
    rewrite Htruthy. unfold ret. cbn [fst snd]. split; [done|].
    rewrite !trace_emit, !queries_of_app, Hq, fmap_app. simpl.
    by rewrite <- app_assoc.
  - destruct (first_file_url_skips sg skipped [] w Hskipped) as (evs & Hq & Hrun).
    rewrite app_nil_r in Hrun. rewrite Hrun. cbn [first_file_url ret fst snd].
    split; [done|]. by rewrite trace_emit, queries_of_app, Hq.
Qed.

Lemma first_file_url_stops_at_first_witness :
  (first_file_url studio_sg [1; 2; 3] demo_world).1 = Ok "https://files/2.png"
  ∧ queries_of (trace (first_file_url studio_sg [1; 2; 3] demo_world).2)
    = [FindOne "Attachment" (PyInt 1); FindOne "Attachment" (PyInt 2)].
Proof.
  refine (proj1 (first_file_url_stops_at_first studio_sg [1] 2 [3]
                   {| this_file := Has (Some "https://files/2.png") |}
                   (Some "https://files/2.png") demo_world _) eq_refl eq_refl eq_refl).
  repeat constructor.
Defined.

(** ** Assets *)

Lemma quiet_any_world {A} (m : M A) w :
  emits quiet m →
  ∃ evs, Forall quiet evs ∧ ∀ w0, m w0 = ((m w).1, emit w0 evs).
Proof.
  intros (r & evs & Hquiet & Hrun). exists evs. split; [done|].
  intros w0. by rewrite !Hrun.
Qed.

Lemma get_assigned_users_from_asset_tasks_quiet sg asset_id w :
  ∃ evs, Forall quiet evs
         ∧ ∀ w0, get_assigned_users_from_asset_tasks sg asset_id w0
                 = ((get_assigned_users_from_asset_tasks sg asset_id w).1, emit w0 evs).
Proof.
  apply quiet_any_world. apply emits_get_assigned_users_from_asset_tasks; intros; exact I.
Qed.

Lemma get_assigned_users_from_version_tasks_quiet sg version_id w :
  ∃ evs, Forall quiet evs
         ∧ ∀ w0, get_assigned_users_from_version_tasks sg version_id w0
                 = ((get_assigned_users_from_version_tasks sg version_id w).1, emit w0 evs).
Proof.
  apply quiet_any_world. apply emits_get_assigned_users_from_version_tasks; intros; exact I.
Qed.

(** X19: the Asset resolver returns [(None, None, None)] for an asset
    the tracking source does not have; when it returns a step dict, the
    entries are exactly the assignments of the asset's tasks, under
    distinct steps with non-empty lists, and the names are the asset's
    code and project, defaulting to ["Unknown Asset"] and
    ["Unknown Project"]. *)
Theorem get_assigned_users_from_asset_tasks_entries sg asset_id w :
  (find_one_Asset sg asset_id = None →
   (get_assigned_users_from_asset_tasks sg asset_id w).1 = Ok (None, None, None))
  ∧ ∀ d asset_name project_name,
      (get_assigned_users_from_asset_tasks sg asset_id w).1
      = Ok (Some d, asset_name, project_name) →
      pairs d ≡ₚ find_Task sg "Asset" asset_id ≫= task_assignments sg
      ∧ NoDup d.*1
      ∧ Forall (λ entry, entry.2 ≠ []) d
      ∧ ∃ asset, find_one_Asset sg asset_id = Some asset
                 ∧ asset_name = dict_get (asset_code asset) "Unknown Asset"
                 ∧ project_name = dict_get (asset_project_name asset) "Unknown Project".
Proof.
  unfold get_assigned_users_from_asset_tasks. split.
  - intros Hnone. erewrite bind_run by apply sg_find_one_run. by rewrite Hnone.
  - intros d asset_name project_name Hrun.
    erewrite bind_run in Hrun by apply sg_find_one_run.
    destruct (find_one_Asset sg asset_id) as [asset|]; [|done].
    cbv zeta in Hrun. unfold sg_find_Task in Hrun.
    erewrite bind_run in Hrun by reflexivity.
    unfold bind in Hrun.
    match type of Hrun with
    | context [collect_assigned_users sg ?tasks ?w1] =>
        pose proof (collect_assigned_users_entries sg tasks w1) as Hentries;
        destruct (collect_assigned_users sg tasks w1) as [[d'|e] w2]; [|done]
    end.
    injection Hrun as <- <- <-.
    destruct (Hentries d' eq_refl) as (Hp & Hn & He).
    split_and!; [done..|]. by exists asset.
Qed.

Lemma get_assigned_users_from_asset_tasks_entries_witness :
  (get_assigned_users_from_asset_tasks studio_sg (PyInt 71) demo_world).1
  = Ok (None, None, None)
  ∧ pairs [(Some "model", [Some "a@x"])]
    ≡ₚ find_Task studio_sg "Asset" (PyInt 70) ≫= task_assignments studio_sg.
Proof.
  split.
  - apply (proj1 (get_assigned_users_from_asset_tasks_entries studio_sg (PyInt 71)
                    demo_world) eq_refl).
  - apply (proj2 (get_assigned_users_from_asset_tasks_entries studio_sg (PyInt 70)
                    demo_world) _ (Some "chair") (Some "Atlas") eq_refl).
Defined.

(** X20: [handle_asset_event], which [webhook] never calls, behaves
    like the Shot handler on the asset's step dict: it answers
    ["success", 200] and posts one message per entry with a chat
    identity, with sequence ["N/A"] in the Context prefix and the status
    labels of the table written for assets. *)
Theorem asset_event_notifies_each_assignment sg slack event_data w d asset_name
    project_name :
  (get_assigned_users_from_asset_tasks sg (entity_id (meta event_data)) w).1
  = Ok (Some d, asset_name, project_name) →
  d ≠ [] →
  (handle_asset_event sg slack event_data w).1 = Ok ("success", 200)
  ∧ posts_of (trace (handle_asset_event sg slack event_data w).2)
    = posts_of (trace w)
      ++ resolved_posts slack project_name (Some "N/A") asset_name
           ("An asset's status has been changed from '"
            +:+ fmt (status_get ASSET_STATUS_DESCRIPTIONS (old_value (meta event_data)))
            +:+ "' to '"
            +:+ fmt (status_get ASSET_STATUS_DESCRIPTIONS (new_value (meta event_data)))
            +:+ "'.") d.
Proof.
  intros Hresolve Hd.
  destruct (get_assigned_users_from_asset_tasks_quiet sg (entity_id (meta event_data)) w)
    as (evs & Hquiet & Hrun).
  rewrite Hresolve in Hrun.
  unfold handle_asset_event. cbv zeta.
  rewrite STATUS_DESCRIPTIONS_is_second_binding.
  erewrite bind_run by apply Hrun.
  destruct d as [|entry d]; [done|].
  erewrite bind_run by apply per_step_fanout_run.
  erewrite bind_run by apply logging_run.
  unfold ret. cbn [fst snd].
  rewrite !trace_emit, !posts_of_app, posts_of_fanout, (quiet_posts evs Hquiet).
  simpl. by rewrite !app_nil_r.
Qed.

Lemma asset_event_notifies_each_assignment_witness :
  posts_of (trace (handle_asset_event studio_sg demo_slack
                     (demo_event "Asset" 70 "Shotgun_Asset_Change" "update"
                        (Some "sg_status_list") (Some "ia") (Some "lib") Missing Missing)
                     demo_world).2)
  = [("U1", "In Atlas|N/A|chair|model" +:+ nl
            +:+ "An asset's status has been changed from 'Internally Approved' to 'Library'.")].
Proof.
  pose proof (asset_event_notifies_each_assignment studio_sg demo_slack
                (demo_event "Asset" 70 "Shotgun_Asset_Change" "update"
                   (Some "sg_status_list") (Some "ia") (Some "lib") Missing Missing)
                demo_world [(Some "model", [Some "a@x"])] (Some "chair") (Some "Atlas")
                eq_refl) as H.
  destruct H as [_ Hposts]; [discriminate|].
  rewrite Hposts. reflexivity.
Defined.

(** ** Note events *)

Lemma bind_assoc {A B C} (m : M A) (f : A → M B) (g : B → M C) w :
  bind (bind m f) g w = bind m (λ a, bind (f a) g) w.
Proof. unfold bind. by destruct (m w) as [[a|e] w1]. Qed.

Lemma annotated_frame_quiet sg note_id w :
  ∃ evs, Forall quiet evs
         ∧ ∀ w0, (let* attachment_ids := get_attachments_ids_from_note_id sg note_id in
                  first_file_url sg attachment_ids) w0
                 = (((let* attachment_ids := get_attachments_ids_from_note_id sg note_id in
                      first_file_url sg attachment_ids) w).1, emit w0 evs).
Proof.
  apply quiet_any_world. apply emits_bind.
  - apply emits_get_attachments_ids_from_note_id; intros; exact I.
  - intros ids. apply emits_first_file_url; intros; exact I.
Qed.

(** X21: a note without linked entity ([note_links] missing, null or
    empty) is answered ["No linked entities found", 404] right after the
    note has been read: its attachments are not looked up and Slack is
    not reached. *)
Theorem note_event_without_links sg slack event_data w note :
  entity_type (meta event_data) = Some "Note" →
  event_type event_data = Some "Shotgun_Note_New" →
  operation event_data = Some "create" →
  find_one_Note sg (entity_id (meta event_data)) = Some note →
  truthy_list (dict_get (note_links note) []) = false →
  webhook sg slack (Json event_data) w
  = (Ok ("No linked entities found", 404),
     emit w [EvLog INFO ("New note created with ID: "
                         +:+ fmt_val (entity_id (meta event_data)));
             EvQuery (FindOne "Note" (entity_id (meta event_data)));
             EvLog WARNING ("No linked entities found for Note ID: "
                            +:+ fmt_val (entity_id (meta event_data)))]).
Proof.
  intros Het Hev Hop Hnote Hlinks. apply webhook_ok. rewrite dispatch_note by done.
  unfold handle_note_event. cbv zeta.
  erewrite bind_run by apply logging_run.
  erewrite bind_run by apply sg_find_one_run. rewrite Hnote.
  destruct (dict_get (note_links note) []) as [[|link rest]|]; try done;
    (erewrite bind_run by apply logging_run); unfold ret; by rewrite !emit_emit.
Qed.

Lemma note_event_without_links_witness :
  (webhook
     {| find_one_HumanUser := demo_user; find_one_Shot := demo_shot;
        find_one_Asset := λ _, None; find_one_Version := demo_version;
        find_one_Task := demo_task;
        find_one_Note := λ _,
          Some {| note_content := Has "Fix the rig"; note_links := Null;
                  note_created_by_email := Has "n@x"; note_created_by_name := Has "Nora";
                  note_attachments := Missing |};
        find_one_Attachment := λ _, None; find_one_Reply := demo_reply;
        find_Task := demo_tasks |}
     demo_slack (Json (demo_note_event 50)) demo_world).1
  = Ok ("No linked entities found", 404).
Proof.
  match goal with
  | |- (webhook ?sg _ _ _).1 = _ =>
      by rewrite (note_event_without_links sg demo_slack (demo_note_event 50) demo_world _
                    eq_refl eq_refl eq_refl eq_refl eq_refl)
  end.
Defined.

Section LinkedNote.

Variable sg : TrackingSource.
Variable slack : SlackClient.
Variable event_data : EventData.
Variable w : World.
Variable note : NoteRec.
Variable link : EntityLink.
Variable rest : list EntityLink.
Variable annotated_frame_url : string.

Hypothesis Het : entity_type (meta event_data) = Some "Note".
Hypothesis Hev : event_type event_data = Some "Shotgun_Note_New".
Hypothesis Hop : operation event_data = Some "create".
Hypothesis Hnote : find_one_Note sg (entity_id (meta event_data)) = Some note.
Hypothesis Hlinks : dict_get (note_links note) [] = Some (link :: rest).
Hypothesis Hframe :
  ((let* attachment_ids :=
      get_attachments_ids_from_note_id sg (entity_id (meta event_data)) in
    first_file_url sg attachment_ids) w).1 = Ok annotated_frame_url.

(** The handler, run up to the test of the kind of the linked entity. *)
Lemma handle_note_event_linked :
  ∃ evs, posts_of evs = [] ∧ lookups_of evs = [] ∧
    handle_note_event sg slack event_data w
    = (let linked_entity_type := link_type link in
       let linked_entity_id := PyInt (link_id link) in
       if bool_decide (linked_entity_type = "Shot") then
         let* (assigned_users_by_step, shot_name, sequence_name, project_name) :=
           get_assigned_users_from_tasks sg linked_entity_id in
         match assigned_users_by_step with
         | Some ((_ :: _) as assigned_users_by_step) =>
             for_each assigned_users_by_step (λ '(step, users),
               send_message_to_assigned_users slack [(step, users)] shot_name sequence_name
                 project_name (note_message note annotated_frame_url));;
             ret ("success", 200)
         | _ =>
             logging WARNING ("No assigned users found for linked Shot ID: "
                              +:+ fmt_val linked_entity_id);;
             ret ("No assigned users found for linked Shot", 404)
         end
       else if bool_decide (linked_entity_type = "Asset") then
         let* (assigned_users_by_step, asset_name, project_name) :=
           get_assigned_users_from_asset_tasks sg linked_entity_id in
         match assigned_users_by_step with
         | Some ((_ :: _) as assigned_users_by_step) =>
             for_each assigned_users_by_step (λ '(step, users),
               send_message_to_assigned_users slack [(step, users)] asset_name (Some "N/A")
                 project_name (note_message note annotated_frame_url));;
             ret ("success", 200)
         | _ =>
             logging WARNING ("No assigned users found for linked Asset ID: "
                              +:+ fmt_val linked_entity_id);;
             ret ("No assigned users found for linked Asset", 404)
         end
       else if bool_decide (linked_entity_type = "Version")
               || bool_decide (linked_entity_type = "Note, Shotgun_Note_Change")
               || bool_decide (linked_entity_type = "Playlist") then
         let* (assigned_users_by_step, version_name, project_name) :=
           get_assigned_users_from_version_tasks sg linked_entity_id in
         match assigned_users_by_step with
         | Some ((_ :: _) as assigned_users_by_step) =>
             for_each assigned_users_by_step (λ '(step, users),
               send_message_to_assigned_users slack [(step, users)] version_name (Some "N/A")
                 project_name (note_message note annotated_frame_url));;
             ret ("success", 200)
         | _ =>
             logging WARNING ("No assigned users found for linked Version ID: "
                              +:+ fmt_val linked_entity_id);;
             ret ("No assigned users found for linked Version", 404)
         end
       else
         logging WARNING ("Unsupported linked entity type: " +:+ linked_entity_type
                          +:+ " for Note ID: " +:+ fmt_val (entity_id (meta event_data)));;
         ret ("Unsupported linked entity type", 400)) (emit w evs).
Proof.
  destruct (annotated_frame_quiet sg (entity_id (meta event_data)) w)
    as (evs & Hquiet & Hrun).
  rewrite Hframe in Hrun.
  eexists. split_and!; cycle 2.
  - unfold handle_note_event. cbv zeta.
    erewrite bind_run by apply logging_run.
    erewrite bind_run by apply sg_find_one_run. rewrite Hnote, Hlinks.
    rewrite <- bind_assoc.
    erewrite bind_run by apply Hrun.
    rewrite !emit_emit. reflexivity.
  - rewrite !posts_of_app, (quiet_posts evs Hquiet). done.
  - rewrite !lookups_of_app, (quiet_lookups evs Hquiet). done.
Qed.

End LinkedNote.

(** X22: a note whose first linked entity is of a kind the handler does
    not know (anything but Shot, Asset, Version, Playlist and the kind
    spelled ["Note, Shotgun_Note_Change"]) is answered
    ["Unsupported linked entity type", 400], after the attachments have
    been looked up; Slack is not reached. *)
Theorem note_event_unsupported_link sg slack event_data w note link rest
    annotated_frame_url :
  entity_type (meta event_data) = Some "Note" →
  event_type event_data = Some "Shotgun_Note_New" →
  operation event_data = Some "create" →
  find_one_Note sg (entity_id (meta event_data)) = Some note →
  dict_get (note_links note) [] = Some (link :: rest) →
  ((let* attachment_ids :=
      get_attachments_ids_from_note_id sg (entity_id (meta event_data)) in
    first_file_url sg attachment_ids) w).1 = Ok annotated_frame_url →
  link_type link ∉ ["Shot"; "Asset"; "Version"; "Note, Shotgun_Note_Change"; "Playlist"] →
  (webhook sg slack (Json event_data) w).1 = Ok ("Unsupported linked entity type", 400)
  ∧ lookups_of (trace (webhook sg slack (Json event_data) w).2) = lookups_of (trace w)
  ∧ posts_of (trace (webhook sg slack (Json event_data) w).2) = posts_of (trace w).
Proof.
  intros Het Hev Hop Hnote Hlinks Hframe Hkind.
  destruct (handle_note_event_linked sg slack event_data w note link rest
              annotated_frame_url Hnote Hlinks Hframe) as (evs & Hposts & Hlookups & Hrun).
  rewrite !not_elem_of_cons in Hkind. destruct Hkind as (? & ? & ? & ? & ? & _).
  erewrite webhook_ok; cycle 1.
  { rewrite dispatch_note by done. rewrite Hrun. cbv zeta.
    rewrite !bool_decide_false by done. cbn [orb].
    erewrite bind_run by apply logging_run. unfold ret. rewrite emit_emit.
    reflexivity. }
  cbn [fst snd].
  rewrite trace_emit, lookups_of_app, posts_of_app, lookups_of_app, posts_of_app,
    Hposts, Hlookups.
  simpl. by rewrite !app_nil_r.
Qed.

Lemma note_event_unsupported_link_witness :
  (webhook studio_sg demo_slack (Json (demo_note_event 61)) demo_world).1
  = Ok ("Unsupported linked entity type", 400).
Proof.
  refine (proj1 (note_event_unsupported_link studio_sg demo_slack (demo_note_event 61)
                   demo_world _ _ _ "" eq_refl eq_refl eq_refl eq_refl eq_refl eq_refl _)).
  apply (bool_decide_unpack _). by vm_compute.
Defined.

(** X23: a note on a shot, an asset or a version whose resolver returns
    a non-empty step dict is answered ["success", 200], and every entry
    with a chat identity is posted ["<author> added a note:\n<content>"],
    followed by ["\nAnnotated Frame: <url>"] when an attachment has a
    file URL, behind the Context prefix of its step; for an asset and
    for a version the sequence in the prefix is ["N/A"] and the name is
    the asset's or the version's. *)
Theorem note_event_notifies_linked_entity sg slack event_data w note link rest
    annotated_frame_url d name sequence_name project_name :
  entity_type (meta event_data) = Some "Note" →
  event_type event_data = Some "Shotgun_Note_New" →
  operation event_data = Some "create" →
  find_one_Note sg (entity_id (meta event_data)) = Some note →
  dict_get (note_links note) [] = Some (link :: rest) →
  ((let* attachment_ids :=
      get_attachments_ids_from_note_id sg (entity_id (meta event_data)) in
    first_file_url sg attachment_ids) w).1 = Ok annotated_frame_url →
  d ≠ [] →
  (link_type link = "Shot"
   ∧ (get_assigned_users_from_tasks sg (PyInt (link_id link)) w).1
     = Ok (Some d, name, sequence_name, project_name))
  ∨ (link_type link = "Asset"
     ∧ sequence_name = Some "N/A"
     ∧ (get_assigned_users_from_asset_tasks sg (PyInt (link_id link)) w).1
       = Ok (Some d, name, project_name))
  ∨ (link_type link = "Version"
     ∧ sequence_name = Some "N/A"
     ∧ (get_assigned_users_from_version_tasks sg (PyInt (link_id link)) w).1
       = Ok (Some d, name, project_name)) →
  (webhook sg slack (Json event_data) w).1 = Ok ("success", 200)
  ∧ posts_of (trace (webhook sg slack (Json event_data) w).2)
    = posts_of (trace w)
      ++ resolved_posts slack project_name sequence_name name
           (note_message note annotated_frame_url) d.
Proof.
  intros Het Hev Hop Hnote Hlinks Hframe Hd Hkind.
  destruct (handle_note_event_linked sg slack event_data w note link rest
              annotated_frame_url Hnote Hlinks Hframe) as (evs & Hposts & Hlookups & Hrun).
  destruct d as [|entry d]; [done|].
  assert (∃ evs', Forall quiet evs'
                  ∧ handle_note_event sg slack event_data w
                    = (Ok ("success", 200),
                       emit w (evs ++ evs'
                               ++ fanout_events slack project_name sequence_name name
                                    (note_message note annotated_frame_url) (entry :: d))))
    as (evs' & Hquiet & Hfull).
  { rewrite Hrun. cbv zeta.
    destruct Hkind as [[Hkind Hresolve]|[(Hkind & -> & Hresolve)|(Hkind & -> & Hresolve)]];
      rewrite Hkind.
    - destruct (get_assigned_users_from_tasks_quiet sg (PyInt (link_id link)) w)
        as (evs' & Hquiet & Hres).
      rewrite Hresolve in Hres. exists evs'. split; [done|].
      rewrite bool_decide_true by done.
      erewrite bind_run by apply Hres. cbv beta iota.
      erewrite bind_run by apply per_step_fanout_run.
      unfold ret. by rewrite !emit_emit.
    - destruct (get_assigned_users_from_asset_tasks_quiet sg (PyInt (link_id link)) w)
        as (evs' & Hquiet & Hres).
      rewrite Hresolve in Hres. exists evs'. split; [done|].
      rewrite bool_decide_false by done. rewrite bool_decide_true by done.
      erewrite bind_run by apply Hres. cbv beta iota.
      erewrite bind_run by apply per_step_fanout_run.
      unfold ret. by rewrite !emit_emit.
    - destruct (get_assigned_users_from_version_tasks_quiet sg (PyInt (link_id link)) w)
        as (evs' & Hquiet & Hres).
      rewrite Hresolve in Hres. exists evs'. split; [done|].
      rewrite !bool_decide_false by done. rewrite bool_decide_true by done. cbn [orb].
      erewrite bind_run by apply Hres. cbv beta iota.
      erewrite bind_run by apply per_step_fanout_run.
      unfold ret. by rewrite !emit_emit. }
  erewrite webhook_ok by (rewrite dispatch_note by done; apply Hfull).
  cbn [fst snd]. split; [done|].
  rewrite trace_emit, !posts_of_app, posts_of_fanout, Hposts, (quiet_posts evs' Hquiet).
  done.
Qed.

Lemma note_event_notifies_linked_entity_witness :
  posts_of (trace (webhook studio_sg demo_slack (Json (demo_note_event 60)) demo_world).2)
  = [("U1", "In Atlas|N/A|chair|model" +:+ nl +:+ "Nora added a note:" +:+ nl
            +:+ "Fix the rig" +:+ nl +:+ "Annotated Frame: https://files/2.png")].
Proof.
  pose proof (note_event_notifies_linked_entity studio_sg demo_slack (demo_note_event 60)
                demo_world _ _ _ "https://files/2.png" [(Some "model", [Some "a@x"])]
                (Some "chair") (Some "N/A") (Some "Atlas")
                eq_refl eq_refl eq_refl eq_refl eq_refl eq_refl) as H.
  destruct H as [_ Hposts].
  - discriminate.
  - right; left. split_and!; reflexivity.
  - rewrite Hposts. reflexivity.
Defined.

(** ** More edges *)

(** X24: for a reply to a note without links, the author is looked up
    in Slack at most once, by the email of the reply record: not at all
    when that email is null or empty, and under the literal address
    ["unknown"] when the record has no email key. *)
Theorem reply_author_lookup sg slack event_data w reply :
  entity_type (meta event_data) = Some "Reply" →
  event_type event_data = Some "Shotgun_Reply_New" →
  operation event_data = Some "create" →
  find_one_Reply sg (entity_id (meta event_data)) = Some reply →
  truthy_list (dict_get (reply_note_links reply) []) = false →
  lookups_of (trace (webhook sg slack (Json event_data) w).2)
  = lookups_of (trace w)
    ++ match reply_created_by_email reply with
       | Missing => [Some "unknown"]
       | Null => []
       | Has email => if bool_decide (email ≠ "") then [Some email] else []
       end.
Proof.
  intros Het Hev Hop Hreply Hlinks.
  assert (∃ response evs,
            handle_reply_event sg slack event_data w = (Ok response, emit w evs)
            ∧ lookups_of evs
              = match reply_created_by_email reply with
                | Missing => [Some "unknown"]
                | Null => []
                | Has email => if bool_decide (email ≠ "") then [Some email] else []
                end) as (response & evs & Hrun & Hlookups).
  { unfold handle_reply_event. cbv zeta.
    erewrite bind_run by apply logging_run.
    erewrite bind_run by apply sg_find_one_run. rewrite Hreply.
    erewrite bind_run by apply reply_author_lookup_run.
    assert (∀ email, lookups_of (lookup_events slack email) = [email]) as Hone.
    { intros email. unfold lookup_events.
      by destruct (users_lookupByEmail slack email). }
    set (author := dict_get (reply_created_by_email reply) "unknown").
    assert (lookups_of (if truthy author then lookup_events slack author else [])
            = match reply_created_by_email reply with
              | Missing => [Some "unknown"]
              | Null => []
              | Has email => if bool_decide (email ≠ "") then [Some email] else []
              end) as Hauthor.
    { subst author. destruct (reply_created_by_email reply) as [| |email]; simpl.
      - apply Hone.
      - done.
      - destruct (bool_decide (email ≠ "")); [apply Hone|done]. }
    destruct (dict_get (reply_note_links reply) []) as [[|link rest]|]; try done;
      destruct (truthy (if truthy author then chat_id_of slack author else None)).
    all: first [ erewrite bind_run by apply send_slack_message_run
               | erewrite bind_run by apply logging_run ].
    all: unfold ret; rewrite !emit_emit; eexists _, _; split; [reflexivity|].
    all: assert (∀ user text, lookups_of (send_events slack user text) = []) as Hsend
           by (intros; unfold send_events; simpl; by destruct (chat_postMessage slack _ _)).
    all: rewrite !lookups_of_app, Hauthor, ?Hsend; simpl; by rewrite ?app_nil_r. }
  erewrite webhook_ok by (rewrite dispatch_reply by done; apply Hrun).
  cbn [snd]. by rewrite trace_emit, lookups_of_app, Hlookups.
Qed.

Lemma reply_author_lookup_witness :
  lookups_of (trace (webhook demo_sg demo_slack (Json (demo_reply_event 40)) demo_world).2)
  = [Some "r@x"].
Proof.
  apply (reply_author_lookup demo_sg demo_slack (demo_reply_event 40) demo_world _
           eq_refl eq_refl eq_refl eq_refl eq_refl).
Defined.

(** X25: an event of entity type ["Shot"] whose old and new values are
    each a string or absent is announced as a status change, whatever
    its event type, operation and attribute name; the labels come from
    the table in effect (the second one) and a value the event does not
    carry is shown as ['None']. (An old or new value that is a JSON
    object or list is outside [Meta]: the table lookup then raises.) *)
Theorem shot_event_of_any_kind sg slack event_data w d shot_name sequence_name project_name :
  entity_type (meta event_data) = Some "Shot" →
  (get_assigned_users_from_tasks sg (entity_id (meta event_data)) w).1
  = Ok (Some d, shot_name, sequence_name, project_name) →
  d ≠ [] →
  (webhook sg slack (Json event_data) w).1 = Ok ("success", 200)
  ∧ posts_of (trace (webhook sg slack (Json event_data) w).2)
    = posts_of (trace w)
      ++ resolved_posts slack project_name sequence_name shot_name
           ("A shot status has been changed from '"
            +:+ match old_value (meta event_data) with
                | Some code => default code (ASSET_STATUS_DESCRIPTIONS !! code)
                | None => "None"
                end
            +:+ "' to '"
            +:+ match new_value (meta event_data) with
                | Some code => default code (ASSET_STATUS_DESCRIPTIONS !! code)
                | None => "None"
                end
            +:+ "'.") d.
Proof.
  intros Het Hresolve Hd.
  destruct (get_assigned_users_from_tasks_quiet sg (entity_id (meta event_data)) w)
    as (evs & Hquiet & Hrun).
  rewrite Hresolve in Hrun.
  destruct d as [|entry d]; [done|].
  erewrite webhook_ok; cycle 1.
  { rewrite dispatch_shot by done. unfold handle_shot_event. cbv zeta.
    rewrite STATUS_DESCRIPTIONS_is_second_binding.
    erewrite bind_run by apply Hrun. cbv beta iota.
    erewrite bind_run by apply per_step_fanout_run.
    unfold ret. rewrite emit_emit. reflexivity. }
  cbn [fst snd]. split; [done|].
  rewrite trace_emit, !posts_of_app, posts_of_fanout, (quiet_posts evs Hquiet).
  simpl. f_equal. f_equal.
  by destruct (old_value (meta event_data)), (new_value (meta event_data)).
Qed.

Lemma shot_event_of_any_kind_witness :
  posts_of (trace (webhook studio_sg demo_slack
                     (Json (demo_event "Shot" 10 "Shotgun_Shot_New" "create" None None None
                              Missing Missing)) demo_world).2)
  = [("U1", "In Atlas|SQ010|SH020|anim" +:+ nl
            +:+ "A shot status has been changed from 'None' to 'None'.")].
Proof.
  pose proof (shot_event_of_any_kind studio_sg demo_slack
                (demo_event "Shot" 10 "Shotgun_Shot_New" "create" None None None
                   Missing Missing) demo_world [(Some "anim", [Some "a@x"])]
                (Some "SH020") (Some "SQ010") (Some "Atlas") eq_refl eq_refl) as H.
  destruct H as [_ Hposts]; [discriminate|].
  rewrite Hposts. reflexivity.
Defined.

(** X26: a task-assignment event whose [removed] list is null fails
    with ["Error processing data", 500] only after every added assignee
    has been notified: the messages of the added assignees are posted
    all the same. A null [added] list fails before anybody is
    notified. *)
Theorem task_event_null_lists sg slack event_data w task link shot :
  entity_type (meta event_data) = Some "Task" →
  event_type event_data = Some "Shotgun_Task_Change" →
  operation event_data = Some "update" →
  attribute_name (meta event_data) = Some "task_assignees" →
  find_one_Task sg (entity_id (meta event_data)) = Some task →
  task_entity task = Has link →
  link_type link = "Shot" →
  find_one_Shot sg (PyInt (link_id link)) = Some shot →
  let project_name := dict_get (shot_project_name shot) "Unknown Project" in
  let sequence_name := dict_get (shot_sequence_code shot) "Unknown Sequence" in
  let step_name := dict_get (task_step_short_name task) "Unknown Step" in
  (∀ added_assignees,
     dict_get (added (meta event_data)) [] = Some added_assignees →
     removed (meta event_data) = Null →
     (webhook sg slack (Json event_data) w).1 = Ok ("Error processing data", 500)
     ∧ posts_of (trace (webhook sg slack (Json event_data) w).2)
       = posts_of (trace w)
         ++ omap (notify_post sg slack project_name sequence_name (link_name link)
                    step_name "You have been assigned to a task.") added_assignees)
  ∧ (added (meta event_data) = Null →
     (webhook sg slack (Json event_data) w).1 = Ok ("Error processing data", 500)
     ∧ lookups_of (trace (webhook sg slack (Json event_data) w).2) = lookups_of (trace w)
     ∧ posts_of (trace (webhook sg slack (Json event_data) w).2) = posts_of (trace w)).
Proof.
  intros Het Hev Hop Hattr Htask Hentity Htype Hshot project_name sequence_name step_name.
  split.
  - intros added_assignees Hadded Hremoved.
    erewrite webhook_reports_exception; cycle 1.
    { rewrite dispatch_task by done.
      unfold handle_task_assignment_event. cbv zeta.
      rewrite Hattr, bool_decide_false by (intros H; by apply H).
      rewrite Hadded, Hremoved.
      erewrite bind_run by apply sg_find_one_run. rewrite Htask, Hentity.
      cbn [dict_get_none]. rewrite bool_decide_true by done.
      erewrite bind_run by apply sg_find_one_run. rewrite Hshot.
      unfold for_each_iter.
      erewrite bind_run by (apply for_each_run; intros; apply notify_assignee_run).
      cbn [dict_get]. unfold bind, raise. rewrite !emit_emit. reflexivity. }
    cbn [fst snd]. split; [done|].
    rewrite !trace_emit, !posts_of_app, posts_of_notify_events. simpl.
    by rewrite !app_nil_r.
  - intros Hadded.
    erewrite webhook_reports_exception; cycle 1.
    { rewrite dispatch_task by done.
      unfold handle_task_assignment_event. cbv zeta.
      rewrite Hattr, bool_decide_false by (intros H; by apply H).
      rewrite Hadded.
      erewrite bind_run by apply sg_find_one_run. rewrite Htask, Hentity.
      cbn [dict_get_none]. rewrite bool_decide_true by done.
      erewrite bind_run by apply sg_find_one_run. rewrite Hshot.
      unfold for_each_iter. cbn [dict_get]. unfold bind, raise.
      rewrite !emit_emit. reflexivity. }
    cbn [fst snd]. split; [done|].
    rewrite !trace_emit, !posts_of_app, !lookups_of_app. simpl.
    by rewrite !app_nil_r.
Qed.

Lemma task_event_null_lists_witness :
  (webhook studio_sg demo_slack
     (Json (demo_event "Task" 5 "Shotgun_Task_Change" "update" (Some "task_assignees")
              None None (Has [{| assignee_id := 1 |}]) Null)) demo_world).1
  = Ok ("Error processing data", 500)
  ∧ posts_of (trace (webhook studio_sg demo_slack
                       (Json (demo_event "Task" 5 "Shotgun_Task_Change" "update"
                                (Some "task_assignees") None None
                                (Has [{| assignee_id := 1 |}]) Null)) demo_world).2)
    = [("U1", "In Atlas|SQ010|SH020|anim" +:+ nl +:+ "You have been assigned to a task.")].
Proof.
  pose proof (proj1 (task_event_null_lists studio_sg demo_slack
                       (demo_event "Task" 5 "Shotgun_Task_Change" "update"
                          (Some "task_assignees") None None
                          (Has [{| assignee_id := 1 |}]) Null) demo_world _ _ _
                       eq_refl eq_refl eq_refl eq_refl eq_refl eq_refl eq_refl eq_refl)
                _ eq_refl eq_refl) as [Hr Hp].
  split; [exact Hr|]. rewrite Hp. reflexivity.
Defined.

(** X27: a note whose [attachments] field is null fails with
    ["Error processing data", 500] although its linked entity could be
    resolved: the attachments are read before the recipients, and
    nobody is notified. *)
Theorem note_event_null_attachments sg slack event_data w note link rest :
  entity_type (meta event_data) = Some "Note" →
  event_type event_data = Some "Shotgun_Note_New" →
  operation event_data = Some "create" →
  find_one_Note sg (entity_id (meta event_data)) = Some note →
  dict_get (note_links note) [] = Some (link :: rest) →
  note_attachments note = Null →
  webhook sg slack (Json event_data) w
  = (Ok ("Error processing data", 500),
     emit w [EvLog INFO ("New note created with ID: "
                         +:+ fmt_val (entity_id (meta event_data)));
             EvQuery (FindOne "Note" (entity_id (meta event_data)));
             EvQuery (FindOne "Note" (entity_id (meta event_data)));
             EvLog ERROR ("Error processing the request: "
                          +:+ "'NoneType' object is not iterable")]).
Proof.
  intros Het Hev Hop Hnote Hlinks Hattachments.
  erewrite webhook_reports_exception; cycle 1.
  { rewrite dispatch_note by done. unfold handle_note_event. cbv zeta.
    erewrite bind_run by apply logging_run.
    erewrite bind_run by apply sg_find_one_run. rewrite Hnote, Hlinks.
    unfold get_attachments_ids_from_note_id. cbv zeta.
    unfold bind at 1. unfold bind at 1. rewrite sg_find_one_run, Hnote, Hattachments.
    unfold raise. rewrite !emit_emit. reflexivity. }
  by rewrite emit_emit.
Qed.

Lemma note_event_null_attachments_witness :
  (webhook
     {| find_one_HumanUser := studio_user; find_one_Shot := studio_shot;
        find_one_Asset := studio_asset; find_one_Version := studio_version;
        find_one_Task := studio_task;
        find_one_Note := λ _,
          Some {| note_content := Has "Fix the rig"; note_created_by_email := Has "n@x";
                  note_created_by_name := Has "Nora"; note_attachments := Null;
                  note_links :=
                    Has [{| link_type := "Asset"; link_id := 70; link_name := "n" |}] |};
        find_one_Attachment := studio_attachment; find_one_Reply := λ _, None;
        find_Task := studio_tasks |}
     demo_slack (Json (demo_note_event 60)) demo_world).1
  = Ok ("Error processing data", 500).
Proof.
  match goal with
  | |- (webhook ?sg _ _ _).1 = _ =>
      by rewrite (note_event_null_attachments sg demo_slack (demo_note_event 60) demo_world
                    _ _ _ eq_refl eq_refl eq_refl eq_refl eq_refl eq_refl)
  end.
Defined.
